(** * Weight Sync Manager: exporter, importer and the Save operator

    A shallow embedding of [Weight_Sync_Manager.py]: [save_weights],
    [load_weights] and [WEIGHTSYNC_OT_save.execute], over a model of the
    Python values they handle and of the host primitives they call. *)

From Stdlib Require Import ZArith String Ascii List Bool Lia Floats DecimalNat.
From Stdlib Require DecimalString.
From stdpp Require Import base option list gmap strings.

Set Warnings "-register-all".
Local Open Scope string_scope.
Local Open Scope list_scope.

(** ** Python values and built-ins *)

Module Py.

(** Exceptions the addon can meet, by class. *)
Inductive exn :=
| KeyError (key : string)
| AttributeError
| TypeError
| ValueError
| OverflowError
| RuntimeError
| OSError
| JSONDecodeError.

(** A statement either completes or raises. *)
Inductive outcome (A : Type) :=
| Return (a : A)
| Raise (e : exn).
Arguments Return {A} a.
Arguments Raise {A} e.

(** What [json.load] hands back: [None], [bool], [int], [float], [str],
    [list] and [dict].  A [dict] keeps its keys in insertion order. *)
Inductive json :=
| JNull
| JBool (b : bool)
| JInt (z : Z)
| JFloat (f : float)
| JStr (s : string)
| JList (l : list json)
| JObj (d : list (string * json)).

Section dict.
Context {V : Type}.

(** [d[k]], [None] standing for the missing key. *)
Fixpoint dict_get (k : string) (d : list (string * V)) : option V :=
  match d with
  | [] => None
  | (k', v) :: d' => if String.eqb k' k then Some v else dict_get k d'
  end.

(** [d[k] = v]: an existing key keeps its place, a new one goes last. *)
Fixpoint dict_set (k : string) (v : V) (d : list (string * V)) : list (string * V) :=
  match d with
  | [] => [(k, v)]
  | (k', v') :: d' =>
      if String.eqb k' k then (k, v) :: d' else (k', v') :: dict_set k v d'
  end.
End dict.

(** [s.add(x)] on a set of strings.  Python leaves the order in which a
    set is listed open; here it is the order of first insertion. *)
Definition set_add (x : string) (s : list string) : list string :=
  if existsb (String.eqb x) s then s else s ++ [x].

(** [max(a, b)] and [min(a, b)]: the second argument wins only when it is
    strictly larger (smaller). *)
Definition max (a b : float) : float := if PrimFloat.ltb a b then b else a.
Definition min (a b : float) : float := if PrimFloat.ltb b a then b else a.

(** [str(n)] for a non-negative [int]. *)
Definition str (n : nat) : string :=
  DecimalString.NilEmpty.string_of_uint (Nat.to_uint n).

(** [int(s)]: surrounding white space, an optional sign, decimal digits
    with single underscores between them. *)
Definition is_space (a : ascii) : bool :=
  let n := nat_of_ascii a in
  ((9 <=? n)%nat && (n <=? 13)%nat) || ((28 <=? n)%nat && (n <=? 32)%nat).

Definition digit_of (a : ascii) : option Z :=
  let n := nat_of_ascii a in
  if (48 <=? n)%nat && (n <=? 57)%nat then Some (Z.of_nat (n - 48)) else None.

Fixpoint lstrip (s : list ascii) : list ascii :=
  match s with
  | a :: s' => if is_space a then lstrip s' else s
  | [] => []
  end.

Definition strip (s : list ascii) : list ascii := rev (lstrip (rev (lstrip s))).

Fixpoint digits (acc : Z) (after_digit : bool) (s : list ascii) : option Z :=
  match s with
  | [] => if after_digit then Some acc else None
  | a :: s' =>
      match digit_of a with
      | Some d => digits (10 * acc + d) true s'
      | None =>
          if Ascii.eqb a "_" && after_digit then digits acc false s' else None
      end
  end.

Definition int (s : string) : outcome Z :=
  let body :=
    match strip (list_ascii_of_string s) with
    | a :: s' =>
        if Ascii.eqb a "-" then option_map Z.opp (digits 0 false s')
        else if Ascii.eqb a "+" then digits 0 false s'
        else digits 0 false (a :: s')
    | [] => None
    end in
  match body with
  | Some z => Return z
  | None => Raise ValueError
  end.

(** [n != v] for an [int] [n] and a loaded value [v].  Numbers compare by
    value across [int], [float] and [bool]; anything else differs. *)
Definition float_is_Z (f : float) (z : Z) : bool :=
  match Prim2SF f with
  | S754_zero _ => Z.eqb z 0
  | S754_finite s m e =>
      let v := if s then Z.neg m else Z.pos m in
      if Z.leb 0 e then Z.eqb z (v * 2 ^ e)
      else Z.eqb (v mod 2 ^ (- e)) 0 && Z.eqb z (v / 2 ^ (- e))
  | _ => false
  end.

Definition int_ne (n : Z) (v : json) : bool :=
  match v with
  | JInt z => negb (Z.eqb n z)
  | JBool b => negb (Z.eqb n (if b then 1 else 0))
  | JFloat f => negb (float_is_Z f n)
  | _ => true
  end.

(** [v > 0.0]. *)
Definition gt_zero (v : json) : outcome bool :=
  match v with
  | JFloat f => Return (PrimFloat.ltb 0 f)
  | JInt z => Return (Z.ltb 0 z)
  | JBool b => Return b
  | _ => Raise TypeError
  end.

(** A value handed to a C [float] parameter. *)
Definition as_float (v : json) : outcome float :=
  match v with
  | JFloat f => Return f
  | JBool b => Return (if b then 1%float else 0%float)
  | JInt z =>
      match binary_normalize prec emax z 0 false with
      | S754_infinity _ => Raise OverflowError
      | sf => Return (SF2Prim sf)
      end
  | _ => Raise TypeError
  end.

(** [v.get(k)] *)
Definition get (v : json) (k : string) : outcome json :=
  match v with
  | JObj d => Return (default JNull (dict_get k d))
  | _ => Raise AttributeError
  end.

(** [v[k]] for a string [k] *)
Definition getitem (v : json) (k : string) : outcome json :=
  match v with
  | JObj d =>
      match dict_get k d with
      | Some x => Return x
      | None => Raise (KeyError k)
      end
  | _ => Raise TypeError
  end.

(** [v.items()] *)
Definition items (v : json) : outcome (list (string * json)) :=
  match v with
  | JObj d => Return d
  | _ => Raise AttributeError
  end.

(** The values [for x in v] goes through: the items of a list, the keys
    of a dictionary, the characters of a string (one per byte here). *)
Definition iter (v : json) : outcome (list json) :=
  match v with
  | JList l => Return l
  | JObj d => Return (map (fun kv => JStr (fst kv)) d)
  | JStr s => Return (map (fun a => JStr (String a EmptyString)) (list_ascii_of_string s))
  | _ => Raise TypeError
  end.

End Py.

(** ** The host: mesh objects, vertex groups, files

    The primitives of the 3D editor and of the file system that the addon
    calls, with the object in object mode.  A vertex group is a name and
    the weights of the vertices assigned to it; an object's groups form an
    ordered collection addressed by name.  Names and weights are kept as
    they are given. *)

Module bpy.
Import Py.

Record VertexGroup := {
  vg_name : string;               (* g.name *)
  vg_weights : gmap nat float     (* vertex index -> weight, for assigned vertices *)
}.

Record Object := {
  name : string;
  type : string;                      (* 'MESH', 'CURVE', ... *)
  vertices : nat;                     (* len(obj.data.vertices); v.index = 0 .. n-1 *)
  vertex_groups : list VertexGroup
}.

Definition with_groups (o : Object) (vgs : list VertexGroup) : Object :=
  {| name := name o; type := type o; vertices := vertices o; vertex_groups := vgs |}.

(** [g.weight(index)]: raises when the vertex is not in the group. *)
Definition weight (g : VertexGroup) (index : nat) : outcome float :=
  match vg_weights g !! index with
  | Some w => Return w
  | None => Raise RuntimeError
  end.

(** Position of the first group called [key]. *)
Fixpoint find (key : string) (vgs : list VertexGroup) : option nat :=
  match vgs with
  | [] => None
  | g :: vgs' => if String.eqb (vg_name g) key then Some 0 else option_map S (find key vgs')
  end.

(** [key in obj.vertex_groups]: only a string can be looked up. *)
Definition contains (key : json) (vgs : list VertexGroup) : outcome bool :=
  match key with
  | JStr s => Return (bool_decide (is_Some (find s vgs)))
  | _ => Raise TypeError
  end.

(** [obj.vertex_groups[key]]: a reference to the group, here its position. *)
Definition getitem (key : string) (vgs : list VertexGroup) : outcome nat :=
  match find key vgs with
  | Some i => Return i
  | None => Raise (KeyError key)
  end.

(** [obj.vertex_groups.new(name=key)], for a name not yet in use. *)
Definition new (key : json) (vgs : list VertexGroup) : outcome (list VertexGroup) :=
  match key with
  | JStr s => Return (vgs ++ [{| vg_name := s; vg_weights := ∅ |}])
  | _ => Raise TypeError
  end.

(** [obj.vertex_groups.remove(vg)]: unlinks that group. *)
Fixpoint remove (vg : VertexGroup) (vgs : list VertexGroup) : list VertexGroup :=
  match vgs with
  | [] => []
  | g :: vgs' => if String.eqb (vg_name g) (vg_name vg) then vgs' else g :: remove vg vgs'
  end.

(** [vgroup.add([index], weight, 'REPLACE')] on the group at position [ref]
    of a mesh with [n] vertices: the weight of that vertex is set; an index
    that is no vertex of the mesh is ignored. *)
Definition add (n : nat) (ref : nat) (index : Z) (w : float)
    (vgs : list VertexGroup) : list VertexGroup :=
  if (Z.leb 0 index && Z.ltb index (Z.of_nat n))%Z then
    alter (fun g => {| vg_name := vg_name g;
                       vg_weights := <[Z.to_nat index := w]> (vg_weights g) |}) ref vgs
  else vgs.

(** Files: a path leads to a directory or to a text file, whose text
    [json.load] either parses or rejects; [denied] are the paths that cannot
    be opened for writing. *)
Inductive content :=
| Json (j : json)
| Malformed.

Inductive node :=
| File (c : content)
| Dir.

Record FS := {
  nodes : gmap string node;
  denied : gset string
}.

(** [os.path.exists(path)] *)
Definition path_exists (fs : FS) (path : string) : bool :=
  bool_decide (is_Some (nodes fs !! path)).

(** [open(path, 'r')] followed by [json.load(f)] *)
Definition read_json (fs : FS) (path : string) : outcome json :=
  match nodes fs !! path with
  | Some (File (Json j)) => Return j
  | Some (File Malformed) => Raise JSONDecodeError
  | _ => Raise OSError
  end.

(** Whether [open(path, 'w')] succeeds. *)
Definition writable (fs : FS) (path : string) : bool :=
  match nodes fs !! path with
  | Some Dir => false
  | _ => negb (bool_decide (path ∈ denied fs))
  end.

(** [open(path, 'w')] followed by [json.dump(j, f, indent=2)], taken as one
    step that can fail at the open only: a failure while the text is being
    written, as on a full disk, is left out, and a path is the file it
    names. *)
Definition write_json (fs : FS) (path : string) (j : json) : outcome FS :=
  if writable fs path
  then Return {| nodes := <[path := File (Json j)]> (nodes fs); denied := denied fs |}
  else Raise OSError.

End bpy.

(** ** The addon *)

Import Py.

(** The strings the addon returns or reports. *)
Inductive message :=
| NoValidMesh                                      (* "No valid mesh selected" *)
| ErrorSaving (e : exn)                            (* f"Error saving weights: {str(e)}" *)
| WeightFileNotFound (filepath : string)           (* f"Weight file not found: {filepath}" *)
| VertexCountMismatch (file_has : json) (mesh_has : nat)
| ErrorLoading (e : exn)                           (* f"Error loading weights: {str(e)}" *)
| WeightsSaved (filepath : string).                (* f"Weights saved to {self.filepath}" *)

(** The lines the addon prints. *)
Inductive line :=
| WeightValidationData
| VerticesWithWeights (n : nat)
| GroupsWithWeights (groups : list string)
| WeightRange (lo hi : float)
| LoadValidation
| VerticesAffected (n : nat)
| GroupsCreated (n : nat).

(** *** [save_weights] *)

(** The inner loop of the scan: the weights of vertex [index], group by
    group; a vertex that is not in a group is passed over. *)
Definition vertex_weights (vgs : list bpy.VertexGroup) (index : nat) : list (string * float) :=
  fold_left
    (fun v_weights g =>
       match bpy.weight g index with
       | Return weight =>
           if PrimFloat.ltb 0 weight
           then dict_set (bpy.vg_name g) weight v_weights
           else v_weights
       | Raise _ => v_weights
       end)
    vgs [].

(** The outer loop: [weight_data["vertex_groups"]] after the scan. *)
Definition scan (o : bpy.Object) : list (string * list (string * float)) :=
  fold_left
    (fun vertex_groups index =>
       match vertex_weights (bpy.vertex_groups o) index with
       | [] => vertex_groups
       | v_weights => dict_set (str index) v_weights vertex_groups
       end)
    (seq 0 (bpy.vertices o)) [].

Record Validation := {
  total_vertices_with_weights : nat;
  groups_with_weights : list string;
  max_weight : float;
  min_weight : float
}.

(** The validation step: a second pass over the collected map. *)
Definition validate (vertex_groups : list (string * list (string * float))) : Validation :=
  fold_left
    (fun validation v_weights =>
       fold_left
         (fun validation (gw : string * float) =>
            {| total_vertices_with_weights := total_vertices_with_weights validation;
               groups_with_weights := set_add (fst gw) (groups_with_weights validation);
               max_weight := Py.max (max_weight validation) (snd gw);
               min_weight := Py.min (min_weight validation) (snd gw) |})
         v_weights validation)
    (map snd vertex_groups)
    {| total_vertices_with_weights := length vertex_groups;
       groups_with_weights := [];
       max_weight := 0;
       min_weight := 1 |}.

(** How [json.dump] and [json.load] render the stored map: floats as
    floats, dictionaries as dictionaries, in the same order. *)
Definition dump_pair (gw : string * float) : string * json := (fst gw, JFloat (snd gw)).

Definition dump_entry (kv : string * list (string * float)) : string * json :=
  (fst kv, JObj (map dump_pair (snd kv))).

(** The document handed to [json.dump]. *)
Definition weight_data (o : bpy.Object) : json :=
  let vertex_groups := scan o in
  let validation := validate vertex_groups in
  JObj
    [ ("object_name", JStr (bpy.name o));
      ("vertex_count", JInt (Z.of_nat (bpy.vertices o)));
      ("group_names", JList (map (fun g => JStr (bpy.vg_name g)) (bpy.vertex_groups o)));
      ("vertex_groups", JObj (map dump_entry vertex_groups));
      ("validation",
        JObj
          [ ("vertices_with_weights", JInt (Z.of_nat (total_vertices_with_weights validation)));
            ("groups_with_weights", JList (map JStr (groups_with_weights validation)));
            ("weight_range", JList [JFloat (min_weight validation); JFloat (max_weight validation)]) ]) ].

Definition save_weights (obj : option bpy.Object) (filepath : string) (fs : bpy.FS)
    : option message * bpy.FS * list line :=
  match obj with
  | None => (Some NoValidMesh, fs, [])
  | Some o =>
      if negb (String.eqb (bpy.type o) "MESH") then (Some NoValidMesh, fs, [])
      else
        let validation := validate (scan o) in
        match bpy.write_json fs filepath (weight_data o) with
        | Return fs' =>
            (None, fs',
             [ WeightValidationData;
               VerticesWithWeights (total_vertices_with_weights validation);
               GroupsWithWeights (groups_with_weights validation);
               WeightRange (min_weight validation) (max_weight validation) ])
        | Raise e => (Some (ErrorSaving e), fs, [])
        end
  end.

(** *** [load_weights]

    The body of the [try] reads the mesh's vertex count and mutates
    [obj.vertex_groups]: a statement takes the count and the groups as they
    are and leaves the groups as it made them, whether it completes or
    raises. *)

Definition M (A : Type) : Type :=
  nat -> list bpy.VertexGroup -> outcome A * list bpy.VertexGroup.

Definition ret {A} (a : A) : M A := fun _ vgs => (Return a, vgs).

Definition bind {A B} (m : M A) (k : A -> M B) : M B :=
  fun n vgs =>
    match m n vgs with
    | (Return a, vgs') => k a n vgs'
    | (Raise e, vgs') => (Raise e, vgs')
    end.

Definition lift {A} (r : outcome A) : M A := fun _ vgs => (r, vgs).

(** [len(obj.data.vertices)] *)
Definition vertex_total : M nat := fun n vgs => (Return n, vgs).

(** Read [obj.vertex_groups], or replace it. *)
Definition groups : M (list bpy.VertexGroup) := fun _ vgs => (Return vgs, vgs).
Definition set_groups (vgs : list bpy.VertexGroup) : M unit := fun _ _ => (Return tt, vgs).

Notation "'let*' x ':=' m 'in' k" := (bind m (fun x => k))
  (at level 10, x name, m at level 200, k at level 200).
Notation "'run' m 'in' k" := (bind m (fun _ => k))
  (at level 10, m at level 200, k at level 200).

(** [for x in l: acc = body(x, acc)] *)
Fixpoint for_each {A S} (l : list A) (acc : S) (body : A -> S -> M S) : M S :=
  match l with
  | [] => ret acc
  | x :: l' => let* acc' := body x acc in for_each l' acc' body
  end.

(** [for vg in obj.vertex_groups: obj.vertex_groups.remove(vg)].  The
    host's iterator steps to the following group before it hands out the
    current one, so unlinking the current group does not disturb the walk. *)
Definition remove_group (vg : bpy.VertexGroup) (_ : unit) : M unit :=
  let* vgs := groups in
  set_groups (bpy.remove vg vgs).

Definition clear_groups : M unit :=
  let* vgs := groups in
  for_each vgs tt remove_group.

(** [for group_name in names: if group_name not in obj.vertex_groups:
    obj.vertex_groups.new(name=group_name)] *)
Definition create_group (group_name : json) (_ : unit) : M unit :=
  let* vgs := groups in
  let* present := lift (bpy.contains group_name vgs) in
  if negb present
  then let* vgs' := lift (bpy.new group_name vgs) in set_groups vgs'
  else ret tt.

Definition create_groups (names : list json) : M unit :=
  for_each names tt create_group.

(** The inner loop of the application, over [groups.items()]: one pair of
    a group name and a weight, then all of them. *)
Definition apply_weight (vertex_idx : Z) (gw : string * json) (vertices_affected : nat) : M nat :=
  let* positive := lift (gt_zero (snd gw)) in
  if positive then
    let* vgs := groups in
    let* vgroup := lift (bpy.getitem (fst gw) vgs) in
    let* w := lift (as_float (snd gw)) in
    let* n := vertex_total in
    run set_groups (bpy.add n vgroup vertex_idx w vgs) in
    ret (S vertices_affected)
  else ret vertices_affected.

Definition apply_groups (vertex_idx : Z) (pairs : list (string * json))
    (vertices_affected : nat) : M nat :=
  for_each pairs vertices_affected (apply_weight vertex_idx).

(** The outer loop, over [weight_data["vertex_groups"].items()]: one entry,
    then all of them. *)
Definition apply_entry (kv : string * json) (vertices_affected : nat) : M nat :=
  let* vertex_idx := lift (int (fst kv)) in
  let* n := vertex_total in
  if Z.ltb vertex_idx (Z.of_nat n) then
    let* pairs := lift (items (snd kv)) in
    apply_groups vertex_idx pairs vertices_affected
  else ret vertices_affected.

Definition apply_weights (entries : list (string * json)) : M nat :=
  for_each entries 0 apply_entry.

(** [len(x)] of something that was iterated over. *)
Definition len (v : json) : outcome nat :=
  match iter v with
  | Return l => Return (length l)
  | Raise e => Raise e
  end.

(** From the vertex count check to the last [print]. *)
Definition load_body (weight_data : json) : M (option message * list line) :=
  let* n := vertex_total in
  let* recorded := lift (get weight_data "vertex_count") in
  if int_ne (Z.of_nat n) recorded then
    let* file_has := lift (getitem weight_data "vertex_count") in
    ret (Some (VertexCountMismatch file_has n), [])
  else
    run clear_groups in
    let* group_names := lift (getitem weight_data "group_names") in
    let* names := lift (iter group_names) in
    run create_groups names in
    let* vertex_groups := lift (getitem weight_data "vertex_groups") in
    let* entries := lift (items vertex_groups) in
    let* vertices_affected := apply_weights entries in
    let* group_names' := lift (getitem weight_data "group_names") in
    let* created := lift (len group_names') in
    ret (None, [LoadValidation; VerticesAffected vertices_affected; GroupsCreated created]).

(** The whole [try] block: open, parse, then the body. *)
Definition load_try (filepath : string) (fs : bpy.FS) : M (option message * list line) :=
  let* weight_data := lift (bpy.read_json fs filepath) in
  load_body weight_data.

Definition load_weights (obj : option bpy.Object) (filepath : string) (fs : bpy.FS)
    : option message * option bpy.Object * list line :=
  match obj with
  | None => (Some NoValidMesh, obj, [])
  | Some o =>
      if negb (String.eqb (bpy.type o) "MESH") then (Some NoValidMesh, obj, [])
      else if negb (bpy.path_exists fs filepath) then (Some (WeightFileNotFound filepath), obj, [])
      else
        match load_try filepath fs (bpy.vertices o) (bpy.vertex_groups o) with
        | (Return (result, printed), vgs) => (result, Some (bpy.with_groups o vgs), printed)
        | (Raise e, vgs) => (Some (ErrorLoading e), Some (bpy.with_groups o vgs), [])
        end
  end.

(** *** The Save operator *)

Record WeightSyncSettings := {
  weight_file : string;
  is_active : bool
}.

Inductive level := ERROR | INFO.

(** What [execute] reads and writes: the scene's settings, the active
    object, the files, the reports shown to the user and the console. *)
Record Context := {
  weight_sync_settings : WeightSyncSettings;
  active_object : option bpy.Object;
  files : bpy.FS;
  reports : list (level * message);
  stdout : list line
}.

(** [WEIGHTSYNC_OT_save.execute], for an operator whose [filepath] is set;
    it always returns [{'FINISHED'}]. *)
Definition WEIGHTSYNC_OT_save_execute (filepath : string) (context : Context) : Context :=
  let settings := weight_sync_settings context in
  let obj := active_object context in
  match save_weights obj filepath (files context) with
  | (Some error, fs, printed) =>
      {| weight_sync_settings := settings;
         active_object := obj;
         files := fs;
         reports := reports context ++ [(ERROR, error)];
         stdout := stdout context ++ printed |}
  | (None, fs, printed) =>
      {| weight_sync_settings := {| weight_file := filepath; is_active := true |};
         active_object := obj;
         files := fs;
         reports := reports context ++ [(INFO, WeightsSaved filepath)];
         stdout := stdout context ++ printed |}
  end.

(** ** Notions the properties are stated with *)

Definition names (vgs : list bpy.VertexGroup) : list string := map bpy.vg_name vgs.

(** [obj.vertex_groups[g].weight(v)], [None] when the group or the
    assignment is missing. *)
Definition weight_of (vgs : list bpy.VertexGroup) (g : string) (v : nat) : option float :=
  match bpy.find g vgs with
  | Some i =>
      match vgs !! i with
      | Some grp => bpy.vg_weights grp !! v
      | None => None
      end
  | None => None
  end.

(** A weight the exporter keeps: present and above 0.0. *)
Definition kept (w : option float) : option float :=
  match w with
  | Some x => if PrimFloat.ltb 0 x then Some x else None
  | None => None
  end.

(** What a document stores for group [g] under vertex [v]. *)
Definition stored (doc : json) (g : string) (v : nat) : option json :=
  match getitem doc "vertex_groups" with
  | Return (JObj entries) =>
      match dict_get (str v) entries with
      | Some (JObj pairs) => dict_get g pairs
      | _ => None
      end
  | _ => None
  end.

(** The document [doc] mentions group [g] under some vertex. *)
Definition names_group (doc : json) (g : string) : Prop :=
  exists entries k pairs w,
    getitem doc "vertex_groups" = Return (JObj entries) /\
    In (k, JObj pairs) entries /\ In (g, w) pairs.

(** The document [doc] lists group [g] in [group_names]. *)
Definition lists_group (doc : json) (g : string) : Prop :=
  exists l, getitem doc "group_names" = Return (JList l) /\ In (JStr g) l.

(** A document of the shape the data model describes: an integer
    [vertex_count], a list of strings [group_names], and [vertex_groups]
    mapping vertex indices, written as strings, to maps from listed group
    names to floats. *)
Definition is_str (v : json) : bool := match v with JStr _ => true | _ => false end.

Definition valid_pair (group_names : list json) (gw : string * json) : bool :=
  match snd gw with
  | JFloat _ =>
      existsb (fun x => match x with JStr s => String.eqb s (fst gw) | _ => false end) group_names
  | _ => false
  end.

Definition valid_entry (group_names : list json) (kv : string * json) : bool :=
  match int (fst kv), snd kv with
  | Return idx, JObj pairs => Z.leb 0 idx && forallb (valid_pair group_names) pairs
  | _, _ => false
  end.

Definition valid_document (doc : json) : bool :=
  match doc with
  | JObj d =>
      match dict_get "vertex_count" d, dict_get "group_names" d, dict_get "vertex_groups" d with
      | Some (JInt _), Some (JList group_names), Some (JObj entries) =>
          forallb is_str group_names && forallb (valid_entry group_names) entries
      | _, _, _ => false
      end
  | _ => false
  end.

(** An entry whose index is below the vertex count, and the document
    with the other entries taken out. *)
Definition in_range (n : nat) (kv : string * json) : bool :=
  match int (fst kv) with
  | Return idx => Z.ltb idx (Z.of_nat n)
  | Raise _ => true
  end.

Definition without_out_of_range (n : nat) (doc : json) : json :=
  match doc with
  | JObj d =>
      match dict_get "vertex_groups" d with
      | Some (JObj entries) =>
          JObj (dict_set "vertex_groups" (JObj (List.filter (in_range n) entries)) d)
      | _ => doc
      end
  | _ => doc
  end.

(** What a document asks group [g] to carry at vertex [v]: going through
    the entries that read as [v] in their order, and through their pairs
    in theirs, the weight of the last pair that names [g] with a weight
    above 0.0; [None] when there is no such pair. *)
Definition give (g : string) (before : option float) (gw : string * json) : option float :=
  match snd gw with
  | JFloat x => if String.eqb (fst gw) g && PrimFloat.ltb 0 x then Some x else before
  | _ => before
  end.

Definition give_entry (g : string) (v : nat) (before : option float) (kv : string * json)
    : option float :=
  match int (fst kv), snd kv with
  | Return idx, JObj pairs =>
      if Z.eqb idx (Z.of_nat v) then fold_left (give g) pairs before else before
  | _, _ => before
  end.

Definition asked (entries : list (string * json)) (g : string) (v : nat) : option float :=
  fold_left (give_entry g v) entries None.

(** The weights a document asks to apply to a mesh of [n] vertices: the
    pairs with a weight above 0.0 under the indices below [n]. *)
Definition positive_pairs (pairs : list (string * json)) : nat :=
  length (List.filter
            (fun gw => match gt_zero (snd gw) with Return b => b | Raise _ => false end) pairs).

Definition assignments (n : nat) (entries : list (string * json)) : nat :=
  list_sum
    (map (fun kv =>
            match int (fst kv), snd kv with
            | Return idx, JObj pairs =>
                if Z.ltb idx (Z.of_nat n) then positive_pairs pairs else 0
            | _, _ => 0
            end) entries).

(** The panel's count of vertices with weights,
    [sum(1 for v in obj.data.vertices if v.groups)]: the vertices that are
    in some group. *)
Definition vertices_with_groups (o : bpy.Object) : nat :=
  length (List.filter
            (fun v => existsb (fun g => bool_decide (is_Some (bpy.vg_weights g !! v)))
                              (bpy.vertex_groups o))
            (seq 0 (bpy.vertices o))).

(** *** The scene, and the operators besides Save

    The operators act on the scene's settings and on the active object,
    which is one of the scene's objects: it is addressed here by its
    position among them, so that what an operator does to it shows in the
    scene. *)

(** The strings reported besides those of [message]. *)
Inductive notice :=
| Said (m : message)
| WeightsLoaded (filepath : string)          (* f"Weights loaded from {self.filepath}" *)
| NoActiveWeightFile                         (* "No active weight file" *)
| WeightsResynced (filepath : string)        (* f"Weights resynced from {settings.weight_file}" *)
| WeightFileCleared.                         (* "Weight file cleared" *)

(** An operator's timer function, as registered with [bpy.app.timers]. *)
Inductive timer :=
| DoResync.

Record SceneObject := {
  ob : bpy.Object;
  library : option string          (* obj.library: None, or the library a linked object is from *)
}.

Record Session := {
  settings : WeightSyncSettings;          (* context.scene.weight_sync_settings *)
  objects : list SceneObject;             (* context.scene.objects *)
  active : option nat;                    (* context.active_object, by position *)
  disk : bpy.FS;
  shown : list (level * notice);          (* self.report(...) *)
  console : list line;                    (* print(...) *)
  scene_ready : bool;                     (* bpy.context.scene is not None *)
  data_filepath : string;                 (* bpy.data.filepath *)
  timers : list timer                     (* bpy.app.timers *)
}.

Definition set_settings (x : WeightSyncSettings) (s : Session) : Session :=
  {| settings := x; objects := objects s; active := active s; disk := disk s;
     shown := shown s; console := console s; scene_ready := scene_ready s;
     data_filepath := data_filepath s; timers := timers s |}.

Definition set_objects (x : list SceneObject) (s : Session) : Session :=
  {| settings := settings s; objects := x; active := active s; disk := disk s;
     shown := shown s; console := console s; scene_ready := scene_ready s;
     data_filepath := data_filepath s; timers := timers s |}.

Definition set_disk (x : bpy.FS) (s : Session) : Session :=
  {| settings := settings s; objects := objects s; active := active s; disk := x;
     shown := shown s; console := console s; scene_ready := scene_ready s;
     data_filepath := data_filepath s; timers := timers s |}.

Definition set_timers (x : list timer) (s : Session) : Session :=
  {| settings := settings s; objects := objects s; active := active s; disk := disk s;
     shown := shown s; console := console s; scene_ready := scene_ready s;
     data_filepath := data_filepath s; timers := x |}.

(** [self.report({lvl}, text)] *)
Definition report (lvl : level) (text : notice) (s : Session) : Session :=
  {| settings := settings s; objects := objects s; active := active s; disk := disk s;
     shown := shown s ++ [(lvl, text)]; console := console s; scene_ready := scene_ready s;
     data_filepath := data_filepath s; timers := timers s |}.

(** What the calls below [print]. *)
Definition printing (printed : list line) (s : Session) : Session :=
  {| settings := settings s; objects := objects s; active := active s; disk := disk s;
     shown := shown s; console := console s ++ printed; scene_ready := scene_ready s;
     data_filepath := data_filepath s; timers := timers s |}.

(** [context.active_object] *)
Definition active_ob (s : Session) : option bpy.Object :=
  match active s with
  | Some i => option_map ob (objects s !! i)
  | None => None
  end.

(** The active object as [load_weights] left it. *)
Definition put_active (obj : option bpy.Object) (s : Session) : Session :=
  match active s, obj with
  | Some i, Some o =>
      set_objects (alter (fun so => {| ob := o; library := library so |}) i (objects s)) s
  | _, _ => s
  end.

(** [WEIGHTSYNC_OT_save.execute] in a session: the operator of above, run
    on the session's settings, active object and files. *)
Definition WEIGHTSYNC_OT_save_execute_in (filepath : string) (s : Session) : Session :=
  let context := WEIGHTSYNC_OT_save_execute filepath
                   {| weight_sync_settings := settings s;
                      active_object := active_ob s;
                      files := disk s;
                      reports := [];
                      stdout := [] |} in
  {| settings := weight_sync_settings context; objects := objects s; active := active s;
     disk := files context;
     shown := shown s ++ map (fun r => (fst r, Said (snd r))) (reports context);
     console := console s ++ stdout context; scene_ready := scene_ready s;
     data_filepath := data_filepath s; timers := timers s |}.

(** [WEIGHTSYNC_OT_load.execute], for an operator whose [filepath] is set. *)
Definition WEIGHTSYNC_OT_load_execute (filepath : string) (s : Session) : Session :=
  match load_weights (active_ob s) filepath (disk s) with
  | (Some error, obj, printed) =>
      report ERROR (Said error) (printing printed (put_active obj s))
  | (None, obj, printed) =>
      report INFO (WeightsLoaded filepath)
        (set_settings {| weight_file := filepath; is_active := true |}
           (printing printed (put_active obj s)))
  end.

(** [WEIGHTSYNC_OT_resync.execute] *)
Definition WEIGHTSYNC_OT_resync_execute (s : Session) : Session :=
  if negb (is_active (settings s)) || String.eqb (weight_file (settings s)) ""
  then report ERROR NoActiveWeightFile s
  else
    match load_weights (active_ob s) (weight_file (settings s)) (disk s) with
    | (Some error, obj, printed) =>
        report ERROR (Said error) (printing printed (put_active obj s))
    | (None, obj, printed) =>
        report INFO (WeightsResynced (weight_file (settings s)))
          (printing printed (put_active obj s))
    end.

(** [WEIGHTSYNC_OT_clear.execute] *)
Definition WEIGHTSYNC_OT_clear_execute (s : Session) : Session :=
  report INFO WeightFileCleared (set_settings {| weight_file := ""; is_active := false |} s).

(** [invoke] of the Save and of the Load operator: the path the file
    selector opens with, [settings.weight_file or "weights.json"]. *)
Definition invoke (s : Session) : string :=
  if String.eqb (weight_file (settings s)) "" then "weights.json" else weight_file (settings s).

(** *** The auto-resync *)

(** One pass of the loop of [do_resync]: a mesh that comes from a library
    is re-imported when syncing is active and a path is set; what
    [load_weights] returns is not looked at. *)
Definition resync_object (s : Session) (so : SceneObject) : SceneObject * list line :=
  if String.eqb (bpy.type (ob so)) "MESH" && bool_decide (is_Some (library so)) then
    if is_active (settings s) && negb (String.eqb (weight_file (settings s)) "") then
      match load_weights (Some (ob so)) (weight_file (settings s)) (disk s) with
      | (_, Some o, printed) => ({| ob := o; library := library so |}, printed)
      | (_, None, printed) => (so, printed)
      end
    else (so, [])
  else (so, []).

(** [do_resync]: the delay to be called again with, or [None]. *)
Definition do_resync (s : Session) : option float * Session :=
  if negb (scene_ready s) then (Some 0x1.999999999999ap-4%float, s)   (* 0.1 *)
  else
    let passes := map (resync_object s) (objects s) in
    (None, printing (concat (map snd passes)) (set_objects (map fst passes) s)).

(** [load_post_handler]: nothing for a file that was never saved, else
    [do_resync] is registered as a timer. *)
Definition load_post_handler (s : Session) : Session :=
  if String.eqb (data_filepath s) "" then s
  else set_timers (timers s ++ [DoResync]) s.

(** The host calling the first timer that is due: a function that returns
    a delay stays registered, one that returns [None] is dropped. *)
Definition fire (s : Session) : Session :=
  match timers s with
  | [] => s
  | DoResync :: rest =>
      match do_resync s with
      | (Some _, s') => s'
      | (None, s') => set_timers rest s'
      end
  end.

(** *** The panel *)

(** What [draw] lays out. *)
Inductive ui :=
| label (text : string) (icon : string)
| operator (idname : string) (icon : string)
| box (children : list ui)
| row (align : bool) (children : list ui)
| column (align : bool) (children : list ui).

Section panel.

(** [os.path.basename], of the platform the editor runs on. *)
Variable basename : string -> string.

(** [WEIGHTSYNC_PT_panel.draw]: the children of [self.layout], and
    [layout.enabled]. *)
Definition draw (s : Session) : list ui * bool :=
  match active_ob s with
  | Some obj =>
      if String.eqb (bpy.type obj) "MESH" then
        let status :=
          box (row false [label ("Object: " ++ bpy.name obj) "MESH_DATA"]
               :: match bpy.vertex_groups obj with
                  | [] => []
                  | vgs =>
                      [ label ("Vertex Groups: " ++ str (length vgs)) "GROUP_VERTEX";
                        label ("Vertices with weights: " ++ str (vertices_with_groups obj)) "NONE" ]
                  end) in
        let file :=
          if is_active (settings s) && negb (String.eqb (weight_file (settings s)) "")
          then box [ row true [label "Status: Active" "CHECKMARK"];
                     label ("File: " ++ basename (weight_file (settings s))) "FILE" ]
          else box [ row true [label "Status: No file" "X"] ] in
        let operations :=
          column true
            (row true [operator "weightsync.save" "EXPORT"; operator "weightsync.load" "IMPORT"]
             :: if is_active (settings s)
                then [row true [operator "weightsync.resync" "FILE_REFRESH";
                                operator "weightsync.clear" "X"]]
                else []) in
        ([status; file; operations], true)
      else ([box [row false [label "No mesh selected" "ERROR"]]], false)
  | None => ([box [row false [label "No mesh selected" "ERROR"]]], false)
  end.

End panel.

(** *** Registration *)

(** The functions on [bpy.app.handlers.load_post]: the addon's, or
    another's. *)
Inductive handler :=
| LoadPostHandler
| OtherHandler (name : string).

Record Registry := {
  registered : list string;          (* the classes known to the editor *)
  scene_property : bool;             (* bpy.types.Scene has weight_sync_settings *)
  load_post : list handler           (* bpy.app.handlers.load_post *)
}.

Definition classes : list string :=
  [ "WeightSyncSettings"; "WEIGHTSYNC_OT_save"; "WEIGHTSYNC_OT_load";
    "WEIGHTSYNC_OT_resync"; "WEIGHTSYNC_OT_clear"; "WEIGHTSYNC_PT_panel" ].

Definition is_registered (cls : string) (r : Registry) : bool :=
  existsb (String.eqb cls) (registered r).

(** [bpy.utils.register_class(cls)]: a class registered already is
    refused. *)
Definition register_class (cls : string) (r : Registry) : outcome unit * Registry :=
  if is_registered cls r then (Raise ValueError, r)
  else (Return tt, {| registered := registered r ++ [cls];
                      scene_property := scene_property r; load_post := load_post r |}).

(** [bpy.utils.unregister_class(cls)]: a class that is not registered is
    refused. *)
Definition unregister_class (cls : string) (r : Registry) : outcome unit * Registry :=
  if is_registered cls r
  then (Return tt, {| registered := List.filter (fun c => negb (String.eqb cls c)) (registered r);
                      scene_property := scene_property r; load_post := load_post r |})
  else (Raise RuntimeError, r).

(** [for cls in classes: f(cls)], stopping at the first class refused. *)
Fixpoint for_classes (f : string -> Registry -> outcome unit * Registry) (l : list string)
    (r : Registry) : outcome unit * Registry :=
  match l with
  | [] => (Return tt, r)
  | cls :: l' =>
      match f cls r with
      | (Return _, r') => for_classes f l' r'
      | (Raise e, r') => (Raise e, r')
      end
  end.

Definition handler_eqb (a b : handler) : bool :=
  match a, b with
  | LoadPostHandler, LoadPostHandler => true
  | OtherHandler x, OtherHandler y => String.eqb x y
  | _, _ => false
  end.

(** [l.remove(h)], for an [h] that is in [l]: the first occurrence goes. *)
Fixpoint list_remove (h : handler) (l : list handler) : list handler :=
  match l with
  | [] => []
  | x :: l' => if handler_eqb x h then l' else x :: list_remove h l'
  end.

Definition register (r : Registry) : outcome unit * Registry :=
  match for_classes register_class classes r with
  | (Return _, r') =>
      (Return tt, {| registered := registered r'; scene_property := true;
                     load_post := load_post r' ++ [LoadPostHandler] |})
  | (Raise e, r') => (Raise e, r')
  end.

Definition unregister (r : Registry) : outcome unit * Registry :=
  match for_classes unregister_class classes r with
  | (Return _, r') =>
      if scene_property r' then
        (Return tt, {| registered := registered r'; scene_property := false;
                       load_post := if existsb (handler_eqb LoadPostHandler) (load_post r')
                                    then list_remove LoadPostHandler (load_post r')
                                    else load_post r' |})
      else (Raise AttributeError, r')
  | (Raise e, r') => (Raise e, r')
  end.

(** Why a file cannot get as far as the vertex count check: a directory
    cannot be opened, a text may not parse, the value parsed may be no
    dictionary, the dictionary may lack [vertex_count]. *)
Definition refusal (x : bpy.node) : option exn :=
  match x with
  | bpy.Dir => Some OSError
  | bpy.File bpy.Malformed => Some JSONDecodeError
  | bpy.File (bpy.Json (JObj d)) =>
      match dict_get "vertex_count" d with
      | Some _ => None
      | None => Some (KeyError "vertex_count")
      end
  | bpy.File (bpy.Json _) => Some AttributeError
  end.

(** ** Notions the proofs go through *)

(** The characters of a decimal numeral. *)
Definition chars (d : Decimal.uint) : list ascii :=
  list_ascii_of_string (DecimalString.NilEmpty.string_of_uint d).

(** The groups the creation loop leaves when it runs over strings. *)
Definition fresh (s : string) : bpy.VertexGroup :=
  {| bpy.vg_name := s; bpy.vg_weights := ∅ |}.

Definition created (ss : list string) (vgs : list bpy.VertexGroup) : list bpy.VertexGroup :=
  fold_left
    (fun vgs s => match bpy.find s vgs with Some _ => vgs | None => vgs ++ [fresh s] end)
    ss vgs.

(** The pairs kept for vertex [v], group by group, and the entry made of
    them, if any. *)
Definition pairs_of (gs : list bpy.VertexGroup) (v : nat) : list (string * float) :=
  omap (fun g => option_map (pair (bpy.vg_name g)) (kept (bpy.vg_weights g !! v))) gs.

Definition entry_of (gs : list bpy.VertexGroup) (v : nat)
    : option (string * list (string * float)) :=
  match pairs_of gs v with
  | [] => None
  | ps => Some (str v, ps)
  end.

(** The listed names have their groups. *)
Definition listed (group_names : list json) (vgs : list bpy.VertexGroup) : Prop :=
  forall s, In (JStr s) group_names -> In s (names vgs).


(** ** Sample meshes, documents and files *)

Definition no_files : bpy.FS := {| bpy.nodes := ∅; bpy.denied := ∅ |}.

Definition holding (filepath : string) (doc : json) : bpy.FS :=
  {| bpy.nodes := {[ filepath := bpy.File (bpy.Json doc) ]}; bpy.denied := ∅ |}.

Definition mesh (n : nat) (vgs : list bpy.VertexGroup) : bpy.Object :=
  {| bpy.name := "Body"; bpy.type := "MESH"; bpy.vertices := n; bpy.vertex_groups := vgs |}.

Definition group (s : string) (ws : list (nat * float)) : bpy.VertexGroup :=
  {| bpy.vg_name := s; bpy.vg_weights := list_to_map ws |}.

(** Three vertices, one group "Arm": vertex 0 at 0.5, vertex 1 at 0.0,
    vertex 2 not in the group. *)
Definition arm_mesh : bpy.Object := mesh 3 [group "Arm" [(0, 0.5%float); (1, 0%float)]].

(** One vertex carrying weights in two groups. *)
Definition two_groups_doc : json :=
  JObj [ ("vertex_count", JInt 1);
         ("group_names", JList [JStr "A"; JStr "B"]);
         ("vertex_groups", JObj [("0", JObj [("A", JFloat 0.5); ("B", JFloat 0.25)])]) ].

(** A document naming, at weight [w], a group that [group_names] lacks. *)
Definition ghost_doc (w : float) : json :=
  JObj [ ("vertex_count", JInt 1);
         ("group_names", JList [JStr "A"]);
         ("vertex_groups", JObj [("0", JObj [("Ghost", JFloat w)])]) ].

(** Two vertices, and a document that also has an entry for a vertex 7. *)
Definition beyond_doc : json :=
  JObj [ ("vertex_count", JInt 2);
         ("group_names", JList [JStr "A"]);
         ("vertex_groups", JObj [ ("0", JObj [("A", JFloat 0.5)]);
                                  ("7", JObj [("A", JFloat 0.25)]) ]) ].


(** ** Sessions *)

(** What the user and the editor make the addon do: the four operators,
    the editor calling [load_post_handler] after it has opened a file, and
    the editor calling the timer that is due. *)
Inductive action :=
| Save (filepath : string)
| Load (filepath : string)
| Resync
| Clear
| FileOpened
| TimerDue.

Definition perform (a : action) (s : Session) : Session :=
  match a with
  | Save filepath => WEIGHTSYNC_OT_save_execute_in filepath s
  | Load filepath => WEIGHTSYNC_OT_load_execute filepath s
  | Resync => WEIGHTSYNC_OT_resync_execute s
  | Clear => WEIGHTSYNC_OT_clear_execute s
  | FileOpened => load_post_handler s
  | TimerDue => fire s
  end.

Definition perform_all (l : list action) (s : Session) : Session :=
  fold_left (fun s a => perform a s) l s.

(** Syncing is active exactly when a path is stored. *)
Definition coherent (st : WeightSyncSettings) : Prop :=
  is_active st = negb (String.eqb (weight_file st) "").

(** The empty path names no file, and cannot be opened. *)
Definition empty_path_closed (fs : bpy.FS) : Prop :=
  bpy.nodes fs !! "" = None /\ "" ∈ bpy.denied fs.

(** The labels and buttons of a layout, in the order they are drawn. *)
Fixpoint leaves (u : ui) : list ui :=
  match u with
  | label _ _ | operator _ _ => [u]
  | box children | row _ children | column _ children => flat_map leaves children
  end.

(** Whether the panel is drawn for a mesh. *)
Definition mesh_is_active (s : Session) : bool :=
  match active_ob s with
  | Some obj => String.eqb (bpy.type obj) "MESH"
  | None => false
  end.

(** A scene of one object, active, in a session that has just begun. *)
Definition session_of (o : bpy.Object) (from : option string) (fs : bpy.FS) : Session :=
  {| settings := {| weight_file := ""; is_active := false |};
     objects := [{| ob := o; library := from |}]; active := Some 0; disk := fs;
     shown := []; console := []; scene_ready := true; data_filepath := "scene.blend";
     timers := [] |}.

(** A file system in which the empty path cannot be opened. *)
Definition closed_files : bpy.FS := {| bpy.nodes := ∅; bpy.denied := {[ "" ]} |}.

(** Lay a statement of the body open, down to pairs of outcome and groups. *)
Ltac unfold_M := unfold bind, lift, groups, vertex_total, set_groups, ret.

(** * Properties *)

Example int_examples :
  Py.int "12" = Return 12%Z /\ Py.int " -0_7 " = Return (-7)%Z /\
  Py.int "" = Raise ValueError /\ Py.int "1__2" = Raise ValueError /\
  Py.int "3_" = Raise ValueError /\ Py.int (Py.str 120) = Return 120%Z.
Proof. repeat split; vm_compute; reflexivity. Qed.

Example number_examples :
  int_ne 3 (JFloat 3%float) = false /\ int_ne 3 (JFloat 3.5%float) = true /\
  int_ne 1 (JBool true) = false /\ int_ne 3 JNull = true /\
  as_float (JInt 2) = Return 2%float /\
  Py.max 0 0.5 = 0.5%float /\ Py.min 1 0.5 = 0.5%float.
Proof. repeat split; vm_compute; reflexivity. Qed.

(** ** The monad and the loops *)

Lemma remove_head vg vgs : bpy.remove vg (vg :: vgs) = vgs.
Proof. simpl. rewrite String.eqb_refl. reflexivity. Qed.

(** The walk that unlinks each group it meets leaves none. *)
Lemma clear_walk pending n :
  for_each pending tt remove_group n pending = (Return tt, []).
Proof.
  induction pending as [|vg pending IH]; [reflexivity|].
  cbn [for_each]. unfold bind at 1, remove_group at 1, bind, groups, set_groups.
  rewrite remove_head. exact IH.
Qed.

Lemma clear_groups_spec n vgs : clear_groups n vgs = (Return tt, []).
Proof. unfold clear_groups, bind, groups at 1. apply clear_walk. Qed.

(** Once the vertex count check has passed, the groups the object had
    play no part in what follows. *)
Lemma load_body_forgets doc n vgs :
  (exists recorded, get doc "vertex_count" = Return recorded /\
                    int_ne (Z.of_nat n) recorded = false) ->
  load_body doc n vgs = load_body doc n [].
Proof.
  intros (recorded & Hget & Hne). unfold load_body, bind, vertex_total, lift.
  rewrite Hget, Hne, !clear_groups_spec. reflexivity.
Qed.

(** A failed check returns before anything is touched. *)
Lemma load_body_stops doc n vgs r vgs' :
  (forall recorded, get doc "vertex_count" = Return recorded ->
                    int_ne (Z.of_nat n) recorded = true) ->
  load_body doc n vgs = (r, vgs') -> vgs' = vgs /\ forall vgs0, load_body doc n vgs0 = (r, vgs0).
Proof.
  intros Hne. unfold load_body, bind, vertex_total, lift.
  destruct (get doc "vertex_count") as [recorded|e].
  - rewrite (Hne recorded eq_refl).
    destruct (getitem doc "vertex_count"); unfold ret; intros [= <- <-]; auto.
  - intros [= <- <-]; auto.
Qed.

(** ** Vertex count check *)

(** C2. A parseable document whose recorded [vertex_count] differs from
    the mesh's vertex count makes [load_weights] answer with the vertex
    count mismatch message and leaves the object, groups and weights
    included, exactly as it was. *)
Theorem mismatch_leaves_mesh_untouched (o : bpy.Object) filepath fs d recorded :
  bpy.type o = "MESH" ->
  bpy.nodes fs !! filepath = Some (bpy.File (bpy.Json (JObj d))) ->
  dict_get "vertex_count" d = Some recorded ->
  int_ne (Z.of_nat (bpy.vertices o)) recorded = true ->
  load_weights (Some o) filepath fs
  = (Some (VertexCountMismatch recorded (bpy.vertices o)), Some o, []).
Proof.
  intros Htype Hfile Hrec Hne. unfold load_weights, bpy.path_exists.
  rewrite Htype, Hfile. cbn [String.eqb negb].
  rewrite bool_decide_eq_true_2 by eauto. cbn [negb].
  unfold load_try, bind, lift, bpy.read_json. rewrite Hfile.
  unfold load_body, bind, vertex_total, lift, get, getitem. rewrite Hrec.
  cbn [default from_option id]. rewrite Hne. unfold ret. destruct o; reflexivity.
Qed.

Lemma mismatch_leaves_mesh_untouched_witness :
  load_weights (Some arm_mesh) "w.json" (holding "w.json" two_groups_doc)
  = (Some (VertexCountMismatch (JInt 1) 3), Some arm_mesh, []).
Proof.
  apply (mismatch_leaves_mesh_untouched arm_mesh "w.json" (holding "w.json" two_groups_doc)
           [ ("vertex_count", JInt 1);
             ("group_names", JList [JStr "A"; JStr "B"]);
             ("vertex_groups", JObj [("0", JObj [("A", JFloat 0.5); ("B", JFloat 0.25)])]) ]
           (JInt 1)); reflexivity.
Defined.

(** ** Importing twice *)

(** C5. Running [load_weights] a second time on the object the first run
    left, with the same file, gives the same answer and the same object,
    groups and weights included: the state after two imports is the state
    after one. *)
Theorem load_weights_idempotent obj filepath fs :
  load_weights (snd (fst (load_weights obj filepath fs))) filepath fs
  = load_weights obj filepath fs.
Proof.
  destruct obj as [o|]; [|reflexivity].
  assert (Hagain : forall r vgs,
    load_try filepath fs (bpy.vertices o) (bpy.vertex_groups o) = (r, vgs) ->
    load_try filepath fs (bpy.vertices o) vgs = (r, vgs)).
  { unfold load_try, bind, lift. intros r vgs.
    destruct (bpy.read_json fs filepath) as [doc|e]; [|intros [= <- <-]; reflexivity].
    destruct (get doc "vertex_count") as [recorded|e] eqn:Hget.
    - destruct (int_ne (Z.of_nat (bpy.vertices o)) recorded) eqn:Hne.
      + intros H. apply load_body_stops in H as [-> H]; [apply H|].
        intros r' Hr'. rewrite Hget in Hr'. injection Hr' as <-. exact Hne.
      + intros H. rewrite load_body_forgets in H by eauto.
        rewrite load_body_forgets by eauto. rewrite H. reflexivity.
    - intros H. apply load_body_stops in H as [-> H]; [apply H|].
      intros r' Hr'. rewrite Hget in Hr'. discriminate. }
  destruct (load_weights (Some o) filepath fs) as [[result o'] printed] eqn:E.
  cbn [fst snd]. unfold load_weights in E.
  destruct (negb (String.eqb (bpy.type o) "MESH")) eqn:Htype.
  { injection E as <- <- <-. unfold load_weights. rewrite Htype. reflexivity. }
  destruct (negb (bpy.path_exists fs filepath)) eqn:Hex.
  { injection E as <- <- <-. unfold load_weights. rewrite Htype, Hex. reflexivity. }
  destruct (load_try filepath fs (bpy.vertices o) (bpy.vertex_groups o)) as [r vgs] eqn:Hrun.
  specialize (Hagain r vgs eq_refl).
  destruct r as [[result' printed']|e]; injection E as <- <- <-; unfold load_weights;
    cbn [bpy.with_groups bpy.type bpy.vertices bpy.vertex_groups];
    rewrite Htype, Hex, Hagain; reflexivity.
Qed.

(** ** The example of the specification *)

(** C8. For the mesh with three vertices and the single group "Arm" where
    vertex 0 weighs 0.5 and the vertices 1 and 2 have no nonzero weight,
    [save_weights] succeeds on any writable path and the document then
    found in the file has [vertex_groups] equal to [{"0": {"Arm": 0.5}}]
    and [validation.weight_range] equal to [[0.5, 0.5]]. *)
Theorem arm_example filepath fs :
  bpy.writable fs filepath = true ->
  exists fs' printed doc validation,
    save_weights (Some arm_mesh) filepath fs = (None, fs', printed) /\
    bpy.read_json fs' filepath = Return doc /\
    getitem doc "vertex_groups" = Return (JObj [("0", JObj [("Arm", JFloat 0.5)])]) /\
    getitem doc "validation" = Return validation /\
    getitem validation "weight_range" = Return (JList [JFloat 0.5; JFloat 0.5]).
Proof.
  intros Hw. unfold save_weights, bpy.write_json. rewrite Hw. cbn [arm_mesh mesh bpy.type].
  cbn [String.eqb Ascii.eqb Bool.eqb negb].
  eexists _, _, _, _. split; [reflexivity|].
  unfold bpy.read_json. cbn [bpy.nodes]. rewrite lookup_insert_eq.
  split; [reflexivity|]. vm_compute. repeat split.
Qed.

Lemma arm_example_witness :
  exists fs' printed doc validation,
    save_weights (Some arm_mesh) "weights.json" no_files = (None, fs', printed) /\
    bpy.read_json fs' "weights.json" = Return doc /\
    getitem doc "vertex_groups" = Return (JObj [("0", JObj [("Arm", JFloat 0.5)])]) /\
    getitem doc "validation" = Return validation /\
    getitem validation "weight_range" = Return (JList [JFloat 0.5; JFloat 0.5]).
Proof. apply (arm_example "weights.json" no_files). reflexivity. Defined.

(** ** The Save operator *)

(** The exporter fails exactly when no mesh is active or the path cannot
    be written. *)
Lemma save_weights_succeeds obj filepath fs :
  fst (fst (save_weights obj filepath fs)) = None <->
  exists o, obj = Some o /\ bpy.type o = "MESH" /\ bpy.writable fs filepath = true.
Proof.
  unfold save_weights, bpy.write_json. destruct obj as [o|]; cbn [fst].
  - destruct (String.eqb_spec (bpy.type o) "MESH") as [Ht|Ht]; cbn [negb fst].
    + destruct (bpy.writable fs filepath); cbn [fst]; split.
      * intros _. eauto.
      * reflexivity.
      * discriminate.
      * intros (o' & _ & _ & [=]).
    + split; [discriminate|]. intros (o' & [= <-] & Ht' & _). contradiction.
  - split; [discriminate|]. intros (o' & [=] & _).
Qed.

(** C9. Whenever the Save operator runs: if the exporter succeeds, the
    settings afterwards have [weight_file] equal to the chosen path and
    [is_active] true; if the exporter fails, its error is reported at level
    ERROR and the settings, both fields, are those of before. *)
Theorem save_operator_settings filepath context :
  let after := WEIGHTSYNC_OT_save_execute filepath context in
  match fst (fst (save_weights (active_object context) filepath (files context))) with
  | None =>
      weight_file (weight_sync_settings after) = filepath /\
      is_active (weight_sync_settings after) = true
  | Some error =>
      reports after = reports context ++ [(ERROR, error)] /\
      weight_sync_settings after = weight_sync_settings context
  end.
Proof.
  unfold WEIGHTSYNC_OT_save_execute.
  destruct (save_weights (active_object context) filepath (files context)) as [[[error|] fs] printed];
    cbn; split; reflexivity.
Qed.

(** Both branches are taken: with a mesh and a writable path, and with no
    active object. *)
Example save_operator_runs :
  let context o := {| weight_sync_settings := {| weight_file := "old.json"; is_active := false |};
                      active_object := o; files := no_files; reports := []; stdout := [] |} in
  weight_sync_settings (WEIGHTSYNC_OT_save_execute "w.json" (context (Some arm_mesh)))
    = {| weight_file := "w.json"; is_active := true |} /\
  weight_sync_settings (WEIGHTSYNC_OT_save_execute "w.json" (context None))
    = {| weight_file := "old.json"; is_active := false |} /\
  reports (WEIGHTSYNC_OT_save_execute "w.json" (context None)) = [(ERROR, NoValidMesh)].
Proof. repeat split. Qed.

(** ** The count of vertices affected *)

(** C7, on a mesh of one vertex and a document that gives this vertex a
    weight in each of two groups: the import succeeds and prints 2 as the
    number of vertices affected, while one vertex only carries weights
    afterwards.  The counter goes up with every weight applied. *)
Theorem vertices_affected_counts_assignments :
  exists o',
    load_weights (Some (mesh 1 [])) "w.json" (holding "w.json" two_groups_doc)
    = (None, Some o', [LoadValidation; VerticesAffected 2; GroupsCreated 2]) /\
    vertices_with_groups o' = 1.
Proof. eexists. split; vm_compute; reflexivity. Qed.

(** ** [int] reads back what [str] writes *)

Lemma digits_of_uint d : forall acc b,
  d <> Decimal.Nil \/ b = true ->
  digits (Z.of_nat acc) b (chars d) = Some (Z.of_nat (Nat.of_uint_acc d acc)).
Proof.
  induction d as [|d IH|d IH|d IH|d IH|d IH|d IH|d IH|d IH|d IH|d IH]; intros acc b H.
  1: { destruct H as [H| ->]; [contradiction|reflexivity]. }
  all: unfold chars; cbn [DecimalString.NilEmpty.string_of_uint list_ascii_of_string];
    fold (chars d); cbn [digits Nat.of_uint_acc];
    match goal with |- context [digit_of ?a] =>
      let r := eval vm_compute in (digit_of a) in change (digit_of a) with r end;
    cbv iota; rewrite <- (IH _ true) by (right; reflexivity); f_equal;
    rewrite ?Nat2Z.inj_succ, Nat.tail_mul_spec, Nat2Z.inj_mul; cbn [Z.of_nat]; lia.
Qed.

Lemma chars_plain d :
  Forall (fun a => is_space a = false /\ Ascii.eqb a "-" = false /\ Ascii.eqb a "+" = false)
         (chars d).
Proof.
  induction d; unfold chars;
    cbn [DecimalString.NilEmpty.string_of_uint list_ascii_of_string]; constructor;
    try exact IHd; repeat split.
Qed.

Lemma lstrip_plain l :
  Forall (fun a => is_space a = false /\ Ascii.eqb a "-" = false /\ Ascii.eqb a "+" = false) l ->
  lstrip l = l.
Proof. destruct 1 as [|a l (Ha & _) _]; [reflexivity|]. cbn [lstrip]. rewrite Ha. reflexivity. Qed.

Lemma int_str v : int (str v) = Return (Z.of_nat v).
Proof.
  unfold int, str. fold (chars (Nat.to_uint v)).
  pose proof (chars_plain (Nat.to_uint v)) as Hplain.
  unfold strip. rewrite (lstrip_plain _ Hplain).
  rewrite (lstrip_plain _ (List.Forall_rev Hplain)), rev_involutive.
  assert (Hd : digits 0 false (chars (Nat.to_uint v)) = Some (Z.of_nat v)).
  { change 0%Z with (Z.of_nat 0). rewrite digits_of_uint.
    - change (Nat.of_uint_acc (Nat.to_uint v) 0) with (Nat.of_uint (Nat.to_uint v)).
      rewrite Unsigned.of_to. reflexivity.
    - left. rewrite <- (Unsigned.of_to v), Unsigned.to_of.
      apply DecimalFacts.unorm_nonnil. }
  destruct Hplain as [|a l (_ & Hm & Hp) _]; [discriminate Hd|].
  rewrite Hm, Hp, Hd. reflexivity.
Qed.

Lemma str_inj v v' : str v = str v' -> v = v'.
Proof.
  intros H. apply Nat2Z.inj. pose proof (int_str v) as Hv. rewrite H, int_str in Hv.
  congruence.
Qed.

(** ** Dictionaries *)

Section dict_facts.
Context {V : Type}.
Implicit Types (d : list (string * V)) (k : string).



Lemma dict_get_app k d d' :
  dict_get k (d ++ d') = match dict_get k d with Some v => Some v | None => dict_get k d' end.
Proof.
  induction d as [|[k0 v0] d IH]; cbn [app dict_get]; [reflexivity|].
  destruct (String.eqb k0 k); [reflexivity|exact IH].
Qed.

Lemma dict_set_fresh k (v : V) d : dict_get k d = None -> dict_set k v d = d ++ [(k, v)].
Proof.
  induction d as [|[k0 v0] d IH]; cbn [dict_set dict_get app]; [reflexivity|].
  destruct (String.eqb k0 k); [discriminate|]. intros H. rewrite IH by exact H. reflexivity.
Qed.

End dict_facts.

(** ** Groups addressed by name *)

Lemma find_names g vgs vgs' : names vgs = names vgs' -> bpy.find g vgs = bpy.find g vgs'.
Proof.
  revert vgs'. induction vgs as [|x vgs IH]; intros [|y vgs']; try discriminate; [reflexivity|].
  cbn [names map bpy.find]. intros [= Hxy Hrest]. rewrite Hxy, (IH vgs' Hrest). reflexivity.
Qed.

Lemma find_none g vgs : bpy.find g vgs = None <-> ~ In g (names vgs).
Proof.
  induction vgs as [|x vgs IH]; cbn [bpy.find names map In]; [tauto|].
  change (map bpy.vg_name vgs) with (names vgs).
  destruct (String.eqb_spec (bpy.vg_name x) g) as [->|Hne].
  - split; [discriminate|]. intros H. exfalso. apply H. left. reflexivity.
  - destruct (bpy.find g vgs); cbn [option_map].
    + split; [discriminate|]. intros H.
      assert (Hn : ~ In g (names vgs)) by tauto. apply IH in Hn. discriminate.
    + split; [|reflexivity]. intros _ [H|H]; [contradiction|].
      apply (proj1 IH); [reflexivity|exact H].
Qed.

Lemma find_some g vgs i :
  bpy.find g vgs = Some i -> exists grp, vgs !! i = Some grp /\ bpy.vg_name grp = g.
Proof.
  revert i. induction vgs as [|x vgs IH]; intros i; cbn [bpy.find]; [discriminate|].
  destruct (String.eqb_spec (bpy.vg_name x) g) as [Hx|Hne].
  - intros [= <-]. exists x. split; [reflexivity|exact Hx].
  - destruct (bpy.find g vgs) as [j|]; cbn [option_map]; [|discriminate].
    intros [= <-]. destruct (IH j eq_refl) as (grp & Hl & Hn). exists grp. split; assumption.
Qed.

Lemma names_alter (f : bpy.VertexGroup -> bpy.VertexGroup) i vgs :
  (forall g, bpy.vg_name (f g) = bpy.vg_name g) -> names (alter f i vgs) = names vgs.
Proof.
  intros Hf. revert i. induction vgs as [|x vgs IH]; intros [|i]; cbn; try reflexivity.
  - rewrite Hf. reflexivity.
  - f_equal. apply IH.
Qed.

Lemma add_names n ref idx w vgs : names (bpy.add n ref idx w vgs) = names vgs.
Proof.
  unfold bpy.add. destruct (_ && _)%bool; [|reflexivity]. apply names_alter. reflexivity.
Qed.

(** Setting a weight shows at that group and vertex and nowhere else. *)
Lemma weight_of_add n g i (v : nat) w vgs g' v' :
  bpy.find g vgs = Some i -> v < n ->
  weight_of (bpy.add n i (Z.of_nat v) w vgs) g' v'
  = if bool_decide (g' = g /\ v' = v) then Some w else weight_of vgs g' v'.
Proof.
  intros Hfind Hv. unfold weight_of.
  rewrite (find_names g' _ vgs) by apply add_names.
  unfold bpy.add.
  replace (Z.leb 0 (Z.of_nat v) && Z.ltb (Z.of_nat v) (Z.of_nat n))%bool with true
    by (symmetry; apply andb_true_iff; split; [apply Z.leb_le|apply Z.ltb_lt]; lia).
  rewrite Nat2Z.id.
  destruct (bpy.find g' vgs) as [j|] eqn:Hfind'.
  - destruct (find_some _ _ _ Hfind) as (grp & Hgrp & Hname).
    destruct (find_some _ _ _ Hfind') as (grp' & Hgrp' & Hname').
    destruct (decide (j = i)) as [->|Hji].
    + assert (g' = g) as -> by congruence.
      rewrite list_lookup_alter_eq, Hgrp. cbn [fmap option_fmap option_map bpy.vg_weights].
      destruct (decide (v' = v)) as [->|Hv'].
      * rewrite bool_decide_eq_true_2 by auto. apply lookup_insert_eq.
      * rewrite bool_decide_eq_false_2 by (intros [_ ?]; contradiction).
        rewrite lookup_insert_ne by auto. reflexivity.
    + rewrite list_lookup_alter_ne by auto. rewrite Hgrp'.
      rewrite bool_decide_eq_false_2; [reflexivity|].
      intros [-> _]. rewrite Hfind in Hfind'. congruence.
  - rewrite bool_decide_eq_false_2; [reflexivity|].
    intros [-> _]. rewrite Hfind in Hfind'. discriminate.
Qed.

(** ** Loops *)

(** What every pass of a loop keeps, the loop keeps, however it ends. *)
Lemma for_each_invariant {A S} (P : list bpy.VertexGroup -> Prop)
    (body : A -> S -> M S) n l :
  (forall x a vgs r vgs', P vgs -> body x a n vgs = (r, vgs') -> P vgs') ->
  forall acc vgs r vgs', P vgs -> for_each l acc body n vgs = (r, vgs') -> P vgs'.
Proof.
  intros Hbody. induction l as [|x l IH]; intros acc vgs r vgs' HP; cbn [for_each].
  - unfold ret. intros [= <- <-]. exact HP.
  - unfold bind. destruct (body x acc n vgs) as [[a|e] vgs1] eqn:Hx.
    + apply IH. eapply Hbody; eassumption.
    + intros [= <- <-]. eapply Hbody; eassumption.
Qed.

(** A pass that must raise makes the loop raise, at that pass or before. *)
Lemma for_each_raises {A S} (P : list bpy.VertexGroup -> Prop)
    (body : A -> S -> M S) n l x :
  In x l ->
  (forall y a vgs r vgs', P vgs -> body y a n vgs = (r, vgs') -> P vgs') ->
  (forall a vgs, P vgs -> exists e vgs', body x a n vgs = (Raise e, vgs')) ->
  forall acc vgs, P vgs ->
    exists e vgs', for_each l acc body n vgs = (Raise e, vgs') /\ P vgs'.
Proof.
  intros Hin Hkeep Hraise. induction l as [|y l IH]; intros acc vgs HP; [destruct Hin|].
  cbn [for_each]. unfold bind. destruct (body y acc n vgs) as [[a|e] vgs1] eqn:Hy.
  - destruct Hin as [->|Hin].
    + destruct (Hraise acc vgs HP) as (e & vgs' & He). congruence.
    + apply (IH Hin). eapply Hkeep; eassumption.
  - exists e, vgs1. split; [reflexivity|]. eapply Hkeep; eassumption.
Qed.

Lemma apply_weight_names idx gw acc n vgs r vgs' :
  apply_weight idx gw acc n vgs = (r, vgs') -> names vgs' = names vgs.
Proof.
  unfold apply_weight; unfold_M.
  destruct (gt_zero (snd gw)) as [[|]|e]; try (intros [= <- <-]; reflexivity).
  destruct (bpy.getitem (fst gw) vgs) as [i|e]; try (intros [= <- <-]; reflexivity).
  destruct (as_float (snd gw)) as [w|e]; intros [= <- <-]; [apply add_names|reflexivity].
Qed.

Lemma apply_groups_names idx pairs acc n vgs r vgs' :
  apply_groups idx pairs acc n vgs = (r, vgs') -> names vgs' = names vgs.
Proof.
  unfold apply_groups.
  apply (for_each_invariant (fun x => names x = names vgs)); [|reflexivity].
  intros x a vgs0 r0 vgs1 H0 H1. rewrite <- H0. eapply apply_weight_names; eassumption.
Qed.

Lemma apply_entry_names kv acc n vgs r vgs' :
  apply_entry kv acc n vgs = (r, vgs') -> names vgs' = names vgs.
Proof.
  unfold apply_entry; unfold_M.
  destruct (int (fst kv)) as [idx|e]; try (intros [= <- <-]; reflexivity).
  destruct (Z.ltb idx (Z.of_nat n)); try (intros [= <- <-]; reflexivity).
  destruct (items (snd kv)) as [pairs|e]; try (intros [= <- <-]; reflexivity).
  apply apply_groups_names.
Qed.

Lemma apply_weights_names entries n vgs r vgs' :
  apply_weights entries n vgs = (r, vgs') -> names vgs' = names vgs.
Proof.
  unfold apply_weights.
  apply (for_each_invariant (fun x => names x = names vgs)); [|reflexivity].
  intros x a vgs0 r0 vgs1 H0 H1. rewrite <- H0. eapply apply_entry_names; eassumption.
Qed.

(** ** Creating the groups *)

Lemma create_groups_strings ss n vgs :
  create_groups (map JStr ss) n vgs = (Return tt, created ss vgs).
Proof.
  unfold create_groups, created. revert vgs.
  induction ss as [|s ss IH]; intros vgs; [reflexivity|].
  cbn [map for_each fold_left]. unfold bind at 1, create_group at 1.
  unfold bind, groups, lift, set_groups, ret. cbn [bpy.contains bpy.new].
  destruct (bpy.find s vgs) as [i|].
  - rewrite bool_decide_eq_true_2 by eauto. cbn [negb]. apply IH.
  - rewrite bool_decide_eq_false_2 by (intros [? [=]]). cbn [negb]. apply IH.
Qed.

(** A creation loop that completes went over strings only. *)
Lemma create_groups_completes l n vgs vgs' :
  create_groups l n vgs = (Return tt, vgs') -> exists ss, l = map JStr ss.
Proof.
  unfold create_groups. revert vgs.
  induction l as [|x l IH]; intros vgs; [exists []; reflexivity|].
  cbn [for_each]. unfold bind at 1. destruct (create_group x tt n vgs) as [[[]|e] vgs1] eqn:Hx;
    [|discriminate].
  intros H. destruct (IH _ H) as (ss & ->).
  destruct x; try (unfold create_group, bind, groups, lift in Hx; cbn in Hx; discriminate).
  exists (s :: ss). reflexivity.
Qed.

Lemma names_app vgs vgs' : names (vgs ++ vgs') = names vgs ++ names vgs'.
Proof. apply map_app. Qed.

Lemma created_names ss : forall vgs,
  List.NoDup (names vgs) ->
  List.NoDup (names (created ss vgs)) /\
  forall s, In s (names (created ss vgs)) <-> In s (names vgs) \/ In s ss.
Proof.
  unfold created. induction ss as [|s ss IH]; intros vgs Hnd; cbn [fold_left].
  - split; [exact Hnd|]. intros s. cbn [In]. tauto.
  - destruct (bpy.find s vgs) as [i|] eqn:Hfind.
    + destruct (IH vgs Hnd) as [Hnd' Hin]. split; [exact Hnd'|].
      intros s'. rewrite Hin. cbn [In]. split; [tauto|].
      intros [H|[<-|H]]; auto. left.
      destruct (in_dec string_dec s (names vgs)) as [Hs|Hs]; [exact Hs|].
      apply find_none in Hs. congruence.
    + apply find_none in Hfind.
      assert (Hnd1 : List.NoDup (names (vgs ++ [fresh s]))).
      { rewrite names_app. apply List.NoDup_app; [exact Hnd|repeat constructor; intros []|].
        intros a Ha [<-|[]]. contradiction. }
      destruct (IH _ Hnd1) as [Hnd' Hin]. split; [exact Hnd'|].
      intros s'. rewrite Hin, names_app, in_app_iff. cbn. tauto.
Qed.

(** Groups made by the creation loop carry no weight yet. *)
Lemma created_weightless ss : forall vgs,
  Forall (fun g => bpy.vg_weights g = ∅) vgs ->
  Forall (fun g => bpy.vg_weights g = ∅) (created ss vgs).
Proof.
  unfold created. induction ss as [|s ss IH]; intros vgs H; cbn [fold_left]; [exact H|].
  destruct (bpy.find s vgs); apply IH; [exact H|].
  apply Forall_app. split; [exact H|]. repeat constructor.
Qed.

Lemma weight_of_weightless vgs g v :
  Forall (fun g => bpy.vg_weights g = ∅) vgs -> weight_of vgs g v = None.
Proof.
  intros H. unfold weight_of. destruct (bpy.find g vgs) as [i|]; [|reflexivity].
  destruct (vgs !! i) as [grp|] eqn:Hi; [|reflexivity].
  rewrite Forall_forall in H. rewrite (H grp); [apply lookup_empty|].
  eapply list_elem_of_lookup_2. exact Hi.
Qed.

(** ** The importer past its checks *)

(** With a mesh, a file that parses and a vertex count that agrees, the
    importer is the body run on an object stripped of its groups. *)
Lemma load_weights_checked (o : bpy.Object) filepath fs doc recorded :
  bpy.type o = "MESH" ->
  bpy.nodes fs !! filepath = Some (bpy.File (bpy.Json doc)) ->
  get doc "vertex_count" = Return recorded ->
  int_ne (Z.of_nat (bpy.vertices o)) recorded = false ->
  load_weights (Some o) filepath fs
  = match load_body doc (bpy.vertices o) [] with
    | (Return (result, printed), vgs) => (result, Some (bpy.with_groups o vgs), printed)
    | (Raise e, vgs) => (Some (ErrorLoading e), Some (bpy.with_groups o vgs), [])
    end.
Proof.
  intros Htype Hfile Hget Hne. unfold load_weights, bpy.path_exists.
  rewrite Htype, Hfile. cbn [String.eqb Ascii.eqb Bool.eqb negb].
  rewrite bool_decide_eq_true_2 by eauto. cbn [negb].
  unfold load_try, bind at 1, lift at 1, bpy.read_json. rewrite Hfile.
  rewrite load_body_forgets by eauto. reflexivity.
Qed.

(** The body step by step, from the creation of the groups on. *)
Lemma load_body_steps doc n vgs recorded group_names l vgs1 vertex_groups entries r vgs2 :
  get doc "vertex_count" = Return recorded ->
  int_ne (Z.of_nat n) recorded = false ->
  getitem doc "group_names" = Return group_names ->
  iter group_names = Return l ->
  create_groups l n [] = (Return tt, vgs1) ->
  getitem doc "vertex_groups" = Return vertex_groups ->
  items vertex_groups = Return entries ->
  apply_weights entries n vgs1 = (r, vgs2) ->
  load_body doc n vgs
  = match r with
    | Return count =>
        (Return (None, [LoadValidation; VerticesAffected count; GroupsCreated (length l)]), vgs2)
    | Raise e => (Raise e, vgs2)
    end.
Proof.
  intros Hget Hne Hnames Hiter Hcreate Hvg Hitems Happly.
  unfold load_body, bind, lift, vertex_total, len.
  rewrite Hget, Hne, clear_groups_spec, Hnames, Hiter, Hcreate, Hvg, Hitems, Happly.
  destruct r; reflexivity.
Qed.

(** A successful import was of a mesh, from a file that parses, with an
    agreeing vertex count. *)
Lemma load_weights_succeeded (o : bpy.Object) filepath fs o' printed :
  load_weights (Some o) filepath fs = (None, o', printed) ->
  exists doc recorded,
    bpy.type o = "MESH" /\
    bpy.nodes fs !! filepath = Some (bpy.File (bpy.Json doc)) /\
    get doc "vertex_count" = Return recorded /\
    int_ne (Z.of_nat (bpy.vertices o)) recorded = false.
Proof.
  unfold load_weights.
  destruct (String.eqb_spec (bpy.type o) "MESH") as [Htype|]; cbn [negb]; [|discriminate].
  destruct (bpy.path_exists fs filepath); cbn [negb]; [|discriminate].
  unfold load_try, bind at 1, lift at 1, bpy.read_json.
  destruct (bpy.nodes fs !! filepath) as [[[doc|]|]|] eqn:Hfile; try discriminate.
  intros H. exists doc.
  destruct (get doc "vertex_count") as [recorded|e] eqn:Hget.
  - exists recorded. repeat split; try assumption.
    destruct (int_ne (Z.of_nat (bpy.vertices o)) recorded) eqn:Hne; [|reflexivity].
    exfalso. revert H. unfold load_body, bind, lift, vertex_total. rewrite Hget, Hne.
    destruct (getitem doc "vertex_count"); unfold ret; discriminate.
  - exfalso. revert H. unfold load_body, bind, lift, vertex_total. rewrite Hget. discriminate.
Qed.

(** ** Destructive overwrite *)

(** C4. After a successful import the names of the object's vertex groups
    are, without repetition, exactly the names the document lists in
    [group_names]; and the outcome is the same whatever groups the object
    had before, none of them survives. *)
Theorem import_replaces_groups (o : bpy.Object) filepath fs o' printed :
  load_weights (Some o) filepath fs = (None, Some o', printed) ->
  exists doc group_names ss,
    bpy.read_json fs filepath = Return doc /\
    getitem doc "group_names" = Return group_names /\
    iter group_names = Return (map JStr ss) /\
    List.NoDup (names (bpy.vertex_groups o')) /\
    (forall s, In s (names (bpy.vertex_groups o')) <-> In s ss) /\
    forall before,
      load_weights (Some (bpy.with_groups o before)) filepath fs = (None, Some o', printed).
Proof.
  intros H. destruct (load_weights_succeeded _ _ _ _ _ H) as (doc & recorded & Ht & Hf & Hget & Hne).
  pose proof (load_weights_checked o filepath fs doc recorded Ht Hf Hget Hne) as E.
  assert (Hind : forall before,
    load_weights (Some (bpy.with_groups o before)) filepath fs = (None, Some o', printed)).
  { intros before. rewrite <- H, E.
    apply (load_weights_checked (bpy.with_groups o before) filepath fs doc recorded Ht Hf Hget Hne). }
  rewrite E in H. clear E. revert H.
  unfold load_body, bind, lift, vertex_total, len. rewrite Hget, Hne, clear_groups_spec.
  destruct (getitem doc "group_names") as [group_names|e] eqn:Hnames; [|discriminate].
  destruct (iter group_names) as [l|e] eqn:Hiter; [|discriminate].
  destruct (create_groups l (bpy.vertices o) []) as [[[]|e] vgs1] eqn:Hcreate; [|discriminate].
  destruct (getitem doc "vertex_groups") as [vertex_groups|e]; [|discriminate].
  destruct (items vertex_groups) as [entries|e]; [|discriminate].
  destruct (apply_weights entries (bpy.vertices o) vgs1) as [[count|e] vgs2] eqn:Happly;
    [|discriminate].
  unfold ret. intros [= <- <-].
  destruct (create_groups_completes _ _ _ _ Hcreate) as (ss & ->).
  rewrite create_groups_strings in Hcreate. injection Hcreate as <-.
  apply apply_weights_names in Happly.
  destruct (created_names ss [] (List.NoDup_nil _)) as [Hnd Hin].
  exists doc, group_names, ss. cbn [bpy.with_groups bpy.vertex_groups]. rewrite Happly.
  unfold bpy.read_json. rewrite Hf.
  repeat split; try assumption; try reflexivity.
  - intros Hs. apply Hin in Hs. destruct Hs as [[]|Hs]. exact Hs.
  - intros Hs. apply Hin. right. exact Hs.
Qed.

Lemma import_replaces_groups_witness :
  exists doc group_names ss,
    bpy.read_json (holding "w.json" two_groups_doc) "w.json" = Return doc /\
    getitem doc "group_names" = Return group_names /\
    iter group_names = Return (map JStr ss) /\
    List.NoDup (names (bpy.vertex_groups
                         (mesh 1 [group "A" [(0, 0.5%float)]; group "B" [(0, 0.25%float)]]))) /\
    (forall s, In s (names (bpy.vertex_groups
                         (mesh 1 [group "A" [(0, 0.5%float)]; group "B" [(0, 0.25%float)]])))
               <-> In s ss) /\
    forall before,
      load_weights
        (Some (bpy.with_groups (mesh 1 [group "Leg" [(0, 1%float)]; group "A" []]) before))
        "w.json" (holding "w.json" two_groups_doc)
      = (None, Some (mesh 1 [group "A" [(0, 0.5%float)]; group "B" [(0, 0.25%float)]]),
         [LoadValidation; VerticesAffected 2; GroupsCreated 2]).
Proof.
  apply (import_replaces_groups (mesh 1 [group "Leg" [(0, 1%float)]; group "A" []]) "w.json"
           (holding "w.json" two_groups_doc)).
  vm_compute. reflexivity.
Defined.

(** ** A group missing from [group_names] *)

(** C10 as stated fails: [ghost_doc 0] passes the vertex count check of a
    mesh of one vertex and mentions the group "Ghost", which its
    [group_names] does not list, yet [load_weights] returns no error; the
    weight given there is 0.0 and is passed over before the group is
    looked up. *)
Lemma unlisted_group_at_zero_weight_loads :
  names_group (ghost_doc 0) "Ghost" /\
  ~ lists_group (ghost_doc 0) "Ghost" /\
  (exists recorded,
     get (ghost_doc 0) "vertex_count" = Return recorded /\ int_ne 1 recorded = false) /\
  fst (fst (load_weights (Some (mesh 1 [])) "w.json" (holding "w.json" (ghost_doc 0)))) = None.
Proof.
  split; [|split; [|split]].
  - exists [("0", JObj [("Ghost", JFloat 0)])], "0", [("Ghost", JFloat 0)], (JFloat 0).
    repeat split; left; reflexivity.
  - intros (l & Hl & Hin). vm_compute in Hl. injection Hl as <-.
    destruct Hin as [[=]|[]].
  - exists (JInt 1). split; reflexivity.
  - vm_compute. reflexivity.
Qed.

(** C10, amended.  When a document that passes the vertex count check
    gives, under a vertex index below the vertex count, a weight above 0.0
    to a group that its list of strings [group_names] does not name,
    [load_weights] returns a load error; by then the groups the object had
    are gone, whatever they were, and the object carries the groups named
    by [group_names]. *)
Theorem unlisted_group_fails_after_clearing (o : bpy.Object) filepath fs d recorded ss
    entries k pairs idx g w :
  bpy.type o = "MESH" ->
  bpy.nodes fs !! filepath = Some (bpy.File (bpy.Json (JObj d))) ->
  dict_get "vertex_count" d = Some recorded ->
  int_ne (Z.of_nat (bpy.vertices o)) recorded = false ->
  dict_get "group_names" d = Some (JList (map JStr ss)) ->
  dict_get "vertex_groups" d = Some (JObj entries) ->
  In (k, JObj pairs) entries ->
  int k = Return idx ->
  (idx < Z.of_nat (bpy.vertices o))%Z ->
  In (g, w) pairs ->
  gt_zero w = Return true ->
  ~ In g ss ->
  exists e o',
    load_weights (Some o) filepath fs = (Some (ErrorLoading e), Some o', []) /\
    List.NoDup (names (bpy.vertex_groups o')) /\
    (forall s, In s (names (bpy.vertex_groups o')) <-> In s ss) /\
    forall before,
      load_weights (Some (bpy.with_groups o before)) filepath fs
      = (Some (ErrorLoading e), Some o', []).
Proof.
  intros Ht Hf Hrec Hne Hnames Hvg Hentry Hint Hidx Hpair Hpos Hg.
  set (n := bpy.vertices o) in *.
  assert (Hget : get (JObj d) "vertex_count" = Return recorded)
    by (cbn [get]; rewrite Hrec; reflexivity).
  destruct (created_names ss [] (List.NoDup_nil _)) as [Hnd Hin].
  set (P := fun vgs : list bpy.VertexGroup => names vgs = names (created ss [])).
  assert (Hfind : forall vgs, P vgs -> bpy.find g vgs = None).
  { intros vgs HP. apply find_none. rewrite HP. intros Hs. apply Hin in Hs.
    destruct Hs as [[]|Hs]. contradiction. }
  assert (Hinner : forall a vgs, P vgs ->
    exists e vgs', apply_groups idx pairs a n vgs = (Raise e, vgs') /\ P vgs').
  { intros a vgs HP. unfold apply_groups.
    apply (for_each_raises P _ n pairs (g, w) Hpair); [| |exact HP].
    - intros y a0 vgs0 r vgs' HP0 Hy. unfold P. rewrite <- HP0.
      eapply apply_weight_names. exact Hy.
    - intros a0 vgs0 HP0. unfold apply_weight, bind, lift, groups, bpy.getitem. cbn [fst snd].
      rewrite Hpos, (Hfind vgs0 HP0). eauto. }
  assert (Houter : exists e vgs', apply_weights entries n (created ss []) = (Raise e, vgs') /\ P vgs').
  { unfold apply_weights.
    apply (for_each_raises P _ n entries (k, JObj pairs) Hentry); [| |reflexivity].
    - intros y a0 vgs0 r vgs' HP0 Hy. unfold P. rewrite <- HP0.
      eapply apply_entry_names. exact Hy.
    - intros a0 vgs0 HP0. unfold apply_entry, bind at 1, lift at 1. cbn [fst snd]. rewrite Hint.
      unfold bind at 1, vertex_total at 1.
      rewrite (proj2 (Z.ltb_lt _ _) Hidx). unfold bind at 1, lift at 1. cbn [items].
      destruct (Hinner a0 vgs0 HP0) as (e & vgs' & He & _). eauto. }
  destruct Houter as (e & vgs' & Happly & HP').
  assert (Hbody : forall vgs, load_body (JObj d) n vgs = (Raise e, vgs')).
  { intros vgs.
    rewrite (load_body_steps (JObj d) n vgs recorded (JList (map JStr ss)) (map JStr ss)
               (created ss []) (JObj entries) entries (Raise e) vgs'); try reflexivity;
      try assumption.
    - cbn [getitem]. rewrite Hnames. reflexivity.
    - apply create_groups_strings.
    - cbn [getitem]. rewrite Hvg. reflexivity. }
  exists e, (bpy.with_groups o vgs').
  assert (Hload : forall before,
    load_weights (Some (bpy.with_groups o before)) filepath fs
    = (Some (ErrorLoading e), Some (bpy.with_groups o vgs'), [])).
  { intros before.
    rewrite (load_weights_checked (bpy.with_groups o before) filepath fs (JObj d) recorded Ht Hf
               Hget Hne).
    cbn [bpy.with_groups bpy.vertices]. fold n. rewrite Hbody. reflexivity. }
  split; [|split; [|split]].
  - rewrite <- (Hload (bpy.vertex_groups o)). destruct o; reflexivity.
  - cbn [bpy.with_groups bpy.vertex_groups]. rewrite HP'. exact Hnd.
  - intros s. cbn [bpy.with_groups bpy.vertex_groups]. rewrite HP', Hin. cbn [names map In]. tauto.
  - exact Hload.
Qed.

Lemma unlisted_group_fails_after_clearing_witness :
  exists e o',
    load_weights (Some (mesh 1 [group "Leg" [(0, 1%float)]])) "w.json"
      (holding "w.json" (ghost_doc 0.5)) = (Some (ErrorLoading e), Some o', []) /\
    List.NoDup (names (bpy.vertex_groups o')) /\
    (forall s, In s (names (bpy.vertex_groups o')) <-> In s ["A"]) /\
    forall before,
      load_weights (Some (bpy.with_groups (mesh 1 [group "Leg" [(0, 1%float)]]) before)) "w.json"
        (holding "w.json" (ghost_doc 0.5))
      = (Some (ErrorLoading e), Some o', []).
Proof.
  apply (unlisted_group_fails_after_clearing (mesh 1 [group "Leg" [(0, 1%float)]]) "w.json"
           (holding "w.json" (ghost_doc 0.5))
           [ ("vertex_count", JInt 1);
             ("group_names", JList [JStr "A"]);
             ("vertex_groups", JObj [("0", JObj [("Ghost", JFloat 0.5)])]) ]
           (JInt 1) ["A"] [("0", JObj [("Ghost", JFloat 0.5)])] "0" [("Ghost", JFloat 0.5)]
           0%Z "Ghost" (JFloat 0.5));
    try reflexivity.
  - left. reflexivity.
  - left. reflexivity.
  - intros [[=]|[]].
Defined.

(** ** What the exporter stores *)

Lemma fold_left_invariant {A B} (P : A -> Prop) (f : A -> B -> A) l :
  (forall a x, In x l -> P a -> P (f a x)) -> forall a, P a -> P (fold_left f l a).
Proof.
  induction l as [|x l IH]; intros Hf a Ha; cbn [fold_left]; [exact Ha|].
  apply IH.
  - intros a' y Hy. apply Hf. right. exact Hy.
  - apply Hf; [left; reflexivity|exact Ha].
Qed.

Lemma in_dict_set {V} k (v : V) d k' v' :
  In (k', v') (dict_set k v d) -> (k', v') = (k, v) \/ In (k', v') d.
Proof.
  induction d as [|[k0 v0] d IH]; cbn [dict_set In].
  - intros [H|[]]. left. symmetry. exact H.
  - destruct (String.eqb k0 k); cbn [In]; intros [H|H]; auto.
    destruct (IH H); auto.
Qed.

(** Every pair kept for a vertex is a weight above 0.0 that some group
    holds for it. *)
Lemma vertex_weights_kept vgs v g w :
  In (g, w) (vertex_weights vgs v) ->
  PrimFloat.ltb 0 w = true /\
  exists grp, In grp vgs /\ bpy.vg_name grp = g /\ bpy.vg_weights grp !! v = Some w.
Proof.
  unfold vertex_weights. revert g w.
  apply (fold_left_invariant
           (fun acc => forall g w, In (g, w) acc ->
              PrimFloat.ltb 0 w = true /\
              exists grp, In grp vgs /\ bpy.vg_name grp = g /\ bpy.vg_weights grp !! v = Some w));
    [|intros g w []].
  intros acc grp Hgrp Hacc g w. unfold bpy.weight.
  destruct (bpy.vg_weights grp !! v) as [x|] eqn:Hx; [|apply Hacc].
  destruct (PrimFloat.ltb 0 x) eqn:Hpos; [|apply Hacc].
  intros H. apply in_dict_set in H as [[= -> ->]|H]; [|apply Hacc; exact H].
  split; [exact Hpos|]. exists grp. auto.
Qed.

(** Every key of the stored map is a vertex of the mesh, with the pairs
    kept for it, of which there is at least one. *)
Lemma scan_keys (o : bpy.Object) k pairs :
  In (k, pairs) (scan o) ->
  exists v, k = str v /\ v < bpy.vertices o /\
            pairs = vertex_weights (bpy.vertex_groups o) v /\ pairs <> [].
Proof.
  unfold scan. revert k pairs.
  apply (fold_left_invariant
           (fun acc => forall k pairs, In (k, pairs) acc ->
              exists v, k = str v /\ v < bpy.vertices o /\
                        pairs = vertex_weights (bpy.vertex_groups o) v /\ pairs <> []));
    [|intros k pairs []].
  intros acc v Hv Hacc k pairs. apply in_seq in Hv.
  destruct (vertex_weights (bpy.vertex_groups o) v) as [|p ps] eqn:Hp; [apply Hacc|].
  intros H. apply in_dict_set in H as [[= -> ->]|H]; [|apply Hacc; exact H].
  exists v. repeat split; [lia|congruence|discriminate].
Qed.

(** The exporter, when it succeeds, has written [weight_data obj]. *)
Lemma save_weights_writes obj filepath fs fs' printed :
  save_weights obj filepath fs = (None, fs', printed) ->
  exists o, obj = Some o /\ bpy.read_json fs' filepath = Return (weight_data o).
Proof.
  unfold save_weights, bpy.write_json. destruct obj as [o|]; [|discriminate].
  destruct (negb _); [discriminate|].
  destruct (bpy.writable fs filepath); [|discriminate].
  intros [= <- _]. exists o. split; [reflexivity|].
  unfold bpy.read_json. cbn [bpy.nodes]. rewrite lookup_insert_eq. reflexivity.
Qed.

(** C3. In the document that [save_weights] writes, every weight under
    [vertex_groups] is above 0.0, and a vertex whose weight is zero or
    absent in every group of the mesh is no key of [vertex_groups]. *)
Theorem document_is_sparse obj filepath fs fs' printed :
  save_weights obj filepath fs = (None, fs', printed) ->
  exists o doc entries,
    obj = Some o /\
    bpy.read_json fs' filepath = Return doc /\
    getitem doc "vertex_groups" = Return (JObj entries) /\
    (forall k pairs g w,
       In (k, JObj pairs) entries -> In (g, w) pairs ->
       exists x, w = JFloat x /\ PrimFloat.ltb 0 x = true) /\
    (forall v,
       (forall grp, In grp (bpy.vertex_groups o) -> kept (bpy.vg_weights grp !! v) = None) ->
       ~ In (str v) (map fst entries)).
Proof.
  intros H. destruct (save_weights_writes _ _ _ _ _ H) as (o & -> & Hread).
  exists o, (weight_data o). eexists. split; [reflexivity|]. split; [exact Hread|].
  split; [reflexivity|]. split.
  - intros k pairs g w Hk Hg.
    apply in_map_iff in Hk as ([k0 ps] & [= <- <-] & Hk).
    apply in_map_iff in Hg as ([g0 x] & [= <- <-] & Hg). cbn [fst snd] in *.
    apply scan_keys in Hk as (v & _ & _ & -> & _).
    apply vertex_weights_kept in Hg as [Hpos _]. exists x. split; [reflexivity|exact Hpos].
  - intros v Hzero Hin. rewrite map_map in Hin.
    apply in_map_iff in Hin as ([k ps] & Hk & Hin). cbn [fst dump_entry] in Hk. subst k.
    apply scan_keys in Hin as (v' & Hv' & _ & -> & Hne).
    apply str_inj in Hv' as ->.
    destruct (vertex_weights (bpy.vertex_groups o) v') as [|[g w] ps] eqn:Hp; [congruence|].
    assert (Hg : In (g, w) (vertex_weights (bpy.vertex_groups o) v'))
      by (rewrite Hp; left; reflexivity).
    apply vertex_weights_kept in Hg as (Hpos & grp & Hgrp & _ & Hw).
    specialize (Hzero grp Hgrp). rewrite Hw in Hzero. cbn [kept] in Hzero.
    rewrite Hpos in Hzero. discriminate.
Qed.

Lemma document_is_sparse_witness :
  exists o doc entries,
    Some arm_mesh = Some o /\
    bpy.read_json (holding "w.json" (weight_data arm_mesh)) "w.json" = Return doc /\
    getitem doc "vertex_groups" = Return (JObj entries) /\
    (forall k pairs g w,
       In (k, JObj pairs) entries -> In (g, w) pairs ->
       exists x, w = JFloat x /\ PrimFloat.ltb 0 x = true) /\
    (forall v,
       (forall grp, In grp (bpy.vertex_groups o) -> kept (bpy.vg_weights grp !! v) = None) ->
       ~ In (str v) (map fst entries)).
Proof.
  apply (document_is_sparse (Some arm_mesh) "w.json" no_files
           (holding "w.json" (weight_data arm_mesh))
           [ WeightValidationData; VerticesWithWeights 1; GroupsWithWeights ["Arm"];
             WeightRange 0.5 0.5 ]).
  vm_compute. reflexivity.
Defined.

(** ** Export, then import *)

Lemma weight_of_cons g gs g' v :
  weight_of (g :: gs) g' v
  = if String.eqb (bpy.vg_name g) g' then bpy.vg_weights g !! v else weight_of gs g' v.
Proof.
  unfold weight_of. cbn [bpy.find]. destruct (String.eqb _ _); [reflexivity|].
  destruct (bpy.find g' gs); reflexivity.
Qed.

Lemma weight_of_unnamed gs g v : ~ In g (names gs) -> weight_of gs g v = None.
Proof. intros H. apply find_none in H. unfold weight_of. rewrite H. reflexivity. Qed.

Lemma pairs_of_cons g gs v :
  pairs_of (g :: gs) v
  = match kept (bpy.vg_weights g !! v) with
    | Some w => (bpy.vg_name g, w) :: pairs_of gs v
    | None => pairs_of gs v
    end.
Proof. unfold pairs_of. cbn. destruct (kept _); reflexivity. Qed.

(** With group names all different, the scan of a vertex appends one pair
    per group that holds a weight above 0.0 for it. *)
Lemma vertex_weights_fold v gs : forall acc,
  List.NoDup (names gs) ->
  (forall g, In g (names gs) -> dict_get g acc = None) ->
  fold_left
    (fun v_weights g =>
       match bpy.weight g v with
       | Return weight =>
           if PrimFloat.ltb 0 weight
           then dict_set (bpy.vg_name g) weight v_weights
           else v_weights
       | Raise _ => v_weights
       end) gs acc
  = acc ++ pairs_of gs v.
Proof.
  induction gs as [|g gs IH]; intros acc Hnd Hacc; cbn [fold_left].
  - unfold pairs_of. cbn. rewrite app_nil_r. reflexivity.
  - cbn [names map] in Hnd. apply List.NoDup_cons_iff in Hnd as [Hg Hnd].
    rewrite pairs_of_cons. unfold bpy.weight, kept.
    destruct (bpy.vg_weights g !! v) as [w|].
    2: { apply IH; [exact Hnd|]. intros g' Hg'. apply Hacc. right. exact Hg'. }
    destruct (PrimFloat.ltb 0 w).
    2: { apply IH; [exact Hnd|]. intros g' Hg'. apply Hacc. right. exact Hg'. }
    rewrite dict_set_fresh by (apply Hacc; left; reflexivity).
    rewrite IH; [rewrite <- app_assoc; reflexivity|exact Hnd|].
    intros g' Hg'. rewrite dict_get_app, Hacc by (right; exact Hg'). cbn [dict_get].
    destruct (String.eqb_spec (bpy.vg_name g) g') as [E|_]; [|reflexivity].
    subst g'. contradiction.
Qed.

Lemma vertex_weights_pairs gs v :
  List.NoDup (names gs) -> vertex_weights gs v = pairs_of gs v.
Proof.
  intros Hnd. unfold vertex_weights. rewrite vertex_weights_fold; [reflexivity|exact Hnd|].
  reflexivity.
Qed.

Lemma omap_cons {A B} (f : A -> option B) x l :
  omap f (x :: l) = match f x with Some y => y :: omap f l | None => omap f l end.
Proof. reflexivity. Qed.

(** The stored map has one entry per vertex that keeps a pair, in the
    order of the vertices. *)
Lemma scan_fold gs l : forall acc,
  List.NoDup (names gs) ->
  List.NoDup l ->
  (forall v, In v l -> dict_get (str v) acc = None) ->
  fold_left
    (fun vertex_groups index =>
       match vertex_weights gs index with
       | [] => vertex_groups
       | v_weights => dict_set (str index) v_weights vertex_groups
       end) l acc
  = acc ++ omap (entry_of gs) l.
Proof.
  intros acc Hgs. revert acc.
  induction l as [|v l IH]; intros acc Hnd Hacc; cbn [fold_left].
  - cbn. rewrite app_nil_r. reflexivity.
  - apply List.NoDup_cons_iff in Hnd as [Hv Hnd].
    rewrite omap_cons. unfold entry_of at 1. rewrite (vertex_weights_pairs gs v Hgs).
    destruct (pairs_of gs v) as [|p ps].
    { apply IH; [exact Hnd|]. intros v' Hv'. apply Hacc. right. exact Hv'. }
    rewrite dict_set_fresh by (apply Hacc; left; reflexivity).
    rewrite IH; [rewrite <- app_assoc; reflexivity|exact Hnd|].
    intros v' Hv'. rewrite dict_get_app, Hacc by (right; exact Hv'). cbn [dict_get].
    destruct (String.eqb_spec (str v) (str v')) as [E|_]; [|reflexivity].
    apply str_inj in E. subst v'. contradiction.
Qed.

Lemma scan_entries (o : bpy.Object) :
  List.NoDup (names (bpy.vertex_groups o)) ->
  scan o = omap (entry_of (bpy.vertex_groups o)) (seq 0 (bpy.vertices o)).
Proof.
  intros Hnd. unfold scan. rewrite scan_fold; [reflexivity|exact Hnd|apply seq_NoDup|].
  reflexivity.
Qed.

(** What the document stores for a group under a vertex. *)
Lemma dict_get_pairs gs g v :
  List.NoDup (names gs) ->
  dict_get g (map dump_pair (pairs_of gs v)) = option_map JFloat (kept (weight_of gs g v)).
Proof.
  induction gs as [|x gs IH]; intros Hnd; [reflexivity|].
  cbn [names map] in Hnd. apply List.NoDup_cons_iff in Hnd as [Hx Hnd].
  rewrite pairs_of_cons, weight_of_cons.
  destruct (kept (bpy.vg_weights x !! v)) as [w|] eqn:Hk; cbn [map dump_pair dict_get fst snd].
  - destruct (String.eqb (bpy.vg_name x) g); [rewrite Hk; reflexivity|exact (IH Hnd)].
  - destruct (String.eqb_spec (bpy.vg_name x) g) as [<-|_]; [|exact (IH Hnd)].
    rewrite (IH Hnd), Hk, weight_of_unnamed by exact Hx. reflexivity.
Qed.

Lemma dict_get_entries gs v l :
  dict_get (str v) (map dump_entry (omap (entry_of gs) l))
  = if bool_decide (v ∈ l)
    then match pairs_of gs v with
         | [] => None
         | ps => Some (JObj (map dump_pair ps))
         end
    else None.
Proof.
  induction l as [|u l IH]; [reflexivity|].
  rewrite omap_cons. unfold entry_of at 1.
  destruct (decide (u = v)) as [->|Hne].
  - rewrite bool_decide_eq_true_2 by (left).
    destruct (pairs_of gs v) as [|p ps] eqn:Hp.
    + rewrite IH. destruct (bool_decide (v ∈ l)); reflexivity.
    + cbn [map dump_entry dict_get fst snd]. rewrite String.eqb_refl. reflexivity.
  - assert (Hsame : bool_decide (v ∈ u :: l) = bool_decide (v ∈ l)).
    { apply bool_decide_ext. rewrite elem_of_cons. split; [intros [E|H]; [congruence|exact H]|auto]. }
    rewrite Hsame. destruct (pairs_of gs u) as [|p ps]; [exact IH|].
    cbn [map dump_entry dict_get fst snd].
    destruct (String.eqb_spec (str u) (str v)) as [E|_]; [|exact IH].
    apply str_inj in E. contradiction.
Qed.

(** The document stores, for every vertex of the mesh and every group,
    the weight the exporter keeps, and nothing else. *)
Lemma stored_weight_data (o : bpy.Object) g v :
  List.NoDup (names (bpy.vertex_groups o)) ->
  v < bpy.vertices o ->
  stored (weight_data o) g v = option_map JFloat (kept (weight_of (bpy.vertex_groups o) g v)).
Proof.
  intros Hnd Hv. unfold stored, weight_data. cbn [getitem dict_get String.eqb Ascii.eqb Bool.eqb].
  rewrite (scan_entries o Hnd), dict_get_entries.
  rewrite bool_decide_eq_true_2 by (apply list_elem_of_In, in_seq; lia).
  pose proof (dict_get_pairs (bpy.vertex_groups o) g v Hnd) as Hp.
  destruct (pairs_of (bpy.vertex_groups o) v) as [|p ps]; [|exact Hp].
  cbn [map dict_get] in Hp. exact Hp.
Qed.

(** Applying the pairs kept for vertex [v] sets, at [v], the weights kept,
    and changes nothing else. *)
Lemma apply_saved_pairs n v gs :
  v < n ->
  List.NoDup (names gs) ->
  forall acc vgs,
    (forall g, In g (names gs) -> In g (names vgs)) ->
    exists count vgs',
      apply_groups (Z.of_nat v) (map dump_pair (pairs_of gs v)) acc n vgs = (Return count, vgs') /\
      names vgs' = names vgs /\
      (forall g',
         weight_of vgs' g' v
         = match kept (weight_of gs g' v) with
           | Some w => Some w
           | None => weight_of vgs g' v
           end) /\
      (forall g' v', v' <> v -> weight_of vgs' g' v' = weight_of vgs g' v').
Proof.
  intros Hv. induction gs as [|g gs IH]; intros Hnd acc vgs Hsub.
  - exists acc, vgs. repeat split; reflexivity.
  - cbn [names map] in Hnd. apply List.NoDup_cons_iff in Hnd as [Hg Hnd].
    assert (Hsub' : forall g0, In g0 (names gs) -> In g0 (names vgs))
      by (intros g0 H0; apply Hsub; right; exact H0).
    rewrite pairs_of_cons.
    destruct (kept (bpy.vg_weights g !! v)) as [w|] eqn:Hk.
    + assert (Hpos : PrimFloat.ltb 0 w = true).
      { unfold kept in Hk. destruct (bpy.vg_weights g !! v) as [x|]; [|discriminate].
        destruct (PrimFloat.ltb 0 x) eqn:E; [|discriminate]. congruence. }
      destruct (bpy.find (bpy.vg_name g) vgs) as [i|] eqn:Hfind.
      2: { apply find_none in Hfind. exfalso. apply Hfind, Hsub. left. reflexivity. }
      set (vgs1 := bpy.add n i (Z.of_nat v) w vgs).
      destruct (IH Hnd (S acc) vgs1) as (count & vgs' & Hrun & Hnames & Hat & Hoff).
      { intros g0 H0. unfold vgs1. rewrite add_names. apply Hsub'. exact H0. }
      exists count, vgs'. split; [|split; [|split]].
      * unfold apply_groups in *. cbn [map for_each]. unfold bind at 1, apply_weight at 1.
        unfold_M; unfold bpy.getitem.
        cbn [dump_pair fst snd gt_zero as_float]. rewrite Hpos, Hfind. exact Hrun.
      * rewrite Hnames. apply add_names.
      * intros g'. rewrite Hat, weight_of_cons. unfold vgs1.
        rewrite (weight_of_add n (bpy.vg_name g) i v w vgs g' v Hfind Hv).
        destruct (String.eqb_spec (bpy.vg_name g) g') as [<-|Hne].
        -- rewrite weight_of_unnamed by exact Hg. cbn [kept]. rewrite Hk.
           rewrite bool_decide_eq_true_2 by auto. reflexivity.
        -- rewrite bool_decide_eq_false_2 by (intros [E _]; congruence). reflexivity.
      * intros g' v' Hv'. rewrite (Hoff g' v' Hv'). unfold vgs1.
        rewrite (weight_of_add n (bpy.vg_name g) i v w vgs g' v' Hfind Hv).
        rewrite bool_decide_eq_false_2 by (intros [_ E]; congruence). reflexivity.
    + destruct (IH Hnd acc vgs Hsub') as (count & vgs' & Hrun & Hnames & Hat & Hoff).
      exists count, vgs'. repeat split; try assumption.
      intros g'. rewrite Hat, weight_of_cons.
      destruct (String.eqb_spec (bpy.vg_name g) g') as [<-|Hne]; [|reflexivity].
      rewrite weight_of_unnamed by exact Hg. cbn [kept]. rewrite Hk. reflexivity.
Qed.

(** Applying the entries stored for the vertices [l] sets, at each of
    them, the weights kept, and changes nothing else. *)
Lemma apply_saved_entries n gs :
  List.NoDup (names gs) ->
  forall l,
    List.NoDup l ->
    (forall v, In v l -> v < n) ->
    forall acc vgs,
      (forall g, In g (names gs) -> In g (names vgs)) ->
      exists count vgs',
        for_each (map dump_entry (omap (entry_of gs) l)) acc apply_entry n vgs
        = (Return count, vgs') /\
        names vgs' = names vgs /\
        (forall g' v', In v' l ->
           weight_of vgs' g' v'
           = match kept (weight_of gs g' v') with
             | Some w => Some w
             | None => weight_of vgs g' v'
             end) /\
        (forall g' v', ~ In v' l -> weight_of vgs' g' v' = weight_of vgs g' v').
Proof.
  intros Hgs. induction l as [|v l IH]; intros Hnd Hlt acc vgs Hsub.
  - exists acc, vgs. repeat split; try reflexivity. intros g' v' [].
  - apply List.NoDup_cons_iff in Hnd as [Hv Hnd].
    assert (Hvn : v < n) by (apply Hlt; left; reflexivity).
    destruct (apply_saved_pairs n v gs Hvn Hgs acc vgs Hsub)
      as (count1 & vgs1 & Hrun1 & Hnames1 & Hat1 & Hoff1).
    destruct (IH Hnd (fun u Hu => Hlt u (or_intror Hu)) count1 vgs1)
      as (count & vgs' & Hrun & Hnames & Hin & Hout).
    { intros g0 H0. rewrite Hnames1. apply Hsub. exact H0. }
    exists count, vgs'. split; [|split; [|split]].
    + rewrite omap_cons. unfold entry_of at 1.
      destruct (pairs_of gs v) as [|p ps] eqn:Hp.
      * cbn in Hrun1. injection Hrun1 as <- <-. exact Hrun.
      * cbn [map for_each]. unfold bind at 1, apply_entry at 1.
        unfold bind at 1, lift at 1. cbn [dump_entry fst snd]. rewrite int_str.
        unfold bind at 1, vertex_total at 1.
        rewrite (proj2 (Z.ltb_lt _ _)) by lia.
        unfold bind at 1, lift at 1. cbn [items]. rewrite Hrun1. exact Hrun.
    + rewrite Hnames. exact Hnames1.
    + intros g' v' [<-|Hv'].
      * rewrite (Hout g' v Hv). apply Hat1.
      * rewrite (Hin g' v' Hv'). rewrite Hoff1; [reflexivity|]. intros ->. contradiction.
    + intros g' v' Hv'. rewrite Hout by (intros H; apply Hv'; right; exact H).
      apply Hoff1. intros ->. apply Hv'. left. reflexivity.
Qed.

Lemma read_json_file fs filepath doc :
  bpy.read_json fs filepath = Return doc ->
  bpy.nodes fs !! filepath = Some (bpy.File (bpy.Json doc)).
Proof.
  unfold bpy.read_json. destruct (bpy.nodes fs !! filepath) as [[[j|]|]|]; try discriminate.
  intros [= ->]. reflexivity.
Qed.

(** C1. Let the exporter save the weights of a mesh, whose groups have
    names all different, to a path, and let the importer then read that
    path into a mesh with the same number of vertices, whatever groups it
    has.  The import succeeds and, for every group name and every vertex of
    the mesh: when the original weight is above 0.0, the document stores
    that very weight and the target carries it afterwards; otherwise the
    pair is absent from the document and from the target. *)
Theorem export_then_import (src dst : bpy.Object) filepath fs fs' printed :
  save_weights (Some src) filepath fs = (None, fs', printed) ->
  bpy.type dst = "MESH" ->
  bpy.vertices dst = bpy.vertices src ->
  List.NoDup (names (bpy.vertex_groups src)) ->
  exists doc dst' printed',
    bpy.read_json fs' filepath = Return doc /\
    load_weights (Some dst) filepath fs' = (None, Some dst', printed') /\
    forall g v, v < bpy.vertices src ->
      weight_of (bpy.vertex_groups dst') g v = kept (weight_of (bpy.vertex_groups src) g v) /\
      stored doc g v = option_map JFloat (kept (weight_of (bpy.vertex_groups src) g v)).
Proof.
  intros Hsave Htype Hcount Hnd.
  destruct (save_weights_writes _ _ _ _ _ Hsave) as (o & [= <-] & Hread).
  set (gs := bpy.vertex_groups src) in *. set (n := bpy.vertices src) in *.
  destruct (created_names (names gs) [] (List.NoDup_nil _)) as [_ Hin].
  destruct (apply_saved_entries n gs Hnd (seq 0 n) (seq_NoDup _ _)
              (fun v Hv => proj2 (proj1 (in_seq _ _ _) Hv)) 0 (created (names gs) []))
    as (count & vgs' & Hrun & _ & Hat & _).
  { intros g Hg. apply Hin. right. exact Hg. }
  exists (weight_data src), (bpy.with_groups dst vgs'). eexists.
  split; [exact Hread|]. split.
  - rewrite (load_weights_checked dst filepath fs' (weight_data src) (JInt (Z.of_nat n)) Htype
               (read_json_file _ _ _ Hread) eq_refl)
      by (rewrite Hcount; cbn [int_ne]; rewrite Z.eqb_refl; reflexivity).
    rewrite Hcount. fold n.
    rewrite (load_body_steps (weight_data src) n [] (JInt (Z.of_nat n))
               (JList (map JStr (names gs))) (map JStr (names gs)) (created (names gs) [])
               (JObj (map dump_entry (scan src))) (map dump_entry (scan src))
               (Return count) vgs'); try reflexivity.
    + cbn [int_ne]. rewrite Z.eqb_refl. reflexivity.
    + unfold weight_data. cbn [getitem dict_get String.eqb Ascii.eqb Bool.eqb].
      unfold names. rewrite map_map. reflexivity.
    + apply create_groups_strings.
    + unfold apply_weights. rewrite (scan_entries src Hnd). exact Hrun.
  - intros g v Hv. split.
    + cbn [bpy.with_groups bpy.vertex_groups]. rewrite Hat by (apply in_seq; lia).
      destruct (kept (weight_of gs g v)); [reflexivity|].
      apply weight_of_weightless, created_weightless. constructor.
    + apply stored_weight_data; assumption.
Qed.

Lemma export_then_import_witness :
  exists doc dst' printed',
    bpy.read_json (holding "w.json" (weight_data arm_mesh)) "w.json" = Return doc /\
    load_weights (Some (mesh 3 [group "Leg" [(2, 1%float)]])) "w.json"
      (holding "w.json" (weight_data arm_mesh)) = (None, Some dst', printed') /\
    forall g v, v < bpy.vertices arm_mesh ->
      weight_of (bpy.vertex_groups dst') g v
      = kept (weight_of (bpy.vertex_groups arm_mesh) g v) /\
      stored doc g v = option_map JFloat (kept (weight_of (bpy.vertex_groups arm_mesh) g v)).
Proof.
  apply (export_then_import arm_mesh (mesh 3 [group "Leg" [(2, 1%float)]]) "w.json" no_files
           (holding "w.json" (weight_data arm_mesh))
           [ WeightValidationData; VerticesWithWeights 1; GroupsWithWeights ["Arm"];
             WeightRange 0.5 0.5 ]).
  - vm_compute. reflexivity.
  - reflexivity.
  - reflexivity.
  - repeat constructor. intros [].
Defined.

(** The round trip on the sample mesh: 0.5 comes back at vertex 0, the 0.0
    of vertex 1 does not, and the group "Leg" of the target is gone. *)
Example export_then_import_arm :
  load_weights (Some (mesh 3 [group "Leg" [(2, 1%float)]])) "w.json"
    (holding "w.json" (weight_data arm_mesh))
  = (None, Some (mesh 3 [group "Arm" [(0, 0.5%float)]]),
     [LoadValidation; VerticesAffected 1; GroupsCreated 1]).
Proof. vm_compute. reflexivity. Qed.

(** ** Entries beyond the vertex count *)




Lemma valid_pair_inv group_names gw :
  valid_pair group_names gw = true ->
  exists x, snd gw = JFloat x /\ In (JStr (fst gw)) group_names.
Proof.
  unfold valid_pair. destruct (snd gw) as [| | |x| | |]; try discriminate.
  intros H. exists x. split; [reflexivity|].
  apply existsb_exists in H as (y & Hy & E). destruct y as [| | | |s| |]; try discriminate.
  apply String.eqb_eq in E. subst s. exact Hy.
Qed.

Lemma apply_valid_pair group_names idx gw :
  valid_pair group_names gw = true ->
  forall a n vgs, listed group_names vgs ->
    exists a' vgs', apply_weight idx gw a n vgs = (Return a', vgs') /\ listed group_names vgs'.
Proof.
  intros Hv a n vgs Hl. destruct (valid_pair_inv _ _ Hv) as (x & Hx & Hin).
  unfold apply_weight; unfold_M; unfold bpy.getitem.
  rewrite Hx. cbn [gt_zero as_float]. destruct (PrimFloat.ltb 0 x); [|eauto].
  destruct (bpy.find (fst gw) vgs) as [i|] eqn:Hfind.
  - eexists _, _. split; [reflexivity|]. intros s Hs. rewrite add_names. apply Hl. exact Hs.
  - apply find_none in Hfind. exfalso. apply Hfind, Hl. exact Hin.
Qed.













(** What that document asks for: 0.5 for group A at vertex 0, and nothing
    at vertex 1. *)
Example beyond_doc_asks :
  asked [ ("0", JObj [("A", JFloat 0.5)]); ("7", JObj [("A", JFloat 0.25)]) ] "A" 0
  = Some 0.5%float /\
  asked [ ("0", JObj [("A", JFloat 0.5)]); ("7", JObj [("A", JFloat 0.25)]) ] "A" 1 = None.
Proof. split; vm_compute; reflexivity. Qed.

(** On that document the entry for vertex 7 leaves no trace, and the
    document without it imports to the same object. *)
Example beyond_doc_imports :
  load_weights (Some (mesh 2 [])) "w.json" (holding "w.json" beyond_doc)
  = (None, Some (mesh 2 [group "A" [(0, 0.5%float)]]),
     [LoadValidation; VerticesAffected 1; GroupsCreated 1]) /\
  without_out_of_range 2 beyond_doc
  = JObj [ ("vertex_count", JInt 2);
           ("group_names", JList [JStr "A"]);
           ("vertex_groups", JObj [("0", JObj [("A", JFloat 0.5)])]) ].
Proof. split; vm_compute; reflexivity. Qed.

(** ** What the counter counts *)

Lemma apply_valid_pairs_count group_names idx n pairs :
  forallb (valid_pair group_names) pairs = true ->
  forall a vgs, listed group_names vgs ->
    exists vgs',
      apply_groups idx pairs a n vgs = (Return (a + positive_pairs pairs), vgs') /\
      listed group_names vgs'.
Proof.
  unfold apply_groups, positive_pairs.
  induction pairs as [|gw pairs IH]; intros Hv a vgs Hl.
  - exists vgs. cbn. rewrite Nat.add_0_r. split; [reflexivity|exact Hl].
  - cbn [forallb] in Hv. apply andb_true_iff in Hv as [Hgw Hv].
    destruct (apply_valid_pair group_names idx gw Hgw a n vgs Hl) as (a1 & vgs1 & Hrun & Hl1).
    assert (Ha1 : a1 = a + (if match gt_zero (snd gw) with Return b => b | Raise _ => false end
                            then 1 else 0)).
    { revert Hrun. unfold apply_weight; unfold_M.
      destruct (gt_zero (snd gw)) as [[|]|e]; try discriminate.
      - destruct (bpy.getitem (fst gw) vgs); [|discriminate].
        destruct (as_float (snd gw)); [|discriminate]. intros [= <- _]. lia.
      - intros [= <- _]. lia. }
    destruct (IH Hv a1 vgs1 Hl1) as (vgs' & Hrest & Hl').
    exists vgs'. split; [|exact Hl'].
    cbn [for_each List.filter]. unfold bind. rewrite Hrun, Hrest. f_equal. f_equal.
    rewrite Ha1. destruct (match gt_zero (snd gw) with Return b => b | Raise _ => false end);
      cbn [length]; lia.
Qed.

(** On a valid document the number printed as vertices affected is the
    number of weights applied, a vertex counting once for every group that
    gives it a weight. *)
Lemma vertices_affected_is_assignments group_names n entries :
  forallb (valid_entry group_names) entries = true ->
  forall a vgs, listed group_names vgs ->
    exists vgs',
      for_each entries a apply_entry n vgs = (Return (a + assignments n entries), vgs') /\
      listed group_names vgs'.
Proof.
  unfold assignments.
  induction entries as [|kv entries IH]; intros Hv a vgs Hl.
  - exists vgs. cbn. rewrite Nat.add_0_r. split; [reflexivity|exact Hl].
  - cbn [forallb] in Hv. apply andb_true_iff in Hv as [Hkv Hv].
    cbn [for_each map list_sum]. unfold bind at 1, apply_entry at 1, bind, lift, vertex_total, ret.
    unfold valid_entry in Hkv.
    destruct (int (fst kv)) as [idx|e]; [|discriminate].
    destruct (snd kv) as [| | | | | |pairs]; try discriminate.
    apply andb_true_iff in Hkv as [_ Hpairs]. cbn [items].
    destruct (Z.ltb idx (Z.of_nat n)).
    + destruct (apply_valid_pairs_count group_names idx n pairs Hpairs a vgs Hl)
        as (vgs1 & Hrun & Hl1).
      rewrite Hrun. destruct (IH Hv (a + positive_pairs pairs) vgs1 Hl1) as (vgs' & Hrest & Hl').
      exists vgs'. split; [|exact Hl']. rewrite Hrest. unfold list_sum. cbn [fold_right].
      rewrite Nat.add_assoc. reflexivity.
    + destruct (IH Hv a vgs Hl) as (vgs' & Hrest & Hl').
      exists vgs'. split; [|exact Hl']. rewrite Hrest. reflexivity.
Qed.

Example two_groups_assignments :
  assignments 1 [("0", JObj [("A", JFloat 0.5); ("B", JFloat 0.25)])] = 2.
Proof. vm_compute. reflexivity. Qed.

(** * Further properties of the exporter *)

Lemma save_weights_failed obj filepath fs e fs' printed :
  save_weights obj filepath fs = (Some e, fs', printed) -> fs' = fs.
Proof.
  unfold save_weights, bpy.write_json. destruct obj as [o|]; [|intros [= _ <- _]; reflexivity].
  destruct (negb _); [intros [= _ <- _]; reflexivity|].
  destruct (bpy.writable fs filepath); [discriminate|]. intros [= _ <- _]. reflexivity.
Qed.

Lemma save_weights_written obj filepath fs fs' printed :
  save_weights obj filepath fs = (None, fs', printed) ->
  bpy.writable fs filepath = true /\
  exists o, obj = Some o /\
    fs' = {| bpy.nodes := <[filepath := bpy.File (bpy.Json (weight_data o))]> (bpy.nodes fs);
             bpy.denied := bpy.denied fs |}.
Proof.
  unfold save_weights, bpy.write_json. destruct obj as [o|]; [|discriminate].
  destruct (negb _); [discriminate|].
  destruct (bpy.writable fs filepath); [|discriminate]. intros [= <- _]. eauto.
Qed.



(** Both errors are returned: a directory in the place of the file gives
    an error of saving. *)
Example save_weights_fails_on_directory :
  save_weights (Some arm_mesh) "out" {| bpy.nodes := {[ "out" := bpy.Dir ]}; bpy.denied := ∅ |}
  = (Some (ErrorSaving OSError), {| bpy.nodes := {[ "out" := bpy.Dir ]}; bpy.denied := ∅ |}, []).
Proof. vm_compute. reflexivity. Qed.

(** X3. Saving a second time to the same path overwrites the document
    wholesale: the second save succeeds, and leaves the files as saving
    the second mesh alone would have. *)
Theorem save_weights_overwrites (o1 o2 : bpy.Object) filepath fs fs1 printed1 :
  save_weights (Some o1) filepath fs = (None, fs1, printed1) ->
  bpy.type o2 = "MESH" ->
  save_weights (Some o2) filepath fs1 = save_weights (Some o2) filepath fs /\
  exists fs2 printed2,
    save_weights (Some o2) filepath fs1 = (None, fs2, printed2) /\
    bpy.read_json fs2 filepath = Return (weight_data o2).
Proof.
  intros H1 Ht2. destruct (save_weights_written _ _ _ _ _ H1) as (Hw & o & [= <-] & Hfs1).
  assert (Hw1 : bpy.writable fs1 filepath = true).
  { subst fs1. revert Hw. unfold bpy.writable. cbn [bpy.nodes bpy.denied].
    rewrite lookup_insert_eq. destruct (bpy.nodes fs !! filepath) as [[c|]|]; auto.
    discriminate. }
  unfold save_weights, bpy.write_json. rewrite Ht2, Hw1, Hw.
  cbn [String.eqb Ascii.eqb Bool.eqb negb]. subst fs1. cbn [bpy.nodes bpy.denied].
  rewrite insert_insert_eq. split; [reflexivity|].
  eexists _, _. split; [reflexivity|].
  unfold bpy.read_json. cbn [bpy.nodes]. rewrite lookup_insert_eq. reflexivity.
Qed.

Lemma save_weights_overwrites_witness :
  save_weights (Some (mesh 2 [])) "w.json" (holding "w.json" (weight_data arm_mesh))
  = save_weights (Some (mesh 2 [])) "w.json" no_files /\
  exists fs2 printed2,
    save_weights (Some (mesh 2 [])) "w.json" (holding "w.json" (weight_data arm_mesh))
    = (None, fs2, printed2) /\
    bpy.read_json fs2 "w.json" = Return (weight_data (mesh 2 [])).
Proof.
  apply (save_weights_overwrites arm_mesh (mesh 2 []) "w.json" no_files
           (holding "w.json" (weight_data arm_mesh))
           [ WeightValidationData; VerticesWithWeights 1; GroupsWithWeights ["Arm"];
             WeightRange 0.5 0.5 ]).
  - vm_compute. reflexivity.
  - reflexivity.
Defined.

Lemma weight_data_valid (o : bpy.Object) : valid_document (weight_data o) = true.
Proof.
  unfold weight_data, valid_document. cbn [dict_get String.eqb Ascii.eqb Bool.eqb].
  apply andb_true_iff. split.
  - apply forallb_forall. intros x Hx. apply in_map_iff in Hx as (g & <- & _). reflexivity.
  - apply forallb_forall. intros kv Hkv.
    apply in_map_iff in Hkv as ([k ps] & <- & Hk).
    apply scan_keys in Hk as (v & -> & _ & -> & _).
    unfold valid_entry, dump_entry. cbn [fst snd]. rewrite int_str.
    apply andb_true_iff. split; [apply Z.leb_le; lia|].
    apply forallb_forall. intros gw Hgw. apply in_map_iff in Hgw as ([g w] & <- & Hg).
    apply vertex_weights_kept in Hg as (_ & grp & Hgrp & Hname & _).
    unfold valid_pair, dump_pair. cbn [fst snd]. apply existsb_exists.
    exists (JStr (bpy.vg_name grp)). split.
    + apply in_map_iff. exists grp. split; [reflexivity|exact Hgrp].
    + apply String.eqb_eq. exact Hname.
Qed.

(** X4. The document a successful [save_weights] leaves in the file is a
    valid document: it records the mesh's name, its vertex count and the
    names of its groups in their order, and every entry of [vertex_groups]
    has a key that reads as a vertex index and gives floats to listed
    groups only. *)
Theorem saved_document_is_valid obj filepath fs fs' printed :
  save_weights obj filepath fs = (None, fs', printed) ->
  exists o doc,
    obj = Some o /\
    bpy.read_json fs' filepath = Return doc /\
    valid_document doc = true /\
    getitem doc "object_name" = Return (JStr (bpy.name o)) /\
    getitem doc "vertex_count" = Return (JInt (Z.of_nat (bpy.vertices o))) /\
    getitem doc "group_names" = Return (JList (map JStr (names (bpy.vertex_groups o)))).
Proof.
  intros H. destruct (save_weights_writes _ _ _ _ _ H) as (o & -> & Hread).
  exists o, (weight_data o). repeat split; try assumption.
  - apply weight_data_valid.
  - unfold weight_data. cbn [getitem dict_get String.eqb Ascii.eqb Bool.eqb].
    unfold names. rewrite map_map. reflexivity.
Qed.

Lemma saved_document_is_valid_witness :
  exists o doc,
    Some arm_mesh = Some o /\
    bpy.read_json (holding "w.json" (weight_data arm_mesh)) "w.json" = Return doc /\
    valid_document doc = true /\
    getitem doc "object_name" = Return (JStr (bpy.name o)) /\
    getitem doc "vertex_count" = Return (JInt (Z.of_nat (bpy.vertices o))) /\
    getitem doc "group_names" = Return (JList (map JStr (names (bpy.vertex_groups o)))).
Proof.
  apply (saved_document_is_valid (Some arm_mesh) "w.json" no_files
           (holding "w.json" (weight_data arm_mesh))
           [ WeightValidationData; VerticesWithWeights 1; GroupsWithWeights ["Arm"];
             WeightRange 0.5 0.5 ]).
  vm_compute. reflexivity.
Defined.

(** ** The validation summary *)

Lemma set_add_spec x s :
  (List.NoDup s -> List.NoDup (set_add x s)) /\
  forall y, In y (set_add x s) <-> In y s \/ y = x.
Proof.
  unfold set_add. destruct (existsb (String.eqb x) s) eqn:E.
  - apply existsb_exists in E as (z & Hz & Ez). apply String.eqb_eq in Ez. subst z.
    split; [auto|]. intros y. split; [auto|]. intros [H| ->]; assumption.
  - assert (Hx : ~ In x s).
    { intros Hx. apply Bool.not_true_iff_false in E. apply E. apply existsb_exists.
      exists x. split; [exact Hx|apply String.eqb_refl]. }
    split.
    + intros Hnd. apply List.NoDup_app; [exact Hnd|repeat constructor; intros []|].
      intros a Ha [<-|[]]. contradiction.
    + intros y. rewrite in_app_iff. cbn [In]. intuition congruence.
Qed.

(** The second pass, pair after pair. *)
Lemma validate_pairs pairs : forall v0,
  let v := fold_left
             (fun validation (gw : string * float) =>
                {| total_vertices_with_weights := total_vertices_with_weights validation;
                   groups_with_weights := set_add (fst gw) (groups_with_weights validation);
                   max_weight := Py.max (max_weight validation) (snd gw);
                   min_weight := Py.min (min_weight validation) (snd gw) |})
             pairs v0 in
  total_vertices_with_weights v = total_vertices_with_weights v0 /\
  (List.NoDup (groups_with_weights v0) -> List.NoDup (groups_with_weights v)) /\
  (forall g, In g (groups_with_weights v) <->
             In g (groups_with_weights v0) \/ exists w, In (g, w) pairs) /\
  (max_weight v = max_weight v0 \/ exists g, In (g, max_weight v) pairs) /\
  (min_weight v = min_weight v0 \/ exists g, In (g, min_weight v) pairs).
Proof.
  induction pairs as [|[g0 w0] pairs IH]; intros v0; cbn zeta; cbn [fold_left].
  - repeat split; auto. intros [H|[w []]]. exact H.
  - specialize (IH {| total_vertices_with_weights := total_vertices_with_weights v0;
                      groups_with_weights := set_add g0 (groups_with_weights v0);
                      max_weight := Py.max (max_weight v0) w0;
                      min_weight := Py.min (min_weight v0) w0 |}).
    cbn zeta in IH. cbn [fst snd] in *.
    destruct IH as (Ht & Hnd & Hin & Hmax & Hmin).
    cbn [total_vertices_with_weights groups_with_weights max_weight min_weight] in *.
    destruct (set_add_spec g0 (groups_with_weights v0)) as [Hnd0 Hin0].
    split; [exact Ht|]. split; [auto|]. split; [|split].
    + intros g. rewrite Hin, Hin0. cbn [In]. split.
      * intros [[H| ->]|[w H]]; eauto.
      * intros [H|[w [[= <- <-]|H]]]; eauto.
    + destruct Hmax as [Hmax|[g Hg]]; [|right; exists g; right; exact Hg].
      rewrite Hmax. unfold Py.max. destruct (PrimFloat.ltb _ _); [|left; reflexivity].
      right. exists g0. left. reflexivity.
    + destruct Hmin as [Hmin|[g Hg]]; [|right; exists g; right; exact Hg].
      rewrite Hmin. unfold Py.min. destruct (PrimFloat.ltb _ _); [|left; reflexivity].
      right. exists g0. left. reflexivity.
Qed.

(** X5. The validation summary of a stored map: the count of vertices is
    the number of its keys; the groups listed are, each once, the groups
    that some vertex gives a weight to; the maximum is 0.0 or one of the
    stored weights and the minimum is 1.0 or one of the stored weights, so
    that a map without weights is summed up by the range from 1.0 to 0.0. *)
Theorem validation_summary (vertex_groups : list (string * list (string * float))) :
  let v := validate vertex_groups in
  let occurs g w := exists k pairs, In (k, pairs) vertex_groups /\ In (g, w) pairs in
  total_vertices_with_weights v = length vertex_groups /\
  List.NoDup (groups_with_weights v) /\
  (forall g, In g (groups_with_weights v) <-> exists w, occurs g w) /\
  (max_weight v = 0%float \/ exists g, occurs g (max_weight v)) /\
  (min_weight v = 1%float \/ exists g, occurs g (min_weight v)) /\
  (vertex_groups = [] -> min_weight v = 1%float /\ max_weight v = 0%float).
Proof.
  cbn zeta. unfold validate.
  set (init := {| total_vertices_with_weights := length vertex_groups;
                  groups_with_weights := []; max_weight := 0; min_weight := 1 |}).
  assert (Hgen : forall (l : list (string * list (string * float))) v0,
    let v := fold_left
               (fun validation v_weights =>
                  fold_left
                    (fun validation (gw : string * float) =>
                       {| total_vertices_with_weights := total_vertices_with_weights validation;
                          groups_with_weights := set_add (fst gw) (groups_with_weights validation);
                          max_weight := Py.max (max_weight validation) (snd gw);
                          min_weight := Py.min (min_weight validation) (snd gw) |})
                    v_weights validation)
               (map snd l) v0 in
    let occurs g w := exists k pairs, In (k, pairs) l /\ In (g, w) pairs in
    total_vertices_with_weights v = total_vertices_with_weights v0 /\
    (List.NoDup (groups_with_weights v0) -> List.NoDup (groups_with_weights v)) /\
    (forall g, In g (groups_with_weights v) <->
               In g (groups_with_weights v0) \/ exists w, occurs g w) /\
    (max_weight v = max_weight v0 \/ exists g, occurs g (max_weight v)) /\
    (min_weight v = min_weight v0 \/ exists g, occurs g (min_weight v))).
  { induction l as [|[k ps] l IH]; intros v0; cbn zeta; cbn [map fold_left snd].
    - repeat split; auto. intros [H|[w (k & pairs & [] & _)]]. exact H.
    - destruct (validate_pairs ps v0) as (Ht1 & Hnd1 & Hin1 & Hmax1 & Hmin1).
      cbn zeta in *.
      match goal with |- context [fold_left _ (map snd l) ?x] => set (v1 := x) in * end.
      destruct (IH v1) as (Ht & Hnd & Hin & Hmax & Hmin). cbn zeta in *.
      split; [congruence|]. split; [auto|]. split; [|split].
      + intros g. rewrite Hin, Hin1. split.
        * intros [[H|[w H]]|[w (k' & pairs & H1 & H2)]]; auto.
          -- right. exists w, k, ps. split; [left; reflexivity|exact H].
          -- right. exists w, k', pairs. split; [right; exact H1|exact H2].
        * intros [H|[w (k' & pairs & [[= <- <-]|H1] & H2)]]; eauto.
          right. exists w, k', pairs. auto.
      + destruct Hmax as [Hmax|(g & k' & pairs & H1 & H2)].
        * rewrite Hmax. destruct Hmax1 as [E|[g Hg]]; [left; exact E|].
          right. exists g, k, ps. split; [left; reflexivity|exact Hg].
        * right. exists g, k', pairs. split; [right; exact H1|exact H2].
      + destruct Hmin as [Hmin|(g & k' & pairs & H1 & H2)].
        * rewrite Hmin. destruct Hmin1 as [E|[g Hg]]; [left; exact E|].
          right. exists g, k, ps. split; [left; reflexivity|exact Hg].
        * right. exists g, k', pairs. split; [right; exact H1|exact H2]. }
  destruct (Hgen vertex_groups init) as (Ht & Hnd & Hin & Hmax & Hmin). cbn zeta in *.
  split; [exact Ht|]. split; [apply Hnd; constructor|]. split; [|split; [|split]].
  - intros g. rewrite Hin. cbn [init groups_with_weights In]. tauto.
  - exact Hmax.
  - exact Hmin.
  - intros ->. split; reflexivity.
Qed.

(** ** The keys of the document *)

Lemma dict_get_none {V} k (d : list (string * V)) :
  dict_get k d = None <-> ~ In k (map fst d).
Proof.
  induction d as [|[k0 v0] d IH]; cbn [dict_get map fst In]; [tauto|].
  destruct (String.eqb_spec k0 k) as [->|Hne].
  - split; [discriminate|]. intros H. exfalso. apply H. left. reflexivity.
  - rewrite IH. tauto.
Qed.

Lemma dict_set_keys {V} k (v : V) d :
  List.NoDup (map fst d) -> List.NoDup (map fst (dict_set k v d)).
Proof.
  intros Hnd. destruct (dict_get k d) as [x|] eqn:Hget.
  - assert (Hsame : map fst (dict_set k v d) = map fst d); [|rewrite Hsame; exact Hnd].
    clear Hnd. revert Hget. induction d as [|[k0 v0] d IH]; cbn [dict_get dict_set]; [discriminate|].
    destruct (String.eqb_spec k0 k) as [->|Hne]; [reflexivity|].
    intros H. cbn [map fst]. rewrite (IH H). reflexivity.
  - rewrite (dict_set_fresh k v d Hget), map_app. cbn [map fst].
    apply List.NoDup_app; [exact Hnd|repeat constructor; intros []|].
    intros a Ha [<-|[]]. apply dict_get_none in Hget. contradiction.
Qed.

Lemma vertex_weights_keys vgs v : List.NoDup (map fst (vertex_weights vgs v)).
Proof.
  unfold vertex_weights.
  apply (fold_left_invariant (fun acc : list (string * float) => List.NoDup (map fst acc)));
    [|constructor].
  intros acc g _ Hacc. destruct (bpy.weight g v) as [w|e]; [|exact Hacc].
  destruct (PrimFloat.ltb 0 w); [apply dict_set_keys|]; exact Hacc.
Qed.

Lemma scan_keys_nodup (o : bpy.Object) : List.NoDup (map fst (scan o)).
Proof.
  unfold scan.
  apply (fold_left_invariant
           (fun acc : list (string * list (string * float)) => List.NoDup (map fst acc)));
    [|constructor].
  intros acc v _ Hacc. destruct (vertex_weights (bpy.vertex_groups o) v); [exact Hacc|].
  apply dict_set_keys. exact Hacc.
Qed.

(** X6. In the document of a mesh no key comes twice, neither among the
    vertices nor among the groups of a vertex, also when two groups of the
    mesh share a name; every key of [vertex_groups] is the decimal writing
    of a vertex of the mesh, which [int] reads back as that vertex, and its
    value is a dictionary with at least one pair. *)
Theorem exported_keys (o : bpy.Object) :
  exists entries,
    getitem (weight_data o) "vertex_groups" = Return (JObj entries) /\
    List.NoDup (map fst entries) /\
    forall k x, In (k, x) entries ->
      exists v pairs,
        v < bpy.vertices o /\ k = str v /\ int k = Return (Z.of_nat v) /\
        x = JObj pairs /\ pairs <> [] /\ List.NoDup (map fst pairs).
Proof.
  exists (map dump_entry (scan o)). split; [reflexivity|]. split.
  - rewrite map_map. cbn [dump_entry fst]. apply scan_keys_nodup.
  - intros k x Hk. apply in_map_iff in Hk as ([k0 ps] & [= <- <-] & Hk).
    apply scan_keys in Hk as (v & -> & Hv & -> & Hne).
    exists v, (map dump_pair (vertex_weights (bpy.vertex_groups o) v)).
    repeat split; try assumption.
    + apply int_str.
    + intros E. apply map_eq_nil in E. contradiction.
    + rewrite map_map. cbn [dump_pair fst]. apply vertex_weights_keys.
Qed.

(** Two groups of one name: the later one's weight is the one written. *)
Example exported_keys_shared_name :
  getitem (weight_data (mesh 1 [group "A" [(0, 0.5%float)]; group "A" [(0, 0.25%float)]]))
          "vertex_groups"
  = Return (JObj [("0", JObj [("A", JFloat 0.25)])]).
Proof. vm_compute. reflexivity. Qed.

(** * Further properties of the importer *)

(** X7. [load_weights] changes the object only past the vertex count
    check: whenever the object it leaves differs from the one it was given,
    the object is a mesh, the file parsed, and the recorded [vertex_count]
    agreed with the mesh. *)
Theorem load_weights_mutates_only_past_check obj filepath fs r obj' printed :
  load_weights obj filepath fs = (r, obj', printed) ->
  obj' <> obj ->
  exists o doc recorded,
    obj = Some o /\ bpy.type o = "MESH" /\
    bpy.read_json fs filepath = Return doc /\
    get doc "vertex_count" = Return recorded /\
    int_ne (Z.of_nat (bpy.vertices o)) recorded = false.
Proof.
  unfold load_weights. destruct obj as [o|]; [|intros [= _ <- _] H; contradiction].
  destruct (String.eqb_spec (bpy.type o) "MESH") as [Ht|Ht]; cbn [negb];
    [|intros [= _ <- _] H; contradiction].
  destruct (bpy.path_exists fs filepath); cbn [negb]; [|intros [= _ <- _] H; contradiction].
  unfold load_try, bind at 1, lift at 1.
  assert (Hsame : bpy.with_groups o (bpy.vertex_groups o) = o) by (destruct o; reflexivity).
  destruct (bpy.read_json fs filepath) as [doc|e];
    [|rewrite Hsame; intros [= _ <- _] H; contradiction].
  intros Hrun Hne. exists o, doc.
  destruct (get doc "vertex_count") as [recorded|e] eqn:Hget.
  - exists recorded. repeat split; try assumption.
    destruct (int_ne (Z.of_nat (bpy.vertices o)) recorded) eqn:Hint; [|reflexivity].
    exfalso. apply Hne.
    destruct (load_body doc (bpy.vertices o) (bpy.vertex_groups o)) as [res vgs] eqn:Hbody.
    apply load_body_stops in Hbody as [-> _].
    + rewrite Hsame in Hrun. destruct res as [[? ?]|?]; injection Hrun as _ <- _; reflexivity.
    + intros r' Hr'. rewrite Hget in Hr'. injection Hr' as <-. exact Hint.
  - exfalso. apply Hne.
    destruct (load_body doc (bpy.vertices o) (bpy.vertex_groups o)) as [res vgs] eqn:Hbody.
    apply load_body_stops in Hbody as [-> _].
    + rewrite Hsame in Hrun. destruct res as [[? ?]|?]; injection Hrun as _ <- _; reflexivity.
    + intros r' Hr'. rewrite Hget in Hr'. discriminate.
Qed.

Lemma load_weights_mutates_only_past_check_witness :
  exists o doc recorded,
    Some (mesh 1 [group "Leg" [(0, 1%float)]]) = Some o /\ bpy.type o = "MESH" /\
    bpy.read_json (holding "w.json" two_groups_doc) "w.json" = Return doc /\
    get doc "vertex_count" = Return recorded /\
    int_ne (Z.of_nat (bpy.vertices o)) recorded = false.
Proof.
  apply (load_weights_mutates_only_past_check (Some (mesh 1 [group "Leg" [(0, 1%float)]]))
           "w.json" (holding "w.json" two_groups_doc) None
           (Some (mesh 1 [group "A" [(0, 0.5%float)]; group "B" [(0, 0.25%float)]]))
           [LoadValidation; VerticesAffected 2; GroupsCreated 2]).
  - vm_compute. reflexivity.
  - intros [=].
Defined.

(** X8. A path that exists but cannot get as far as the vertex count
    check, being a directory, a text that does not parse, a value that is
    no dictionary or a dictionary without [vertex_count], makes
    [load_weights] return a load error carrying that cause and leave the
    object as it was.  A missing [vertex_count] is thus reported as the
    lookup that failed, not as a vertex count mismatch. *)
Theorem load_weights_refuses (o : bpy.Object) filepath fs x e :
  bpy.type o = "MESH" ->
  bpy.nodes fs !! filepath = Some x ->
  refusal x = Some e ->
  load_weights (Some o) filepath fs = (Some (ErrorLoading e), Some o, []).
Proof.
  intros Ht Hx Hr. unfold load_weights, bpy.path_exists. rewrite Ht, Hx.
  cbn [String.eqb Ascii.eqb Bool.eqb negb]. rewrite bool_decide_eq_true_2 by eauto. cbn [negb].
  assert (Hsame : bpy.with_groups o (bpy.vertex_groups o) = o) by (destruct o; reflexivity).
  unfold load_try, bind at 1, lift at 1, bpy.read_json. rewrite Hx.
  destruct x as [[doc|]|]; cbn [refusal] in Hr.
  - unfold load_body, bind, lift, vertex_total.
    destruct doc as [| | | | | |d]; cbn [get getitem]; try (injection Hr as <-; rewrite Hsame;
      reflexivity).
    destruct (dict_get "vertex_count" d); [discriminate|]. injection Hr as <-.
    cbn [default from_option id int_ne]. rewrite Hsame. reflexivity.
  - injection Hr as <-. rewrite Hsame. reflexivity.
  - injection Hr as <-. rewrite Hsame. reflexivity.
Qed.

Lemma load_weights_refuses_witness :
  load_weights (Some arm_mesh) "w.json"
    (holding "w.json" (JObj [("group_names", JList []); ("vertex_groups", JObj [])]))
  = (Some (ErrorLoading (KeyError "vertex_count")), Some arm_mesh, []).
Proof.
  apply (load_weights_refuses arm_mesh "w.json"
           (holding "w.json" (JObj [("group_names", JList []); ("vertex_groups", JObj [])]))
           (bpy.File (bpy.Json (JObj [("group_names", JList []); ("vertex_groups", JObj [])]))));
    reflexivity.
Defined.

(** X9. A document that passes the vertex count check but lacks
    [group_names] makes [load_weights] fail on that key after the clearing
    loop: the object is left without any vertex group.  One that lists
    strings in [group_names] but lacks [vertex_groups] fails on that key
    after the creation loop: the object is left with the listed groups and
    no weight at all. *)
Theorem incomplete_document_loses_groups (o : bpy.Object) filepath fs d recorded :
  bpy.type o = "MESH" ->
  bpy.nodes fs !! filepath = Some (bpy.File (bpy.Json (JObj d))) ->
  dict_get "vertex_count" d = Some recorded ->
  int_ne (Z.of_nat (bpy.vertices o)) recorded = false ->
  match dict_get "group_names" d, dict_get "vertex_groups" d with
  | None, _ =>
      load_weights (Some o) filepath fs
      = (Some (ErrorLoading (KeyError "group_names")), Some (bpy.with_groups o []), [])
  | Some group_names, None =>
      forall ss, group_names = JList (map JStr ss) ->
        exists vgs,
          load_weights (Some o) filepath fs
          = (Some (ErrorLoading (KeyError "vertex_groups")), Some (bpy.with_groups o vgs), []) /\
          List.NoDup (names vgs) /\
          (forall s, In s (names vgs) <-> In s ss) /\
          forall g v, weight_of vgs g v = None
  | Some _, Some _ => True
  end.
Proof.
  intros Ht Hf Hrec Hne.
  assert (Hget : get (JObj d) "vertex_count" = Return recorded)
    by (cbn [get]; rewrite Hrec; reflexivity).
  rewrite (load_weights_checked o filepath fs (JObj d) recorded Ht Hf Hget Hne).
  unfold load_body, bind, lift, vertex_total. rewrite Hget, Hne, clear_groups_spec.
  cbn [getitem].
  destruct (dict_get "group_names" d) as [group_names|]; [|reflexivity].
  destruct (dict_get "vertex_groups" d) as [vertex_groups|]; [exact I|].
  intros ss ->. cbn [iter]. rewrite create_groups_strings.
  destruct (created_names ss [] (List.NoDup_nil _)) as [Hnd Hin].
  exists (created ss []). repeat split; try assumption.
  - intros Hs. apply Hin in Hs as [[]|Hs]. exact Hs.
  - intros Hs. apply Hin. right. exact Hs.
  - intros g v. apply weight_of_weightless, created_weightless. constructor.
Qed.

Lemma incomplete_document_loses_groups_witness :
  load_weights (Some arm_mesh) "w.json" (holding "w.json" (JObj [("vertex_count", JInt 3)]))
  = (Some (ErrorLoading (KeyError "group_names")), Some (bpy.with_groups arm_mesh []), []).
Proof.
  apply (incomplete_document_loses_groups arm_mesh "w.json"
           (holding "w.json" (JObj [("vertex_count", JInt 3)]))
           [("vertex_count", JInt 3)] (JInt 3)); reflexivity.
Defined.

(** ** The groups created and the number printed *)

Lemma created_length ss : forall vgs, length (created ss vgs) <= length vgs + length ss.
Proof.
  unfold created. induction ss as [|s ss IH]; intros vgs; cbn [fold_left length]; [lia|].
  destruct (bpy.find s vgs).
  - specialize (IH vgs). lia.
  - specialize (IH (vgs ++ [fresh s])). rewrite length_app in IH. cbn [length] in IH. lia.
Qed.

(** Names all different and not yet in use each get their group, in order. *)
Lemma created_fresh ss : forall vgs,
  List.NoDup ss -> (forall s, In s ss -> ~ In s (names vgs)) ->
  created ss vgs = vgs ++ map fresh ss.
Proof.
  unfold created. induction ss as [|s ss IH]; intros vgs Hnd Hnew; cbn [fold_left map].
  - rewrite app_nil_r. reflexivity.
  - apply List.NoDup_cons_iff in Hnd as [Hs Hnd].
    rewrite (proj2 (find_none s vgs)) by (apply Hnew; left; reflexivity).
    rewrite IH; [rewrite <- app_assoc; reflexivity|exact Hnd|].
    intros s' Hs'. rewrite names_app, in_app_iff. cbn [names map fresh bpy.vg_name In].
    intros [H|[<-|[]]]; [|contradiction]. apply (Hnew s'); [right; exact Hs'|exact H].
Qed.

Lemma names_length vgs vgs' : names vgs = names vgs' -> length vgs = length vgs'.
Proof. unfold names. intros H. rewrite <- (length_map bpy.vg_name vgs), H. apply length_map. Qed.

(** X10. After a successful import the number printed as groups created
    is the length of [group_names], a name listed twice counting twice;
    the object has at most that many groups, and exactly that many when no
    name is listed twice. *)
Theorem groups_created_counts_names (o : bpy.Object) filepath fs o' printed :
  load_weights (Some o) filepath fs = (None, Some o', printed) ->
  exists doc group_names l count,
    bpy.read_json fs filepath = Return doc /\
    getitem doc "group_names" = Return group_names /\
    iter group_names = Return l /\
    printed = [LoadValidation; VerticesAffected count; GroupsCreated (length l)] /\
    length (bpy.vertex_groups o') <= length l /\
    (List.NoDup l -> length (bpy.vertex_groups o') = length l).
Proof.
  intros H. destruct (load_weights_succeeded _ _ _ _ _ H) as (doc & recorded & Ht & Hf & Hget & Hne).
  rewrite (load_weights_checked o filepath fs doc recorded Ht Hf Hget Hne) in H. revert H.
  unfold load_body, bind, lift, vertex_total, len. rewrite Hget, Hne, clear_groups_spec.
  destruct (getitem doc "group_names") as [group_names|e] eqn:Hnames; [|discriminate].
  destruct (iter group_names) as [l|e] eqn:Hiter; [|discriminate].
  destruct (create_groups l (bpy.vertices o) []) as [[[]|e] vgs1] eqn:Hcreate; [|discriminate].
  destruct (getitem doc "vertex_groups") as [vertex_groups|e]; [|discriminate].
  destruct (items vertex_groups) as [entries|e]; [|discriminate].
  destruct (apply_weights entries (bpy.vertices o) vgs1) as [[count|e] vgs2] eqn:Happly;
    [|discriminate].
  unfold ret. intros [= <- <-].
  destruct (create_groups_completes _ _ _ _ Hcreate) as (ss & ->).
  rewrite create_groups_strings in Hcreate. injection Hcreate as <-.
  apply apply_weights_names, names_length in Happly.
  exists doc, group_names, (map JStr ss), count. unfold bpy.read_json. rewrite Hf.
  cbn [bpy.with_groups bpy.vertex_groups]. rewrite Happly, length_map.
  repeat split; try assumption.
  - pose proof (created_length ss []) as Hlen. cbn [length] in Hlen. lia.
  - intros Hnd. apply NoDup_map_inv in Hnd.
    rewrite created_fresh; [apply length_map|exact Hnd|]. intros s _ [].
Qed.

Lemma groups_created_counts_names_witness :
  exists doc group_names l count,
    bpy.read_json
      (holding "w.json" (JObj [ ("vertex_count", JInt 1);
                                ("group_names", JList [JStr "A"; JStr "A"]);
                                ("vertex_groups", JObj []) ])) "w.json" = Return doc /\
    getitem doc "group_names" = Return group_names /\
    iter group_names = Return l /\
    [LoadValidation; VerticesAffected 0; GroupsCreated 2]
    = [LoadValidation; VerticesAffected count; GroupsCreated (length l)] /\
    length (bpy.vertex_groups (mesh 1 [group "A" []])) <= length l /\
    (List.NoDup l -> length (bpy.vertex_groups (mesh 1 [group "A" []])) = length l).
Proof.
  apply (groups_created_counts_names (mesh 1 []) "w.json"
           (holding "w.json" (JObj [ ("vertex_count", JInt 1);
                                     ("group_names", JList [JStr "A"; JStr "A"]);
                                     ("vertex_groups", JObj []) ]))).
  vm_compute. reflexivity.
Defined.

(** ** Only weights above 0.0 come in *)







(** ** Importing what was exported, and exporting again *)

(** The import of an exported document, as the later properties use it:
    it succeeds, leaves the groups of the source in their order, and at
    every vertex the weights the exporter kept. *)
Lemma load_saved (src dst : bpy.Object) filepath fs :
  bpy.read_json fs filepath = Return (weight_data src) ->
  bpy.type dst = "MESH" ->
  bpy.vertices dst = bpy.vertices src ->
  List.NoDup (names (bpy.vertex_groups src)) ->
  exists vgs' count,
    load_weights (Some dst) filepath fs
    = (None, Some (bpy.with_groups dst vgs'),
       [LoadValidation; VerticesAffected count;
        GroupsCreated (length (bpy.vertex_groups src))]) /\
    names vgs' = names (bpy.vertex_groups src) /\
    forall g v, v < bpy.vertices src ->
      weight_of vgs' g v = kept (weight_of (bpy.vertex_groups src) g v).
Proof.
  intros Hread Htype Hcount Hnd.
  set (gs := bpy.vertex_groups src) in *. set (n := bpy.vertices src) in *.
  assert (Hcreated : created (names gs) [] = map fresh (names gs)).
  { rewrite created_fresh; [reflexivity|exact Hnd|]. intros s _ []. }
  assert (Hnames : names (created (names gs) []) = names gs).
  { rewrite Hcreated. unfold names. rewrite (map_map fresh bpy.vg_name).
    cbn [fresh bpy.vg_name]. apply map_id. }
  destruct (apply_saved_entries n gs Hnd (seq 0 n) (seq_NoDup _ _)
              (fun v Hv => proj2 (proj1 (in_seq _ _ _) Hv)) 0 (created (names gs) []))
    as (count & vgs' & Hrun & Hkeep & Hat & _).
  { intros g Hg. rewrite Hnames. exact Hg. }
  exists vgs', count. split; [|split].
  - rewrite (load_weights_checked dst filepath fs (weight_data src) (JInt (Z.of_nat n)) Htype
               (read_json_file _ _ _ Hread) eq_refl)
      by (rewrite Hcount; cbn [int_ne]; rewrite Z.eqb_refl; reflexivity).
    rewrite Hcount. fold n.
    rewrite (load_body_steps (weight_data src) n [] (JInt (Z.of_nat n))
               (JList (map JStr (names gs))) (map JStr (names gs)) (created (names gs) [])
               (JObj (map dump_entry (scan src))) (map dump_entry (scan src))
               (Return count) vgs'); try reflexivity.
    + unfold names. rewrite !length_map. reflexivity.
    + cbn [int_ne]. rewrite Z.eqb_refl. reflexivity.
    + unfold weight_data. cbn [getitem dict_get String.eqb Ascii.eqb Bool.eqb].
      unfold names. rewrite map_map. reflexivity.
    + apply create_groups_strings.
    + unfold apply_weights. rewrite (scan_entries src Hnd). exact Hrun.
  - rewrite Hkeep. exact Hnames.
  - intros g v Hv. rewrite Hat by (apply in_seq; lia).
    destruct (kept (weight_of gs g v)); [reflexivity|].
    apply weight_of_weightless, created_weightless. constructor.
Qed.

Lemma kept_kept w : kept (kept w) = kept w.
Proof. destruct w as [x|]; [|reflexivity]. cbn [kept]. destruct (PrimFloat.ltb 0 x) eqn:E; [|reflexivity]. cbn [kept]. rewrite E. reflexivity. Qed.

Lemma weight_of_member gs g v :
  List.NoDup (names gs) -> In g gs -> weight_of gs (bpy.vg_name g) v = bpy.vg_weights g !! v.
Proof.
  induction gs as [|x gs IH]; intros Hnd Hg; [destruct Hg|]. destruct Hg as [->|Hg].
  - rewrite weight_of_cons, String.eqb_refl. reflexivity.
  - cbn [names map] in Hnd. apply List.NoDup_cons_iff in Hnd as [Hx Hnd].
    rewrite weight_of_cons.
    destruct (String.eqb_spec (bpy.vg_name x) (bpy.vg_name g)) as [E|_]; [|exact (IH Hnd Hg)].
    exfalso. apply Hx. rewrite E. apply in_map. exact Hg.
Qed.

(** With names all different, the pairs kept for a vertex are read off the
    names and the weights looked up by name. *)
Lemma pairs_of_names gs v :
  List.NoDup (names gs) ->
  pairs_of gs v = omap (fun s => option_map (pair s) (kept (weight_of gs s v))) (names gs).
Proof.
  intros Hnd. unfold pairs_of.
  assert (Hgen : forall l, (forall g, In g l -> In g gs) ->
    omap (fun g => option_map (pair (bpy.vg_name g)) (kept (bpy.vg_weights g !! v))) l
    = omap (fun s => option_map (pair s) (kept (weight_of gs s v))) (names l)).
  { induction l as [|g l IH]; intros Hl; [reflexivity|].
    cbn [names map]. rewrite !omap_cons.
    rewrite (weight_of_member gs g v Hnd) by (apply Hl; left; reflexivity).
    fold (names l). rewrite IH by (intros g' Hg'; apply Hl; right; exact Hg'). reflexivity. }
  apply Hgen. auto.
Qed.

Lemma omap_agree {A B} (f g : A -> option B) l :
  (forall x, In x l -> f x = g x) -> omap f l = omap g l.
Proof.
  induction l as [|x l IH]; intros H; [reflexivity|].
  rewrite !omap_cons, (H x) by (left; reflexivity).
  rewrite IH by (intros y Hy; apply H; right; exact Hy). reflexivity.
Qed.

(** Two meshes with the same vertex count, the same group names in the
    same order and, at every vertex, the same kept weights have the same
    stored map. *)
Lemma scan_agree (o o' : bpy.Object) :
  bpy.vertices o' = bpy.vertices o ->
  names (bpy.vertex_groups o') = names (bpy.vertex_groups o) ->
  List.NoDup (names (bpy.vertex_groups o)) ->
  (forall g v, v < bpy.vertices o ->
     kept (weight_of (bpy.vertex_groups o') g v) = kept (weight_of (bpy.vertex_groups o) g v)) ->
  scan o' = scan o.
Proof.
  intros Hn Hnames Hnd Hw.
  rewrite (scan_entries o Hnd), (scan_entries o') by (rewrite Hnames; exact Hnd).
  rewrite Hn. apply omap_agree. intros v Hv. apply in_seq in Hv.
  unfold entry_of. rewrite (pairs_of_names _ v Hnd), pairs_of_names by (rewrite Hnames; exact Hnd).
  rewrite Hnames.
  rewrite (omap_agree _ (fun s => option_map (pair s) (kept (weight_of (bpy.vertex_groups o) s v))));
    [reflexivity|].
  intros s _. rewrite Hw by lia. reflexivity.
Qed.

(** X12. Export a mesh whose groups have names all different, import the
    document into a mesh with the same number of vertices, and export that
    mesh: the second document has the [vertex_count], the [group_names]
    and the [vertex_groups] of the first, and the name of the second mesh
    as [object_name]; its validation summary has the same count and the
    same range, and lists the same groups, whose order a set leaves
    open. *)
Theorem reexport_after_import (src dst : bpy.Object) filepath fs fs' printed :
  save_weights (Some src) filepath fs = (None, fs', printed) ->
  bpy.type dst = "MESH" ->
  bpy.vertices dst = bpy.vertices src ->
  List.NoDup (names (bpy.vertex_groups src)) ->
  exists dst' printed',
    load_weights (Some dst) filepath fs' = (None, Some dst', printed') /\
    getitem (weight_data dst') "object_name" = Return (JStr (bpy.name dst)) /\
    (forall k, In k ["vertex_count"; "group_names"; "vertex_groups"] ->
       getitem (weight_data dst') k = getitem (weight_data src) k) /\
    total_vertices_with_weights (validate (scan dst'))
    = total_vertices_with_weights (validate (scan src)) /\
    min_weight (validate (scan dst')) = min_weight (validate (scan src)) /\
    max_weight (validate (scan dst')) = max_weight (validate (scan src)) /\
    Permutation (groups_with_weights (validate (scan dst')))
                (groups_with_weights (validate (scan src))).
Proof.
  intros Hsave Htype Hcount Hnd.
  destruct (save_weights_writes _ _ _ _ _ Hsave) as (o & [= <-] & Hread).
  destruct (load_saved src dst filepath fs' Hread Htype Hcount Hnd)
    as (vgs' & count & Hload & Hnames & Hw).
  exists (bpy.with_groups dst vgs'). eexists. split; [exact Hload|]. split; [reflexivity|].
  assert (Hscan : scan (bpy.with_groups dst vgs') = scan src).
  { apply scan_agree; cbn [bpy.with_groups bpy.vertices bpy.vertex_groups]; try assumption.
    intros g v Hv. rewrite (Hw g v Hv). apply kept_kept. }
  rewrite Hscan. split; [|repeat split; reflexivity].
  intros k Hk. unfold weight_data. rewrite Hscan.
  cbn [bpy.with_groups bpy.vertices bpy.vertex_groups bpy.name]. rewrite Hcount.
  replace (map (fun g => JStr (bpy.vg_name g)) vgs')
    with (map (fun g => JStr (bpy.vg_name g)) (bpy.vertex_groups src)).
  2: { rewrite <- !(map_map bpy.vg_name JStr). fold (names vgs').
       fold (names (bpy.vertex_groups src)). rewrite Hnames. reflexivity. }
  cbn [In] in Hk. destruct Hk as [<-|[<-|[<-|[]]]]; reflexivity.
Qed.

Lemma reexport_after_import_witness :
  exists dst' printed',
    load_weights (Some (mesh 3 [group "Leg" [(2, 1%float)]])) "w.json"
      (holding "w.json" (weight_data arm_mesh)) = (None, Some dst', printed') /\
    getitem (weight_data dst') "object_name"
    = Return (JStr (bpy.name (mesh 3 [group "Leg" [(2, 1%float)]]))) /\
    (forall k, In k ["vertex_count"; "group_names"; "vertex_groups"] ->
       getitem (weight_data dst') k = getitem (weight_data arm_mesh) k) /\
    total_vertices_with_weights (validate (scan dst'))
    = total_vertices_with_weights (validate (scan arm_mesh)) /\
    min_weight (validate (scan dst')) = min_weight (validate (scan arm_mesh)) /\
    max_weight (validate (scan dst')) = max_weight (validate (scan arm_mesh)) /\
    Permutation (groups_with_weights (validate (scan dst')))
                (groups_with_weights (validate (scan arm_mesh))).
Proof.
  apply (reexport_after_import arm_mesh (mesh 3 [group "Leg" [(2, 1%float)]]) "w.json" no_files
           (holding "w.json" (weight_data arm_mesh))
           [ WeightValidationData; VerticesWithWeights 1; GroupsWithWeights ["Arm"];
             WeightRange 0.5 0.5 ]).
  - vm_compute. reflexivity.
  - reflexivity.
  - reflexivity.
  - repeat constructor. intros [].
Defined.

(** * The operators *)

Lemma put_active_frame obj s :
  settings (put_active obj s) = settings s /\
  disk (put_active obj s) = disk s /\
  shown (put_active obj s) = shown s /\
  console (put_active obj s) = console s /\
  active (put_active obj s) = active s /\
  length (objects (put_active obj s)) = length (objects s) /\
  map library (objects (put_active obj s)) = map library (objects s) /\
  forall j, active s <> Some j -> objects (put_active obj s) !! j = objects s !! j.
Proof.
  unfold put_active. destruct (active s) as [i|] eqn:Hi; [|rewrite Hi; repeat split].
  destruct obj as [o|]; [|rewrite Hi; repeat split].
  cbn [set_objects settings disk shown console active objects]. rewrite Hi. repeat split.
  - apply length_alter.
  - generalize (objects s) i. induction l as [|x l IH]; intros [|k]; cbn; try reflexivity.
    f_equal. apply IH.
  - intros j Hj. apply list_lookup_alter_ne. congruence.
Qed.

(** X13. The Load operator: if the importer succeeds, the settings hold
    the chosen path and are active and the success is reported; if it
    fails, its error is reported and the settings are those of before.
    Either way the files are untouched, no object is added or dropped, no
    object changes library, and every object but the active one is as it
    was. *)
Theorem load_operator_effect filepath s :
  let after := WEIGHTSYNC_OT_load_execute filepath s in
  match fst (fst (load_weights (active_ob s) filepath (disk s))) with
  | None =>
      settings after = {| weight_file := filepath; is_active := true |} /\
      shown after = shown s ++ [(INFO, WeightsLoaded filepath)]
  | Some error =>
      settings after = settings s /\
      shown after = shown s ++ [(ERROR, Said error)]
  end /\
  disk after = disk s /\
  length (objects after) = length (objects s) /\
  map library (objects after) = map library (objects s) /\
  forall j, active s <> Some j -> objects after !! j = objects s !! j.
Proof.
  cbn zeta. unfold WEIGHTSYNC_OT_load_execute.
  destruct (load_weights (active_ob s) filepath (disk s)) as [[[error|] obj] printed];
    cbn [fst]; destruct (put_active_frame obj s) as (Hs & Hd & Hsh & _ & _ & Hl & Hlib & Hj);
    cbn [report printing set_settings settings disk shown objects]; rewrite ?Hs, ?Hsh;
    repeat split; assumption.
Qed.

(** X14. The Resync operator never changes the settings nor the files.
    With syncing inactive or no path stored it reports "No active weight
    file" and does nothing else: no import is attempted and every object
    is as it was. *)
Theorem resync_operator_effect s :
  let after := WEIGHTSYNC_OT_resync_execute s in
  settings after = settings s /\
  disk after = disk s /\
  map library (objects after) = map library (objects s) /\
  (forall j, active s <> Some j -> objects after !! j = objects s !! j) /\
  match is_active (settings s), weight_file (settings s) with
  | true, String _ _ => True
  | _, _ =>
      objects after = objects s /\ console after = console s /\
      shown after = shown s ++ [(ERROR, NoActiveWeightFile)]
  end.
Proof.
  cbn zeta. unfold WEIGHTSYNC_OT_resync_execute.
  destruct (is_active (settings s)); cbn [negb orb].
  - destruct (weight_file (settings s)) as [|a p] eqn:Hp; cbn [String.eqb].
    + repeat split.
    + destruct (load_weights (active_ob s) (String a p) (disk s)) as [[[error|] obj] printed];
        destruct (put_active_frame obj s) as (Hs & Hd & _ & _ & _ & _ & Hlib & Hj);
        cbn [report printing settings disk objects]; repeat split; assumption.
  - destruct (weight_file (settings s)); repeat split.
Qed.

Lemma resync_object_inactive s so :
  is_active (settings s) = false \/ weight_file (settings s) = "" ->
  resync_object s so = (so, []).
Proof.
  intros H. unfold resync_object.
  destruct (_ && bool_decide _)%bool; [|reflexivity].
  destruct H as [-> | ->]; [reflexivity|]. rewrite andb_false_r. reflexivity.
Qed.

Lemma do_resync_inactive s :
  is_active (settings s) = false \/ weight_file (settings s) = "" ->
  objects (snd (do_resync s)) = objects s /\ console (snd (do_resync s)) = console s.
Proof.
  intros H. unfold do_resync. destruct (scene_ready s); cbn [negb snd]; [|split; reflexivity].
  cbn [printing set_objects objects console].
  assert (Hm : map (resync_object s) (objects s) = map (fun so => (so, [])) (objects s)).
  { apply map_ext. intros so. apply resync_object_inactive, H. }
  rewrite Hm, !map_map. cbn [fst snd]. split; [apply map_id|].
  assert (Hc : forall l : list SceneObject, concat (map (fun _ => @nil line) l) = []).
  { induction l as [|x l IH]; [reflexivity|]. exact IH. }
  rewrite Hc. apply app_nil_r.
Qed.

(** X15. After the Clear operator the settings are empty and inactive;
    a Resync that follows reports "No active weight file", and neither it
    nor the auto-resync touches any object or prints anything. *)
Theorem clear_stops_syncing s :
  let cleared := WEIGHTSYNC_OT_clear_execute s in
  settings cleared = {| weight_file := ""; is_active := false |} /\
  objects cleared = objects s /\ disk cleared = disk s /\
  shown cleared = shown s ++ [(INFO, WeightFileCleared)] /\
  WEIGHTSYNC_OT_resync_execute cleared = report ERROR NoActiveWeightFile cleared /\
  objects (snd (do_resync cleared)) = objects s /\
  console (snd (do_resync cleared)) = console s.
Proof.
  cbn zeta. do 5 (split; [reflexivity|]).
  apply (do_resync_inactive (WEIGHTSYNC_OT_clear_execute s)). left. reflexivity.
Qed.

(** X16. Save, then Resync, on an active mesh whose groups have names all
    different and a path that can be written: both succeed, the settings
    hold the path, and the mesh ends with the groups it had, in their
    order, each vertex carrying exactly the weights it had above 0.0; no
    other object changes. *)
Theorem save_then_resync s i so filepath :
  active s = Some i ->
  objects s !! i = Some so ->
  bpy.type (ob so) = "MESH" ->
  List.NoDup (names (bpy.vertex_groups (ob so))) ->
  bpy.writable (disk s) filepath = true ->
  filepath <> "" ->
  let after := WEIGHTSYNC_OT_resync_execute (WEIGHTSYNC_OT_save_execute_in filepath s) in
  exists vgs',
    objects after = <[i := {| ob := bpy.with_groups (ob so) vgs'; library := library so |}]> (objects s) /\
    names vgs' = names (bpy.vertex_groups (ob so)) /\
    (forall g v, v < bpy.vertices (ob so) ->
       weight_of vgs' g v = kept (weight_of (bpy.vertex_groups (ob so)) g v)) /\
    settings after = {| weight_file := filepath; is_active := true |} /\
    shown after = shown s ++ [(INFO, Said (WeightsSaved filepath)); (INFO, WeightsResynced filepath)].
Proof.
  intros Hi Hso Ht Hnd Hw Hp. cbn zeta.
  assert (Hob : active_ob s = Some (ob so)).
  { unfold active_ob. rewrite Hi, Hso. reflexivity. }
  destruct (save_weights (Some (ob so)) filepath (disk s)) as [[r fs'] printed] eqn:Hsave.
  assert (Hr : r = None).
  { pose proof (proj2 (save_weights_succeeds (Some (ob so)) filepath (disk s))) as H.
    rewrite Hsave in H. apply H. eauto. }
  subst r. destruct (save_weights_writes _ _ _ _ _ Hsave) as (o & [= <-] & Hread).
  destruct (load_saved (ob so) (ob so) filepath fs' Hread Ht eq_refl Hnd)
    as (vgs' & count & Hload & Hnames & Hweights).
  exists vgs'.
  assert (Hs1 : WEIGHTSYNC_OT_save_execute_in filepath s
                = {| settings := {| weight_file := filepath; is_active := true |};
                     objects := objects s; active := active s; disk := fs';
                     shown := shown s ++ [(INFO, Said (WeightsSaved filepath))];
                     console := console s ++ printed; scene_ready := scene_ready s;
                     data_filepath := data_filepath s; timers := timers s |}).
  { unfold WEIGHTSYNC_OT_save_execute_in, WEIGHTSYNC_OT_save_execute.
    cbn [active_object files weight_sync_settings reports stdout]. rewrite Hob, Hsave.
    reflexivity. }
  rewrite Hs1. unfold WEIGHTSYNC_OT_resync_execute, active_ob, put_active.
  cbn [settings is_active weight_file negb orb active objects disk].
  destruct (String.eqb_spec filepath "") as [|_]; [contradiction|].
  rewrite Hi, Hso. cbn [option_map]. rewrite Hload.
  cbn [report printing set_objects objects settings shown].
  split; [|split; [exact Hnames|split; [exact Hweights|split; [reflexivity|]]]].
  - apply list_eq. intros j. destruct (decide (j = i)) as [->|Hne].
    + rewrite list_lookup_alter_eq, Hso. cbn.
      rewrite list_lookup_insert_eq; [reflexivity|]. apply lookup_lt_Some in Hso. exact Hso.
    + rewrite list_lookup_alter_ne, list_lookup_insert_ne by congruence. reflexivity.
  - rewrite <- app_assoc. reflexivity.
Qed.

Lemma save_then_resync_witness :
  exists vgs',
    objects (WEIGHTSYNC_OT_resync_execute
               (WEIGHTSYNC_OT_save_execute_in "w.json" (session_of arm_mesh None closed_files)))
    = <[0 := {| ob := bpy.with_groups arm_mesh vgs'; library := None |}]>
        (objects (session_of arm_mesh None closed_files)) /\
    names vgs' = names (bpy.vertex_groups arm_mesh) /\
    (forall g v, v < bpy.vertices arm_mesh ->
       weight_of vgs' g v = kept (weight_of (bpy.vertex_groups arm_mesh) g v)) /\
    settings (WEIGHTSYNC_OT_resync_execute
                (WEIGHTSYNC_OT_save_execute_in "w.json" (session_of arm_mesh None closed_files)))
    = {| weight_file := "w.json"; is_active := true |} /\
    shown (WEIGHTSYNC_OT_resync_execute
             (WEIGHTSYNC_OT_save_execute_in "w.json" (session_of arm_mesh None closed_files)))
    = [] ++ [(INFO, Said (WeightsSaved "w.json")); (INFO, WeightsResynced "w.json")].
Proof.
  apply (save_then_resync (session_of arm_mesh None closed_files) 0
           {| ob := arm_mesh; library := None |} "w.json").
  - reflexivity.
  - reflexivity.
  - reflexivity.
  - vm_compute. repeat constructor; intros H; repeat (destruct H as [H|H]; try discriminate H);
      exact H.
  - vm_compute. reflexivity.
  - discriminate.
Defined.

(** * Sessions *)

Lemma load_weights_found obj filepath fs obj' printed :
  load_weights obj filepath fs = (None, obj', printed) ->
  bpy.path_exists fs filepath = true.
Proof.
  unfold load_weights. destruct obj as [o|]; [|discriminate].
  destruct (negb (String.eqb (bpy.type o) "MESH")); [discriminate|].
  destruct (bpy.path_exists fs filepath); [reflexivity|discriminate].
Qed.

Lemma do_resync_frame s :
  settings (snd (do_resync s)) = settings s /\
  disk (snd (do_resync s)) = disk s /\
  shown (snd (do_resync s)) = shown s /\
  active (snd (do_resync s)) = active s /\
  timers (snd (do_resync s)) = timers s.
Proof. unfold do_resync. destruct (scene_ready s); repeat split. Qed.

Lemma fire_frame s :
  settings (fire s) = settings s /\ disk (fire s) = disk s /\ shown (fire s) = shown s.
Proof.
  unfold fire. destruct (timers s) as [|[] rest]; [repeat split|].
  destruct (do_resync_frame s) as (Hs & Hd & Hsh & _). destruct (do_resync s) as [[delay|] s'];
    cbn [snd] in *; repeat split; assumption.
Qed.

Lemma empty_path_refused fs :
  empty_path_closed fs -> bpy.writable fs "" = false /\ bpy.path_exists fs "" = false.
Proof.
  intros [Hn Hd]. unfold bpy.writable, bpy.path_exists. rewrite Hn. split.
  - rewrite bool_decide_eq_true_2 by exact Hd. reflexivity.
  - apply bool_decide_eq_false_2. intros [x Hx]. discriminate Hx.
Qed.

Lemma resync_frame s :
  settings (WEIGHTSYNC_OT_resync_execute s) = settings s /\
  disk (WEIGHTSYNC_OT_resync_execute s) = disk s.
Proof.
  unfold WEIGHTSYNC_OT_resync_execute. destruct (_ || _)%bool; [split; reflexivity|].
  destruct (load_weights _ _ _) as [[[error|] obj] printed];
    destruct (put_active_frame obj s) as (Hs & Hd & _); split; assumption.
Qed.

Lemma perform_keeps a s :
  coherent (settings s) -> empty_path_closed (disk s) ->
  coherent (settings (perform a s)) /\ empty_path_closed (disk (perform a s)).
Proof.
  intros Hc Hfs. destruct (empty_path_refused _ Hfs) as [Hw He].
  destruct a as [filepath|filepath| | | |]; cbn [perform].
  - unfold WEIGHTSYNC_OT_save_execute_in, WEIGHTSYNC_OT_save_execute.
    cbn [active_object files weight_sync_settings reports stdout].
    destruct (save_weights (active_ob s) filepath (disk s)) as [[[error|] fs'] printed] eqn:Hsave;
      cbn [settings disk weight_sync_settings files].
    + rewrite (save_weights_failed _ _ _ _ _ _ Hsave). split; assumption.
    + destruct (save_weights_written _ _ _ _ _ Hsave) as (Hwp & o & _ & ->).
      assert (Hp : filepath <> "") by (intros ->; congruence).
      split.
      * unfold coherent. cbn [is_active weight_file].
        destruct (String.eqb_spec filepath ""); [contradiction|reflexivity].
      * destruct Hfs as [Hn Hd]. split; [|exact Hd]. cbn [bpy.nodes].
        rewrite lookup_insert_ne by congruence. exact Hn.
  - unfold WEIGHTSYNC_OT_load_execute.
    destruct (load_weights (active_ob s) filepath (disk s)) as [[[error|] obj] printed] eqn:Hload;
      destruct (put_active_frame obj s) as (Hs & Hd & _);
      cbn [report printing set_settings settings disk]; rewrite ?Hs, ?Hd.
    + split; assumption.
    + split; [|assumption]. apply load_weights_found in Hload.
      assert (Hp : filepath <> "") by (intros ->; congruence).
      unfold coherent. cbn [is_active weight_file].
      destruct (String.eqb_spec filepath ""); [contradiction|reflexivity].
  - destruct (resync_frame s) as (Hs & Hd). rewrite Hs, Hd. split; assumption.
  - split; [reflexivity|exact Hfs].
  - unfold load_post_handler. destruct (String.eqb (data_filepath s) ""); split; assumption.
  - destruct (fire_frame s) as (Hs & Hd & _). rewrite Hs, Hd. split; assumption.
Qed.

(** X17. Whatever the user and the editor do, in whatever order, with
    whatever paths: if syncing is active exactly when a path is stored, as
    in a scene that has its default settings, it is so afterwards.  The
    file selector then opens at the stored path when syncing is active and
    at "weights.json" when it is not, and a Resync run while syncing is
    active never answers "No active weight file".  The file system is one
    in which the empty path cannot be opened. *)
Theorem settings_stay_coherent actions s :
  coherent (settings s) ->
  empty_path_closed (disk s) ->
  let s' := perform_all actions s in
  coherent (settings s') /\
  invoke s' = (if is_active (settings s') then weight_file (settings s') else "weights.json") /\
  (is_active (settings s') = true ->
   shown (WEIGHTSYNC_OT_resync_execute s') <> shown s' ++ [(ERROR, NoActiveWeightFile)]).
Proof.
  intros Hc Hfs. cbn zeta.
  assert (H : coherent (settings (perform_all actions s)) /\
              empty_path_closed (disk (perform_all actions s))).
  { unfold perform_all. revert s Hc Hfs. induction actions as [|a l IH]; intros s Hc Hfs.
    - split; assumption.
    - cbn [fold_left]. destruct (perform_keeps a s Hc Hfs) as [Hc' Hfs']. apply IH; assumption. }
  destruct H as [Hc' _]. set (s' := perform_all actions s) in *.
  split; [exact Hc'|]. unfold coherent in Hc'. unfold invoke, WEIGHTSYNC_OT_resync_execute.
  rewrite Hc'. destruct (String.eqb (weight_file (settings s')) ""); cbn [negb orb].
  - split; [reflexivity|discriminate].
  - split; [reflexivity|]. intros _.
    destruct (load_weights _ _ _) as [[[error|] obj] printed];
      destruct (put_active_frame obj s') as (_ & _ & Hsh & _);
      cbn [report printing shown]; rewrite Hsh; intros H; apply app_inv_head in H;
      discriminate H.
Qed.

Lemma settings_stay_coherent_witness :
  let s' := perform_all [Save "w.json"; FileOpened; TimerDue; Load ""; Resync]
              (session_of arm_mesh None closed_files) in
  coherent (settings s') /\
  invoke s' = (if is_active (settings s') then weight_file (settings s') else "weights.json") /\
  (is_active (settings s') = true ->
   shown (WEIGHTSYNC_OT_resync_execute s') <> shown s' ++ [(ERROR, NoActiveWeightFile)]).
Proof.
  apply (settings_stay_coherent [Save "w.json"; FileOpened; TimerDue; Load ""; Resync]
           (session_of arm_mesh None closed_files)).
  - reflexivity.
  - split; [reflexivity|]. change ("" ∈ ({[ "" ]} : gset string)).
    apply elem_of_singleton_2. reflexivity.
Defined.

(** * The auto-resync *)

(** X18. [do_resync], called with the scene there: it asks for no further
    call, reports nothing, and leaves settings and files alone; the objects
    stay as many, each in its library, and an object that is no mesh, or
    that comes from no library, is as it was.  When syncing is inactive or
    no path is stored, every object is as it was. *)
Theorem do_resync_touches_linked_meshes s :
  scene_ready s = true ->
  let after := snd (do_resync s) in
  fst (do_resync s) = None /\
  settings after = settings s /\ disk after = disk s /\ shown after = shown s /\
  map library (objects after) = map library (objects s) /\
  (forall j so, objects s !! j = Some so ->
     bpy.type (ob so) <> "MESH" \/ library so = None ->
     objects after !! j = Some so) /\
  (is_active (settings s) = false \/ weight_file (settings s) = "" ->
   objects after = objects s).
Proof.
  intros Hready. cbn zeta. destruct (do_resync_frame s) as (Hs & Hd & Hsh & _).
  split; [unfold do_resync; rewrite Hready; reflexivity|].
  do 3 (split; [assumption|]). split; [|split].
  - unfold do_resync. rewrite Hready. cbn [negb snd printing set_objects objects].
    rewrite !map_map. apply map_ext. intros so. unfold resync_object.
    destruct (_ && _)%bool; [|reflexivity]. destruct (_ && _)%bool; [|reflexivity].
    destruct (load_weights _ _ _) as [[r [o|]] printed]; reflexivity.
  - intros j so Hj Hskip. unfold do_resync. rewrite Hready.
    cbn [negb snd printing set_objects objects].
    rewrite !list_lookup_fmap, Hj. cbn. f_equal. unfold resync_object.
    destruct Hskip as [Ht| ->].
    + destruct (String.eqb_spec (bpy.type (ob so)) "MESH"); [contradiction|reflexivity].
    + rewrite bool_decide_eq_false_2 by (intros [x Hx]; discriminate Hx).
      rewrite andb_false_r. reflexivity.
  - intros Hoff. apply (do_resync_inactive s Hoff).
Qed.

Lemma do_resync_touches_linked_meshes_witness :
  let s := session_of arm_mesh None (holding "w.json" two_groups_doc) in
  let after := snd (do_resync s) in
  fst (do_resync s) = None /\
  settings after = settings s /\ disk after = disk s /\ shown after = shown s /\
  map library (objects after) = map library (objects s) /\
  (forall j so, objects s !! j = Some so ->
     bpy.type (ob so) <> "MESH" \/ library so = None ->
     objects after !! j = Some so) /\
  (is_active (settings s) = false \/ weight_file (settings s) = "" ->
   objects after = objects s).
Proof.
  apply (do_resync_touches_linked_meshes
           (session_of arm_mesh None (holding "w.json" two_groups_doc))).
  reflexivity.
Defined.



Lemma fire_idle s : timers s = [] -> forall k, Nat.iter k fire s = s.
Proof.
  intros H k. induction k as [|k IH]; [reflexivity|]. rewrite Nat.iter_succ, IH.
  unfold fire. rewrite H. reflexivity.
Qed.

(** X20. After the editor has opened a file, with no timer pending: for a
    file that was never saved nothing is registered, and the timers that
    come due change nothing; for a saved file [do_resync] is registered,
    and as long as the scene is not there every call leaves the session as
    it is, timer included, while with the scene there the first call does
    the resync and drops the timer, and further calls change nothing. *)
Theorem auto_resync_runs_once s :
  timers s = [] ->
  let opened := load_post_handler s in
  (data_filepath s = "" -> forall k, Nat.iter k fire opened = s) /\
  (data_filepath s <> "" -> scene_ready s = false ->
   timers opened = [DoResync] /\ forall k, Nat.iter k fire opened = opened) /\
  (data_filepath s <> "" -> scene_ready s = true ->
   forall k, Nat.iter (S k) fire opened = snd (do_resync s)).
Proof.
  intros Ht. cbn zeta. unfold load_post_handler. split; [|split].
  - intros ->. cbn [String.eqb]. apply fire_idle, Ht.
  - intros Hp Hready. destruct (String.eqb_spec (data_filepath s) "") as [|_]; [contradiction|].
    rewrite Ht. split; [reflexivity|]. intros k.
    induction k as [|k IH]; [reflexivity|]. rewrite Nat.iter_succ, IH.
    unfold fire, do_resync. cbn [timers set_timers scene_ready app]. rewrite Hready. reflexivity.
  - intros Hp Hready k. destruct (String.eqb_spec (data_filepath s) "") as [|_]; [contradiction|].
    rewrite Ht. rewrite Nat.iter_succ_r.
    assert (H1 : fire (set_timers ([] ++ [DoResync]) s) = snd (do_resync s)).
    { unfold fire, do_resync. cbn [timers set_timers scene_ready app]. rewrite Hready.
      cbn [negb snd]. destruct s; cbn in *. subst. reflexivity. }
    rewrite H1. apply fire_idle. destruct (do_resync_frame s) as (_ & _ & _ & _ & Htm).
    rewrite Htm. exact Ht.
Qed.

Lemma auto_resync_runs_once_witness :
  let s := session_of arm_mesh None no_files in
  let opened := load_post_handler s in
  (data_filepath s = "" -> forall k, Nat.iter k fire opened = s) /\
  (data_filepath s <> "" -> scene_ready s = false ->
   timers opened = [DoResync] /\ forall k, Nat.iter k fire opened = opened) /\
  (data_filepath s <> "" -> scene_ready s = true ->
   forall k, Nat.iter (S k) fire opened = snd (do_resync s)).
Proof. apply (auto_resync_runs_once (session_of arm_mesh None no_files)). reflexivity. Defined.

(** * The panel *)

(** X21. What the panel offers: it is enabled exactly when the active
    object is a mesh; without one it shows "No mesh selected" and nothing
    else; with one it has the Save and the Load button always, the Resync
    and the Clear button exactly when syncing is active, and no other
    button. *)
Theorem panel_offers basename s :
  let items := flat_map leaves (fst (draw basename s)) in
  snd (draw basename s) = mesh_is_active s /\
  (mesh_is_active s = false -> items = [label "No mesh selected" "ERROR"]) /\
  (forall idname icon,
     In (operator idname icon) items <->
     mesh_is_active s = true /\
     (In (idname, icon) [("weightsync.save", "EXPORT"); ("weightsync.load", "IMPORT")] \/
      is_active (settings s) = true /\
      In (idname, icon) [("weightsync.resync", "FILE_REFRESH"); ("weightsync.clear", "X")])).
Proof.
  cbn zeta. unfold draw, mesh_is_active. destruct (active_ob s) as [obj|].
  2: { cbn. split; [reflexivity|]. split; [reflexivity|]. intros idname icon.
       split; [intros [[=]|[]]|intros [[=] _]]. }
  destruct (String.eqb (bpy.type obj) "MESH").
  2: { cbn. split; [reflexivity|]. split; [reflexivity|]. intros idname icon.
       split; [intros [[=]|[]]|intros [[=] _]]. }
  split; [reflexivity|]. split; [discriminate|]. intros idname icon.
  destruct (bpy.vertex_groups obj) as [|g vgs]; destruct (is_active (settings s));
    destruct (String.eqb (weight_file (settings s)) "");
    cbn [fst flat_map leaves app andb negb In]; split; intros H;
    repeat match goal with
           | H : _ \/ _ |- _ => destruct H as [H|H]
           | H : _ /\ _ |- _ => destruct H as [? H]
           | H : False |- _ => destruct H
           | H : label _ _ = operator _ _ |- _ => discriminate H
           | H : operator _ _ = operator _ _ |- _ => injection H as <- <-
           | H : (_, _) = (_, _) |- _ => injection H as <- <-
           | H : false = true |- _ => discriminate H
           end; tauto.
Qed.

(** X22. With a mesh active and settings in which syncing is active
    exactly when a path is stored, the status the panel shows fits its
    buttons: "Status: Active", with the file's name, exactly when Resync is
    offered, "Status: No file" exactly when it is not. *)
Theorem panel_status_fits_buttons basename s :
  coherent (settings s) ->
  mesh_is_active s = true ->
  let items := flat_map leaves (fst (draw basename s)) in
  let resync := operator "weightsync.resync" "FILE_REFRESH" in
  (In (label "Status: Active" "CHECKMARK") items <-> In resync items) /\
  (In (label ("File: " ++ basename (weight_file (settings s))) "FILE") items <-> In resync items) /\
  (In (label "Status: No file" "X") items <-> ~ In resync items).
Proof.
  unfold coherent, mesh_is_active, draw. intros Hc Hm. cbn zeta.
  destruct (active_ob s) as [obj|]; [|discriminate]. rewrite Hm, Hc.
  destruct (bpy.vertex_groups obj) as [|g vgs];
    destruct (String.eqb (weight_file (settings s)) "");
    cbn [fst flat_map leaves app andb negb In]; repeat split; intros H;
    repeat match goal with
           | H : _ \/ _ |- _ => destruct H as [H|H]
           | H : False |- _ => destruct H
           | H : label _ _ = operator _ _ |- _ => discriminate H
           | H : operator _ _ = label _ _ |- _ => discriminate H
           | H : operator _ _ = operator _ _ |- _ => discriminate H
           | H : label _ _ = label _ _ |- _ => discriminate H
           end; first [tauto | intuition congruence].
Qed.

Lemma panel_status_fits_buttons_witness :
  let s := set_settings {| weight_file := "w.json"; is_active := true |}
             (session_of arm_mesh None no_files) in
  let items := flat_map leaves (fst (draw (fun p => p) s)) in
  let resync := operator "weightsync.resync" "FILE_REFRESH" in
  (In (label "Status: Active" "CHECKMARK") items <-> In resync items) /\
  (In (label ("File: " ++ weight_file (settings s)) "FILE") items <-> In resync items) /\
  (In (label "Status: No file" "X") items <-> ~ In resync items).
Proof.
  apply (panel_status_fits_buttons (fun p => p)
           (set_settings {| weight_file := "w.json"; is_active := true |}
              (session_of arm_mesh None no_files))).
  - reflexivity.
  - reflexivity.
Defined.

(** * Registration *)

Lemma is_registered_app cls l r :
  is_registered cls {| registered := registered r ++ l; scene_property := scene_property r;
                       load_post := load_post r |}
  = is_registered cls r || existsb (String.eqb cls) l.
Proof. unfold is_registered. cbn [registered]. apply existsb_app. Qed.

Lemma existsb_eqb_false cls l : ~ In cls l -> existsb (String.eqb cls) l = false.
Proof.
  intros H. induction l as [|x l IH]; [reflexivity|]. cbn [existsb].
  destruct (String.eqb_spec cls x) as [->|_]; [destruct H; left; reflexivity|].
  apply IH. intros Hin. apply H. right. exact Hin.
Qed.

Lemma existsb_eqb_true cls l : In cls l -> existsb (String.eqb cls) l = true.
Proof.
  intros H. apply existsb_exists. exists cls. split; [exact H|apply String.eqb_refl].
Qed.

Lemma register_classes l : forall r,
  List.NoDup l ->
  (forall cls, In cls l -> is_registered cls r = false) ->
  for_classes register_class l r
  = (Return tt, {| registered := registered r ++ l; scene_property := scene_property r;
                   load_post := load_post r |}).
Proof.
  induction l as [|cls l IH]; intros r Hnd Hnew.
  - cbn [for_classes]. rewrite app_nil_r. destruct r; reflexivity.
  - cbn [for_classes]. unfold register_class. rewrite (Hnew cls) by (left; reflexivity).
    apply NoDup_cons_iff in Hnd. destruct Hnd as [Hcls Hnd]. rewrite IH.
    + cbn [registered scene_property load_post]. rewrite <- app_assoc. reflexivity.
    + exact Hnd.
    + intros c Hc. rewrite is_registered_app, (Hnew c) by (right; exact Hc).
      cbn [existsb orb]. rewrite orb_false_r. apply String.eqb_neq. intros ->. contradiction.
Qed.

Lemma unregister_classes l : forall r,
  List.NoDup l ->
  (forall cls, In cls l -> is_registered cls r = true) ->
  for_classes unregister_class l r
  = (Return tt, {| registered := List.filter (fun c => negb (existsb (String.eqb c) l)) (registered r);
                   scene_property := scene_property r; load_post := load_post r |}).
Proof.
  induction l as [|cls l IH]; intros r Hnd Hreg.
  - cbn [for_classes existsb negb]. f_equal. destruct r as [reg sp lp]. cbn. f_equal.
    clear. induction reg as [|x reg IHreg]; [reflexivity|]. cbn. f_equal. exact IHreg.
  - cbn [for_classes]. unfold unregister_class. rewrite (Hreg cls) by (left; reflexivity).
    apply NoDup_cons_iff in Hnd. destruct Hnd as [Hcls Hnd]. rewrite IH.
    + cbn [registered scene_property load_post]. f_equal. f_equal.
      generalize (registered r). clear. intros reg.
      induction reg as [|x reg IHreg]; [reflexivity|]. cbn [List.filter existsb].
      rewrite (String.eqb_sym x cls).
      destruct (String.eqb cls x); cbn [negb orb]; [exact IHreg|].
      cbn [List.filter]. destruct (negb (existsb (String.eqb x) l)); [f_equal|]; exact IHreg.
    + exact Hnd.
    + intros c Hc. unfold is_registered. cbn [registered]. apply existsb_exists.
      pose proof (Hreg c (or_intror Hc)) as H. unfold is_registered in H.
      apply existsb_exists in H. destruct H as (x & Hx & Heq). apply String.eqb_eq in Heq.
      subst x. exists c. split; [|apply String.eqb_refl]. apply filter_In. split; [exact Hx|].
      apply negb_true_iff, String.eqb_neq. intros ->. contradiction.
Qed.

Lemma classes_NoDup : List.NoDup classes.
Proof.
  unfold classes. repeat (apply List.NoDup_cons; [cbn [In]; intros H;
    repeat (destruct H as [H|H]; [discriminate H|]); exact H|]). apply List.NoDup_nil.
Qed.

Lemma list_remove_last h l :
  existsb (handler_eqb h) l = false -> list_remove h (l ++ [h]) = l.
Proof.
  assert (Hrefl : handler_eqb h h = true) by (destruct h; [reflexivity|apply String.eqb_refl]).
  assert (Hsym : forall a b, handler_eqb a b = handler_eqb b a).
  { intros [|x] [|y]; try reflexivity. apply String.eqb_sym. }
  induction l as [|x l IH]; cbn [existsb app list_remove]; intros H.
  - rewrite Hrefl. reflexivity.
  - apply orb_false_iff in H. destruct H as [Hx Hl]. rewrite Hsym, Hx. f_equal. apply IH, Hl.
Qed.

(** X23. Registering and then unregistering gives back the registry of
    before: on a registry that knows none of the addon's classes and has
    no [load_post_handler], [register] succeeds, adding the six classes in
    their order, the scene property and the handler, and [unregister] then
    succeeds and leaves the classes and the handlers that were there. *)
Theorem register_then_unregister r :
  (forall cls, In cls classes -> is_registered cls r = false) ->
  existsb (handler_eqb LoadPostHandler) (load_post r) = false ->
  exists r1 r2,
    register r = (Return tt, r1) /\
    registered r1 = registered r ++ classes /\
    scene_property r1 = true /\
    load_post r1 = load_post r ++ [LoadPostHandler] /\
    unregister r1 = (Return tt, r2) /\
    registered r2 = registered r /\
    scene_property r2 = false /\
    load_post r2 = load_post r.
Proof.
  intros Hnew Hh. unfold register. rewrite (register_classes classes r classes_NoDup Hnew).
  cbn [registered scene_property load_post]. eexists _, _. split; [reflexivity|].
  cbn [registered scene_property load_post]. do 3 (split; [reflexivity|]).
  unfold unregister. rewrite (unregister_classes classes _ classes_NoDup).
  2: { intros cls Hcls. unfold is_registered. cbn [registered]. rewrite existsb_app.
       rewrite (existsb_eqb_true cls classes Hcls). apply orb_true_r. }
  cbn [registered scene_property load_post]. split; [reflexivity|].
  cbn [registered scene_property load_post]. split; [|split; [reflexivity|]].
  - rewrite List.filter_app.
    assert (H2 : List.filter (fun c => negb (existsb (String.eqb c) classes)) classes = [])
      by reflexivity.
    rewrite H2, app_nil_r. apply forallb_filter_id. apply forallb_forall. intros c Hc.
    apply negb_true_iff. destruct (existsb (String.eqb c) classes) eqn:He; [|reflexivity].
    apply existsb_exists in He. destruct He as (x & Hx & Heq). apply String.eqb_eq in Heq.
    subst x. pose proof (Hnew c Hx) as Hf. unfold is_registered in Hf.
    rewrite (existsb_eqb_true c (registered r) Hc) in Hf. discriminate Hf.
  - rewrite existsb_app. cbn [existsb handler_eqb]. rewrite orb_true_r.
    apply list_remove_last, Hh.
Qed.

Lemma register_then_unregister_witness :
  exists r1 r2,
    register {| registered := ["Other"]; scene_property := false;
                load_post := [OtherHandler "other"] |} = (Return tt, r1) /\
    registered r1 = ["Other"] ++ classes /\
    scene_property r1 = true /\
    load_post r1 = [OtherHandler "other"] ++ [LoadPostHandler] /\
    unregister r1 = (Return tt, r2) /\
    registered r2 = ["Other"] /\
    scene_property r2 = false /\
    load_post r2 = [OtherHandler "other"].
Proof.
  apply (register_then_unregister
           {| registered := ["Other"]; scene_property := false;
              load_post := [OtherHandler "other"] |}).
  - intros cls H. cbn in H. repeat (destruct H as [H|H]; [subst cls; reflexivity|]).
    destruct H.
  - reflexivity.
Defined.

Lemma for_classes_register_raises l : forall r e r',
  for_classes register_class l r = (Raise e, r') ->
  e = ValueError /\ scene_property r' = scene_property r /\ load_post r' = load_post r /\
  exists done cls rest,
    l = done ++ cls :: rest /\ registered r' = registered r ++ done /\
    is_registered cls r' = true.
Proof.
  induction l as [|c l IH]; intros r e r'; cbn [for_classes]; [discriminate|].
  unfold register_class. destruct (is_registered c r) eqn:Hc.
  - intros [= <- <-]. repeat split. exists [], c, l. rewrite app_nil_r. repeat split. exact Hc.
  - intros H. apply IH in H. cbn [registered scene_property load_post] in H.
    destruct H as (He & Hsp & Hlp & done & cls & rest & -> & Hreg & Hcls).
    repeat split; try assumption. exists (c :: done), cls, rest.
    rewrite Hreg, <- app_assoc. repeat split. exact Hcls.
Qed.

(** X24. [register] does not take back what it has done: when it fails,
    it is with the refusal of a class that the editor knows already, the
    classes before that one stay registered, and neither the scene
    property nor the handler is added. *)
Theorem register_failure r e r' :
  register r = (Raise e, r') ->
  e = ValueError /\ scene_property r' = scene_property r /\ load_post r' = load_post r /\
  exists done cls rest,
    classes = done ++ cls :: rest /\ registered r' = registered r ++ done /\
    is_registered cls r' = true.
Proof.
  unfold register. destruct (for_classes register_class classes r) as [[[]|e0] r0] eqn:H;
    [discriminate|]. intros [= <- <-]. exact (for_classes_register_raises _ _ _ _ H).
Qed.

Lemma register_failure_witness :
  ValueError = ValueError /\
  scene_property {| registered := ["WEIGHTSYNC_OT_load"; "WeightSyncSettings"; "WEIGHTSYNC_OT_save"];
                    scene_property := false; load_post := [] |} = false /\
  load_post {| registered := ["WEIGHTSYNC_OT_load"; "WeightSyncSettings"; "WEIGHTSYNC_OT_save"];
               scene_property := false; load_post := [] |} = [] /\
  exists done cls rest,
    classes = done ++ cls :: rest /\
    registered {| registered := ["WEIGHTSYNC_OT_load"; "WeightSyncSettings"; "WEIGHTSYNC_OT_save"];
                  scene_property := false; load_post := [] |}
    = ["WEIGHTSYNC_OT_load"] ++ done /\
    is_registered cls
      {| registered := ["WEIGHTSYNC_OT_load"; "WeightSyncSettings"; "WEIGHTSYNC_OT_save"];
         scene_property := false; load_post := [] |} = true.
Proof.
  apply (register_failure
           {| registered := ["WEIGHTSYNC_OT_load"]; scene_property := false; load_post := [] |}).
  reflexivity.
Defined.

(** * The count printed and the count shown *)

Lemma for_each_invariant_acc {A S} (P : S -> list bpy.VertexGroup -> Prop)
    (body : A -> S -> M S) n l :
  (forall x a vgs a' vgs', P a vgs -> body x a n vgs = (Return a', vgs') -> P a' vgs') ->
  forall acc vgs a' vgs', P acc vgs -> for_each l acc body n vgs = (Return a', vgs') -> P a' vgs'.
Proof.
  intros Hbody. induction l as [|x l IH]; intros acc vgs a' vgs' HP; cbn [for_each].
  - unfold ret. intros [= <- <-]. exact HP.
  - unfold bind. destruct (body x acc n vgs) as [[a|e] vgs1] eqn:Hx; [|discriminate].
    apply IH. eapply Hbody; eassumption.
Qed.

Lemma filter_one_more (p p' : nat -> bool) k l :
  List.NoDup l ->
  (forall v, p' v = true -> p v = true \/ v = k) ->
  (~ In k l -> length (List.filter p' l) <= length (List.filter p l)) /\
  length (List.filter p' l) <= S (length (List.filter p l)).
Proof.
  intros Hnd Hp. induction l as [|x l IH]; [cbn; split; intros; lia|].
  apply NoDup_cons_iff in Hnd. destruct Hnd as [Hx Hnd]. destruct (IH Hnd) as [IH1 IH2].
  cbn [List.filter In]. destruct (p' x) eqn:Hp'.
  - destruct (Hp x Hp') as [Hpx| ->].
    + rewrite Hpx. cbn [length]. split; [intros Hk; apply le_n_S, IH1; tauto|lia].
    + split; [intros Hk; destruct Hk; left; reflexivity|]. cbn [length]. specialize (IH1 Hx).
      destruct (p k); cbn [length]; lia.
  - split; [intros Hk; specialize (IH1 (fun H => Hk (or_intror H)))|];
      destruct (p x); cbn [length]; lia.
Qed.

Lemma member_after_insert k w v ref : forall vgs,
  existsb (fun g => bool_decide (is_Some (bpy.vg_weights g !! v)))
    (alter (fun g => {| bpy.vg_name := bpy.vg_name g;
                        bpy.vg_weights := <[k := w]> (bpy.vg_weights g) |}) ref vgs) = true ->
  existsb (fun g => bool_decide (is_Some (bpy.vg_weights g !! v))) vgs = true \/ v = k.
Proof.
  revert ref. induction ref as [|ref IH]; intros [|g vgs]; cbn; try (intros H; discriminate H).
  - intros H. apply orb_true_iff in H. destruct H as [H|H]; [|left; rewrite H; apply orb_true_r].
    destruct (decide (k = v)) as [->|Hne]; [right; reflexivity|].
    rewrite lookup_insert_ne in H by exact Hne. left. rewrite H. reflexivity.
  - intros H. apply orb_true_iff in H. destruct H as [H|H]; [left; rewrite H; reflexivity|].
    destruct (IH vgs H) as [H'|H']; [left; rewrite H'; apply orb_true_r|right; exact H'].
Qed.

Lemma add_one_more (o : bpy.Object) n ref idx w vgs :
  vertices_with_groups (bpy.with_groups o (bpy.add n ref idx w vgs))
  <= S (vertices_with_groups (bpy.with_groups o vgs)).
Proof.
  unfold vertices_with_groups, bpy.add. cbn [bpy.with_groups bpy.vertices bpy.vertex_groups].
  destruct (_ && _)%bool; [|lia].
  apply (filter_one_more _ _ (Z.to_nat idx)); [apply seq_NoDup|].
  intros v. apply member_after_insert.
Qed.

Lemma apply_weight_one_more (o : bpy.Object) idx gw a n vgs a' vgs' :
  vertices_with_groups (bpy.with_groups o vgs) <= a ->
  apply_weight idx gw a n vgs = (Return a', vgs') ->
  vertices_with_groups (bpy.with_groups o vgs') <= a'.
Proof.
  intros H. unfold apply_weight; unfold_M.
  destruct (gt_zero (snd gw)) as [[|]|e]; try discriminate.
  - destruct (bpy.getitem (fst gw) vgs) as [i|e]; [|discriminate].
    destruct (as_float (snd gw)) as [w|e]; [|discriminate]. intros [= <- <-].
    pose proof (add_one_more o n i idx w vgs). lia.
  - intros [= <- <-]. exact H.
Qed.

Lemma apply_entry_one_more (o : bpy.Object) kv a n vgs a' vgs' :
  vertices_with_groups (bpy.with_groups o vgs) <= a ->
  apply_entry kv a n vgs = (Return a', vgs') ->
  vertices_with_groups (bpy.with_groups o vgs') <= a'.
Proof.
  intros H. unfold apply_entry; unfold_M.
  destruct (int (fst kv)) as [idx|e]; [|discriminate].
  destruct (Z.ltb idx (Z.of_nat n)); [|intros [= <- <-]; exact H].
  destruct (items (snd kv)) as [pairs|e]; [|discriminate].
  apply (for_each_invariant_acc
           (fun a vgs => vertices_with_groups (bpy.with_groups o vgs) <= a)); [|exact H].
  intros gw a0 vgs0 a1 vgs1. apply apply_weight_one_more.
Qed.

(** X25. When an import succeeds, the number it prints as "vertices
    affected" is never below the number of vertices that carry weights
    afterwards, the number the panel shows as "Vertices with weights". *)
Theorem printed_count_covers_panel_count (o : bpy.Object) filepath fs o' printed :
  load_weights (Some o) filepath fs = (None, Some o', printed) ->
  exists count created,
    printed = [LoadValidation; VerticesAffected count; GroupsCreated created] /\
    vertices_with_groups o' <= count.
Proof.
  intros H. destruct (load_weights_succeeded _ _ _ _ _ H) as (doc & recorded & Ht & Hf & Hget & Hne).
  rewrite (load_weights_checked o filepath fs doc recorded Ht Hf Hget Hne) in H.
  revert H. unfold load_body; unfold_M. rewrite Hget, Hne, clear_groups_spec.
  destruct (getitem doc "group_names") as [group_names|e]; [|discriminate].
  destruct (iter group_names) as [l|e]; [|discriminate].
  destruct (create_groups l (bpy.vertices o) []) as [[[]|e] vgs1] eqn:Hcreate; [|discriminate].
  destruct (getitem doc "vertex_groups") as [vertex_groups|e]; [|discriminate].
  destruct (items vertex_groups) as [entries|e]; [|discriminate].
  destruct (apply_weights entries (bpy.vertices o) vgs1) as [[count|e] vgs2] eqn:Happly;
    [|discriminate].
  destruct (len group_names) as [total|e]; [|discriminate].
  intros [= <- <-]. exists count, total. split; [reflexivity|].
  destruct (create_groups_completes _ _ _ _ Hcreate) as (ss & ->).
  rewrite create_groups_strings in Hcreate. injection Hcreate as <-.
  apply (for_each_invariant_acc
           (fun a vgs => vertices_with_groups (bpy.with_groups o vgs) <= a)
           apply_entry (bpy.vertices o) entries
           (fun kv a vgs a' vgs' => apply_entry_one_more o kv a (bpy.vertices o) vgs a' vgs')
           0 (created ss []) count vgs2); [|exact Happly].
  unfold vertices_with_groups. cbn [bpy.with_groups bpy.vertices bpy.vertex_groups].
  pose proof (created_weightless ss [] (Forall_nil_2 _)) as Hw.
  assert (Hnone : forall vgs v,
            Forall (fun g => bpy.vg_weights g = ∅) vgs ->
            existsb (fun g => bool_decide (is_Some (bpy.vg_weights g !! v))) vgs = false).
  { intros vgs v Hall. induction Hall as [|g l Hg _ IH]; [reflexivity|]. cbn [existsb].
    rewrite Hg, lookup_empty, IH. rewrite bool_decide_eq_false_2; [reflexivity|].
    intros [x Hx]. discriminate Hx. }
  induction (seq 0 (bpy.vertices o)) as [|v vs IH]; [reflexivity|].
  cbn [List.filter]. rewrite (Hnone _ v Hw). exact IH.
Qed.

Lemma printed_count_covers_panel_count_witness :
  exists count created,
    [LoadValidation; VerticesAffected 2; GroupsCreated 2]
    = [LoadValidation; VerticesAffected count; GroupsCreated created] /\
    vertices_with_groups
      (bpy.with_groups (mesh 1 [])
         [group "A" [(0, 0.5%float)]; group "B" [(0, 0.25%float)]]) <= count.
Proof.
  apply (printed_count_covers_panel_count (mesh 1 []) "w.json" (holding "w.json" two_groups_doc)).
  vm_compute. reflexivity.
Defined.
